(** * InvestSmart front end: timeframe aggregation and signal realignment

    A shallow embedding of

    - [components/chart.py]: [resample_data_to_timeframe],
      [map_signals_to_timeframe], [render_stock_chart] and
      [_create_candlestick_chart];
    - [utils/json_client.py]: [InvestSmartJSONClient];
    - [components/stock_selector.py]: [render_simple_stock_selector].

    Conventions of the embedding.

    - A calendar date is its day number, the count of days since
      1970-01-01 (a Thursday).  [pd.to_datetime] on an ISO date string and
      [strftime('%Y-%m-%d')] are the two directions of that bijection, so
      the model keeps every date axis as a [list Z].
    - JSON numbers are rationals ([Q]) for prices, volumes and the composite
      value, integers ([Z]) for the discrete signals.  Among the rationals
      a JSON integer [n] is [n # 1]; the sum of a volume column of 64-bit
      integers wraps around as it does in pandas, while the rounding of
      float arithmetic is not modelled.
    - A Python dict with a fixed set of keys is a record whose optional keys
      are [option] fields; a dict used as a map is a [gmap string].
    - The pandas calls ([DataFrame], [resample(...).agg(...)], [dropna],
      [get_loc], [searchsorted], [MonthEnd]) are modelled by what pandas
      documents for them; each such definition says so. *)

From Stdlib Require Import ZArith QArith Qminmax Lia Bool Ascii.
From stdpp Require Import base option list gmap strings sorting.

Open Scope Z_scope.

(* ===================================================================== *)
(** * Part 1: the embedding                                               *)
(* ===================================================================== *)

(** ** Calendar *)

Abbreviation date := Z (only parsing).

(** [Timestamp.weekday()]: Monday is 0.  Day 0 is a Thursday. *)
Definition weekday (d : date) : Z := (d + 3) mod 7.

Definition is_leap (y : Z) : bool :=
  (y mod 4 =? 0) && (negb (y mod 100 =? 0) || (y mod 400 =? 0)).

Definition days_in_month (y m : Z) : Z :=
  if m =? 2 then (if is_leap y then 29 else 28)
  else if (m =? 4) || (m =? 6) || (m =? 9) || (m =? 11) then 30
  else 31.

(** The proleptic Gregorian calendar, by 400-year eras that start on a
    1 March: [year_start] is the offset of the March-based year [yoe] in its
    era, [yoe_of] its inverse on day offsets. *)
Definition year_start (yoe : Z) : Z := 365 * yoe + yoe / 4 - yoe / 100.

Definition yoe_of (doe : Z) : Z :=
  (doe - doe / 1460 + doe / 36524 - doe / 146096) / 365.

(** Month (1..12) and day of month of the [doy]-th day of a March-based
    year. *)
Definition md_of_doy (doy : Z) : Z * Z :=
  let mp := (5 * doy + 2) / 153 in
  let d := doy - (153 * mp + 2) / 5 + 1 in
  (if mp <? 10 then mp + 3 else mp - 9, d).

Definition civil_of_doe (doe : Z) : Z * Z * Z :=
  let yoe := yoe_of doe in
  let '(m, d) := md_of_doy (doe - year_start yoe) in
  (yoe + (if m <=? 2 then 1 else 0), m, d).

(** Year, month and day of month of a day number. *)
Definition civil_from_days (z : date) : Z * Z * Z :=
  let '(y, m, d) := civil_of_doe ((z + 719468) mod 146097) in
  (y + 400 * ((z + 719468) / 146097), m, d).

(** Day number of a civil date; used to write dates down. *)
Definition days_from_civil (y m d : Z) : date :=
  let y' := if m <=? 2 then y - 1 else y in
  let yoe := y' mod 400 in
  let doy := (153 * (if 2 <? m then m - 3 else m + 9) + 2) / 5 + d - 1 in
  146097 * (y' / 400) + (yoe * 365 + yoe / 4 - yoe / 100 + doy) - 719468.

(** [ts.replace(day=1)]. *)
Definition month_start (z : date) : date :=
  let '(_, _, d) := civil_from_days z in z - (d - 1).

(** [ts + pd.offsets.MonthEnd(0)]: the last day of the month of [ts]
    ([ts] itself when it already is one). *)
Definition month_end (z : date) : date :=
  let '(y, m, d) := civil_from_days z in z + (days_in_month y m - d).

(** [orig_date + pd.Timedelta(days=(4 - orig_date.weekday()) % 7)]
    (chart.py, line 159). *)
Definition week_end (orig_date : date) : date :=
  orig_date + (4 - weekday orig_date) mod 7.

(** The day after [c] in the civil calendar. *)
Definition next_day (c : Z * Z * Z) : Z * Z * Z :=
  let '(y, m, d) := c in
  if d <? days_in_month y m then (y, m, d + 1)
  else if m <? 12 then (y, m + 1, 1)
  else (y + 1, 1, 1).

Definition valid_civil (c : Z * Z * Z) : Prop :=
  let '(y, m, d) := c in 1 <= m <= 12 /\ 1 <= d <= days_in_month y m.

(** Month lengths of a March-based year that ends in a February of
    [feb_len leap] days. *)
Definition feb_len (leap : bool) : Z := if leap then 29 else 28.
Definition month_len (leap : bool) (m : Z) : Z :=
  if m =? 2 then feb_len leap
  else if (m =? 4) || (m =? 6) || (m =? 9) || (m =? 11) then 30
  else 31.

(** What the table of [md_of_doy] must satisfy at the [doy]-th day of such
    a year: a valid month and day, and the next day follows it. *)
Definition md_step_ok (leap : bool) (doy : Z) : Prop :=
  let '(m, d) := md_of_doy doy in
  let '(m', d') := md_of_doy (doy + 1) in
  (1 <= m <= 12 /\ 1 <= d <= month_len leap m) /\
  (d < month_len leap m -> m' = m /\ d' = d + 1) /\
  (d = month_len leap m -> m <> 2 -> m' = (if m <? 12 then m + 1 else 1) /\ d' = 1) /\
  (d = month_len leap m -> m = 2 -> doy + 1 = 337 + feb_len leap) /\
  (doy + 1 = 337 + feb_len leap -> m = 2 /\ d = feb_len leap).

#[local] Instance md_step_ok_dec leap doy : Decision (md_step_ok leap doy).
Proof. unfold md_step_ok. destruct (md_of_doy doy), (md_of_doy (doy + 1)). apply _. Defined.

(** A family of periods that tile the day axis: [bucket z] is the last day
    of the period of [z], [start z] its first day. *)
Class Period (bucket start : Z -> Z) : Prop := {
  period_range z : start z <= z <= bucket z;
  period_block z z' :
    start z <= z' <= bucket z -> start z' = start z /\ bucket z' = bucket z
}.

(** ** Data model *)

(** [data['data']]: the five parallel price and volume arrays. *)
Record ohlcv := {
  open : list Q;
  high : list Q;
  low : list Q;
  close : list Q;
  volume : list Q
}.

(** A trendline overlay: a named, coloured polyline of (date, price). *)
Record trendline := {
  tl_name : string;
  tl_color : string;
  tl_points : list (date * Q)
}.

(** ['last_updated'] is the item's own text or, by default, its date. *)
Inductive stamp :=
| StampText (s : string)
| StampDate (d : date).

Inductive exn :=
| ValueError
| KeyError (key : string)
| TypeError.

Inductive result (A : Type) :=
| Ok (a : A)
| Raise (e : exn).
Arguments Ok {A} a.
Arguments Raise {A} e.

(** The ['error'] message of a dict returned by [get_signals_data]:
    [NoData] is the fixed "no data found" text, [QueryFailed e] the
    "query failed" text that quotes the caught exception. *)
Inductive error_info :=
| NoData
| QueryFailed (e : exn).

(** The dict exchanged between the JSON client, the resampler and the
    chart.  ['symbol'], ['dates'], ['signals'] and ['indicators'] are always
    there; the other keys are missing from some dicts. *)
Record dataset := {
  symbol : string;
  dates : list date;
  data : option ohlcv;
  signals : gmap string (list Z);
  indicators : gmap string (list Q);
  trendlines : option (list trendline);
  last_updated : option stamp;
  error : option error_info
}.

Definition empty_ohlcv : ohlcv :=
  {| open := []; high := []; low := []; close := []; volume := [] |}.

(** ** The pandas frame of [resample_data_to_timeframe] *)

Record row := {
  r_date : date;
  r_open : Q;
  r_high : Q;
  r_low : Q;
  r_close : Q;
  r_volume : Q
}.

Fixpoint zip_rows (ds : list date) (o h l c v : list Q) : list row :=
  match ds, o, h, l, c, v with
  | d :: ds', xo :: o', xh :: h', xl :: l', xc :: c', xv :: v' =>
      {| r_date := d; r_open := xo; r_high := xh; r_low := xl;
         r_close := xc; r_volume := xv |} :: zip_rows ds' o' h' l' c' v'
  | _, _, _, _, _, _ => []
  end.

Definition same_length (n : nat) (s : ohlcv) : bool :=
  (length (open s) =? n)%nat && (length (high s) =? n)%nat &&
  (length (low s) =? n)%nat && (length (close s) =? n)%nat &&
  (length (volume s) =? n)%nat.

(** [pd.DataFrame({'date': ..., 'open': ..., ...})] followed by
    [set_index('date')]: pandas refuses columns of different lengths with
    a [ValueError]. *)
Definition DataFrame (ds : list date) (stock_data : ohlcv) : result (list row) :=
  if same_length (length ds) stock_data
  then Ok (zip_rows ds (open stock_data) (high stock_data) (low stock_data)
             (close stock_data) (volume stock_data))
  else Raise ValueError.

(** The two resampling rules of the source: ['W-FRI'] and ['M']. *)
Inductive rule := W_FRI | M.

(** The label of the bin a date falls in: weeks end on a Friday, months on
    their last day; both bins are closed and labelled on the right. *)
Definition rule_label (r : rule) (d : date) : date :=
  match r with
  | W_FRI => week_end d
  | M => month_end d
  end.

(** All bin labels from [b] to [last], empty bins included. *)
Fixpoint bin_labels (r : rule) (fuel : nat) (b last : date) : list date :=
  match fuel with
  | O => []
  | S fuel' =>
      if b <=? last
      then b :: bin_labels r fuel' (rule_label r (b + 1)) last
      else []
  end.

(** [df.resample(rule)]: pandas lays the bins from the bin of the smallest
    index value to the bin of the largest one. *)
Definition resample_bins (r : rule) (df : list row) : list date :=
  match df with
  | [] => []
  | x :: rest =>
      let lo := foldl Z.min (r_date x) (r_date <$> rest) in
      let hi := foldl Z.max (r_date x) (r_date <$> rest) in
      bin_labels r (S (Z.to_nat (rule_label r hi - rule_label r lo)))
        (rule_label r lo) (rule_label r hi)
  end.

(** The rows of the frame that fall in the bin labelled [b], in the order
    of the frame (chronological, the index being ascending). *)
Definition bin_rows (r : rule) (df : list row) (b : date) : list row :=
  filter (fun x => rule_label r (r_date x) = b) df.

(** One row of [resample(rule).agg(ohlc_dict)]; an aggregate of an empty
    bin is NaN ([None]), except the sum, which is 0. *)
Record agg_row := {
  a_label : date;
  a_open : option Q;
  a_high : option Q;
  a_low : option Q;
  a_close : option Q;
  a_volume : Q
}.

Definition agg_max (l : list Q) : option Q :=
  match l with
  | [] => None
  | x :: t => Some (foldl Qmax x t)
  end.

Definition agg_min (l : list Q) : option Q :=
  match l with
  | [] => None
  | x :: t => Some (foldl Qmin x t)
  end.

(** The number type pandas gives a column.  A JSON integer [n] is the
    rational [n # 1], any other rational is a JSON float.  A column of
    integers that all fit in 64 bits is an [int64] column; a column with a
    float is a [float64] column; [BigInt] stands for a column of integers
    of which some are beyond the [int64] range, which pandas holds as
    unsigned or as Python integers: the statements about sums below are
    about [int64] and [float64] columns only. *)
Inductive dtype := Int64 | Float64 | BigInt.

Definition is_integer (q : Q) : bool := (Qden q =? 1)%positive.

Definition is_int64 (q : Q) : bool :=
  is_integer q && (- 2 ^ 63 <=? Qnum q) && (Qnum q <? 2 ^ 63).

Definition column_dtype (l : list Q) : dtype :=
  if forallb is_int64 l then Int64
  else if forallb is_integer l then BigInt
  else Float64.

(** Two's complement wrap-around of a 64-bit signed integer. *)
Definition wrap64 (z : Z) : Z := (z + 2 ^ 63) mod 2 ^ 64 - 2 ^ 63.

(** ['volume': 'sum'] on a group of the column: an [int64] column is
    summed in 64-bit integers, and the sum wraps around; the other columns
    are summed as they are (the rounding of a float sum is left out). *)
Definition agg_sum (t : dtype) (l : list Q) : Q :=
  match t with
  | Int64 => inject_Z (wrap64 (foldl Z.add 0 (Qnum <$> l)))
  | Float64 | BigInt => foldl Qplus 0%Q l
  end.

(** [ohlc_dict]: open first, high max, low min, close last, volume sum. *)
Definition agg_ohlc (t : dtype) (b : date) (g : list row) : agg_row :=
  {| a_label := b;
     a_open := head (r_open <$> g);
     a_high := agg_max (r_high <$> g);
     a_low := agg_min (r_low <$> g);
     a_close := last (r_close <$> g);
     a_volume := agg_sum t (r_volume <$> g) |}.

Definition resample_agg (r : rule) (df : list row) : list agg_row :=
  let volume_dtype := column_dtype (r_volume <$> df) in
  (fun b => agg_ohlc volume_dtype b (bin_rows r df b)) <$> resample_bins r df.

(** [dropna()]: a row with a NaN in any column is removed. *)
Definition dropna_row (a : agg_row) : option row :=
  match a_open a, a_high a, a_low a, a_close a with
  | Some o, Some h, Some l, Some c =>
      Some {| r_date := a_label a; r_open := o; r_high := h; r_low := l;
              r_close := c; r_volume := a_volume a |}
  | _, _, _, _ => None
  end.

Definition dropna (l : list agg_row) : list row := omap dropna_row l.

(** ** [map_signals_to_timeframe] *)

(** [DatetimeIndex.get_loc] on an index without duplicates: the position of
    the key, [None] for [KeyError]. *)
Fixpoint get_loc (index : list date) (key : date) : option nat :=
  match index with
  | [] => None
  | x :: t => if x =? key then Some O else S <$> get_loc t key
  end.

(** [DatetimeIndex.searchsorted] (side left) on an ascending index: the
    number of entries before the first one that is not below [v]. *)
Fixpoint searchsorted (index : list date) (v : date) : nat :=
  match index with
  | [] => O
  | x :: t => if x <? v then S (searchsorted t v) else O
  end.

(** The [try: get_loc / except KeyError: searchsorted] block (lines
    160-168 and 172-180); [None] is the [continue]. *)
Definition locate (resampled_dt : list date) (period_end : date) : option nat :=
  match get_loc resampled_dt period_end with
  | Some resampled_idx => Some resampled_idx
  | None =>
      let closest_idx := searchsorted resampled_dt period_end in
      if (0 <? closest_idx)%nat then Some (closest_idx - 1)%nat else None
  end.

(** The boundary computed for a daily date (lines 159 and 171); [None]
    is the final [else: continue]. *)
Definition period_end (timeframe : string) (orig_date : date) : option date :=
  if String.eqb timeframe "weekly" then Some (week_end orig_date)
  else if String.eqb timeframe "monthly" then Some (month_end orig_date)
  else None.

Definition resampled_idx (timeframe : string) (resampled_dt : list date)
    (orig_date : date) : option nat :=
  period_end timeframe orig_date ≫= locate resampled_dt.

(** Lines 186-187 for one signal. *)
Definition write_signal (i idx : nat) (signal_name : string)
    (signal_values : list Z) (mapped_signals : gmap string (list Z))
  : gmap string (list Z) :=
  match signal_values !! i with
  | Some v =>
      if decide (v = 0) then mapped_signals
      else alter (fun slots => <[idx := v]> slots) signal_name mapped_signals
  | None => mapped_signals
  end.

(** Lines 185-187: the loop over [original_signals.items()]. *)
Definition write_signals (i idx : nat) (original_signals : gmap string (list Z))
    (mapped_signals : gmap string (list Z)) : gmap string (list Z) :=
  map_fold (write_signal i idx) mapped_signals original_signals.

(** The body of the loop over [enumerate(original_dt)]. *)
Definition map_entry (timeframe : string) (resampled_dt : list date)
    (original_signals : gmap string (list Z))
    (mapped_signals : gmap string (list Z)) (entry : nat * date)
  : gmap string (list Z) :=
  match resampled_idx timeframe resampled_dt entry.2 with
  | Some idx => write_signals entry.1 idx original_signals mapped_signals
  | None => mapped_signals
  end.

Definition map_signals_to_timeframe (original_signals : gmap string (list Z))
    (original_dates resampled_dates : list date) (timeframe : string)
  : gmap string (list Z) :=
  if String.eqb timeframe "daily" then original_signals
  else
    let mapped_signals :=
      (fun _ => replicate (length resampled_dates) 0) <$> original_signals in
    foldl (map_entry timeframe resampled_dates original_signals)
      mapped_signals (imap pair original_dates).

(** ** [resample_data_to_timeframe] *)

Definition FCV : string := "Final_Composite_Value".

(** Lines 83-90: the first day of the period that ends on the resampled
    date. *)
Definition week_start (timeframe : string) (resampled_date_dt : date) : date :=
  if String.eqb timeframe "weekly" then resampled_date_dt - 6
  else if String.eqb timeframe "monthly" then month_start resampled_date_dt
  else resampled_date_dt.

(** Lines 93-96: the composite values of the daily dates in the period,
    in the order of the daily axis. *)
Definition period_fcv_values (timeframe : string) (original_dates : list date)
    (indicator_values : list Q) (resampled_date : date) : list Q :=
  omap id
    (imap (fun j orig_date =>
             if (week_start timeframe resampled_date <=? orig_date)
                && (orig_date <=? resampled_date)
             then indicator_values !! j else None)
          original_dates).

(** Lines 79-102. *)
Definition resample_fcv (timeframe : string) (original_dates : list date)
    (indicator_values : list Q) (resampled_dates : list date) : list Q :=
  (fun resampled_date =>
     default 0%Q
       (last (period_fcv_values timeframe original_dates indicator_values
                resampled_date)))
  <$> resampled_dates.

(** Lines 76-106 for one entry of [data['indicators']]. *)
Definition resample_indicator (timeframe : string)
    (original_dates resampled_dates : list date)
    (indicator_name : string) (indicator_values : list Q) : list Q :=
  if String.eqb indicator_name FCV && (0 <? length indicator_values)%nat
  then resample_fcv timeframe original_dates indicator_values resampled_dates
  else indicator_values.

(** Lines 50-55. *)
Definition resample_rule (timeframe : string) : option rule :=
  if String.eqb timeframe "weekly" then Some W_FRI
  else if String.eqb timeframe "monthly" then Some M
  else None.

Definition resample_data_to_timeframe (ds : dataset) (timeframe : string)
  : result dataset :=
  if String.eqb timeframe "daily" then Ok ds
  else
    let stock_data := default empty_ohlcv (data ds) in
    match DataFrame (dates ds) stock_data with
    | Raise e => Raise e
    | Ok df =>
        match resample_rule timeframe with
        | None => Ok ds
        | Some r =>
            let resampled_df := dropna (resample_agg r df) in
            let resampled_dates := r_date <$> resampled_df in
            let mapped_signals :=
              map_signals_to_timeframe (signals ds) (dates ds)
                resampled_dates timeframe in
            let resampled_indicators :=
              map_imap (fun indicator_name indicator_values =>
                          Some (resample_indicator timeframe (dates ds)
                                  resampled_dates indicator_name
                                  indicator_values))
                       (indicators ds) in
            Ok {| symbol := symbol ds;
                  dates := resampled_dates;
                  data := Some {| open := r_open <$> resampled_df;
                                  high := r_high <$> resampled_df;
                                  low := r_low <$> resampled_df;
                                  close := r_close <$> resampled_df;
                                  volume := r_volume <$> resampled_df |};
                  signals := mapped_signals;
                  indicators := resampled_indicators;
                  trendlines := Some (default [] (trendlines ds));
                  last_updated := last_updated ds;
                  error := None |}
        end
    end.

(** ** The head of [_create_candlestick_chart] (lines 325-343) *)

Record chart_arrays := {
  c_dates : list date;
  c_open : list Q;
  c_high : list Q;
  c_low : list Q;
  c_close : list Q
}.

(** The arrays handed to the candlestick trace: all cut to the shortest
    one; nothing is drawn ([None]) when that length is 0 or when the dict
    has no ['data']. *)
Definition chart_inputs (signals_data : dataset) : option chart_arrays :=
  match data signals_data with
  | None => None
  | Some s =>
      let min_length :=
        Nat.min (length (dates signals_data))
          (Nat.min (length (open s))
             (Nat.min (length (high s))
                (Nat.min (length (low s)) (length (close s))))) in
      if (min_length =? 0)%nat then None
      else Some {| c_dates := take min_length (dates signals_data);
                   c_open := take min_length (open s);
                   c_high := take min_length (high s);
                   c_low := take min_length (low s);
                   c_close := take min_length (close s) |}
  end.

(** ** [InvestSmartJSONClient] *)

(** One object of a symbol file.  ['date'] is read with [item['date']],
    every other key with [item.get(key, 0)]. *)
Record item := {
  i_date : option date;
  i_open : option Q;
  i_high : option Q;
  i_low : option Q;
  i_close : option Q;
  i_volume : option Q;
  i_short_signal_v1 : option Z;
  i_short_signal_v2 : option Z;
  i_long_signal : option Z;
  i_combined_signal_v1 : option Z;
  i_macd_signal : option Z;
  i_momentum_color_signal : option Z;
  i_fcv : option Q;
  i_last_updated : option string
}.

(** What [json.load] returns: a list of objects, a value that Python
    counts as false and that is not a list ([null], [false], [0], the empty
    string, the empty object), or any other value; iterating over one of
    the latter and indexing its elements with ['date'] raises. *)
Inductive json_doc :=
| DocItems (items : list item)
| DocFalsy
| DocOther.

Inductive file_state :=
| Missing
| Unreadable
| Content (doc : json_doc).

Record client := {
  data_dir : string;
  _cache : gmap string json_doc
}.

(** [InvestSmartJSONClient(data_dir)]. *)
Definition new_client (dir : string) : client :=
  {| data_dir := dir; _cache := ∅ |}.

(** [s.replace(c, by)] for a one-character [c]. *)
Fixpoint replace_char (c : Ascii.ascii) (by_ : string) (s : string) : string :=
  match s with
  | EmptyString => EmptyString
  | String x s' =>
      if Ascii.eqb x c then by_ +:+ replace_char c by_ s'
      else String x (replace_char c by_ s')
  end.

Definition _get_symbol_filename (symbol_ : string) : string :=
  let safe_symbol :=
    replace_char "/"%char "_"
      (replace_char "="%char "" (replace_char "^"%char "" symbol_)) in
  "signals_" +:+ safe_symbol +:+ ".json".

Fixpoint ends_with_slash (s : string) : bool :=
  match s with
  | EmptyString => false
  | String x EmptyString => Ascii.eqb x "/"%char
  | String _ s' => ends_with_slash s'
  end.

(** [os.path.join(dir, filename)] for a relative [filename]. *)
Definition path_join (dir filename : string) : string :=
  match dir with
  | EmptyString => filename
  | _ => if ends_with_slash dir then dir +:+ filename
         else dir +:+ "/" +:+ filename
  end.

(** The file system is a map from paths to file states. *)
Definition _load_symbol_data (self : client) (fs : string -> file_state)
    (symbol_ : string) : json_doc :=
  let filename := _get_symbol_filename symbol_ in
  let file_path := path_join (data_dir self) filename in
  match fs file_path with
  | Missing => DocItems []
  | Unreadable => DocItems []
  | Content doc => doc
  end.

(** Python truth value of a loaded document. *)
Definition truthy (doc : json_doc) : bool :=
  match doc with
  | DocItems [] => false
  | DocItems (_ :: _) => true
  | DocFalsy => false
  | DocOther => true
  end.

Definition error_dict (symbol_ : string) (e : error_info) : dataset :=
  {| symbol := symbol_; dates := []; data := None; signals := ∅;
     indicators := ∅; trendlines := None; last_updated := None;
     error := Some e |}.

(** The dates of the items, as the loop of lines 74-87 collects them;
    the first item without ['date'] raises. *)
Fixpoint item_dates (items : list item) : result (list date) :=
  match items with
  | [] => Ok []
  | it :: rest =>
      match i_date it with
      | None => Raise (KeyError "date")
      | Some d =>
          match item_dates rest with
          | Ok ds => Ok (d :: ds)
          | Raise e => Raise e
          end
      end
  end.

Definition column {A} (get : item -> option A) (dflt : A) (items : list item)
  : list A :=
  (fun it => default dflt (get it)) <$> items.

(** Lines 64-97. *)
Definition structure (symbol_ : string) (symbol_data : json_doc)
  : result dataset :=
  match symbol_data with
  | DocItems items =>
      match item_dates items with
      | Raise e => Raise e
      | Ok ds =>
          Ok {| symbol := symbol_;
                dates := ds;
                data := Some {| open := column i_open 0%Q items;
                                high := column i_high 0%Q items;
                                low := column i_low 0%Q items;
                                close := column i_close 0%Q items;
                                volume := column i_volume 0%Q items |};
                signals :=
                  <["short_signal_v1" := column i_short_signal_v1 0 items]>
                  (<["short_signal_v2" := column i_short_signal_v2 0 items]>
                  (<["long_signal" := column i_long_signal 0 items]>
                  (<["combined_signal_v1" := column i_combined_signal_v1 0 items]>
                  (<["macd_signal" := column i_macd_signal 0 items]>
                  (<["momentum_color_signal" :=
                       column i_momentum_color_signal 0 items]> ∅)))));
                indicators := {[ FCV := column i_fcv 0%Q items ]};
                trendlines := Some [];
                last_updated :=
                  match last items, last ds with
                  | Some it, Some d =>
                      Some (match i_last_updated it with
                            | Some s => StampText s
                            | None => StampDate d
                            end)
                  | _, _ => None
                  end;
                error := None |}
      end
  | DocFalsy => Raise TypeError  (* not reached: such a document is not truthy *)
  | DocOther => Raise TypeError
  end.

(** [get_signals_data]: the returned dict and the client after the call
    (its cache may have grown).  [period] is not used by the source. *)
Definition get_signals_data (self : client) (fs : string -> file_state)
    (symbol_ period : string) : dataset * client :=
  let '(symbol_data, self') :=
    match _cache self !! symbol_ with
    | Some doc => (doc, self)
    | None =>
        let doc := _load_symbol_data self fs symbol_ in
        (doc, {| data_dir := data_dir self;
                 _cache := <[symbol_ := doc]> (_cache self) |})
    end in
  if negb (truthy symbol_data) then (error_dict symbol_ NoData, self')
  else
    match structure symbol_ symbol_data with
    | Ok d => (d, self')
    | Raise e => (error_dict symbol_ (QueryFailed e), self')
    end.

(** ** Vocabulary of the statements *)

(** The Friday of the ISO week (Monday to Sunday) that contains [d]. *)
Definition iso_week_friday (d : date) : date := d - weekday d + 4.

(** A well-formed daily dataset: strictly ascending dates, the OHLCV
    arrays present, and every array as long as the date axis. *)
Definition well_formed (ds : dataset) : Prop :=
  StronglySorted Z.lt (dates ds) /\
  match data ds with
  | Some s => same_length (length (dates ds)) s = true
  | None => False
  end /\
  map_Forall (fun _ (s : list Z) => length s = length (dates ds)) (signals ds) /\
  map_Forall (fun _ (s : list Q) => length s = length (dates ds)) (indicators ds).

#[export] Instance well_formed_dec ds : Decision (well_formed ds).
Proof. unfold well_formed. destruct (data ds); apply _. Defined.

(** The daily records of a dataset, one per date. *)
Definition daily_records (ds : dataset) : list row :=
  let s := default empty_ohlcv (data ds) in
  zip_rows (dates ds) (open s) (high s) (low s) (close s) (volume s).

(** The daily records that contribute to the bucket with boundary [b]. *)
Definition contributing (r : rule) (ds : dataset) (b : date) : list row :=
  filter (fun x => rule_label r (r_date x) = b) (daily_records ds).

Definition is_max_of (x : Q) (l : list Q) : Prop :=
  x ∈ l /\ forall y, y ∈ l -> (y <= x)%Q.

Definition is_min_of (x : Q) (l : list Q) : Prop :=
  x ∈ l /\ forall y, y ∈ l -> (x <= y)%Q.

Definition Qsum (l : list Q) : Q := foldr Qplus 0%Q l.

Definition Zsum (l : list Z) : Z := foldr Z.add 0 l.

(** Entry [i] of the series stored under [name]. *)
Definition entry_at {A} (m : gmap string (list A)) (name : string) (i : nat)
  : option A :=
  m !! name ≫= fun series => series !! i.

(** The first day of the interval of a bucket with boundary [b]:
    [b - 6] for a week, the first day of the month of [b] for a month. *)
Definition interval_start (r : rule) (b : date) : date :=
  match r with
  | W_FRI => b - 6
  | M => month_start b
  end.

(** The first day of the period whose bin label is [rule_label r z]. *)
Definition rule_start (r : rule) (z : date) : date :=
  match r with
  | W_FRI => week_end z - 6
  | M => month_start z
  end.

(** Lines 186-187 on the slots of one signal. *)
Definition write_one (i idx : nat) (signal_values : list Z) (slots : list Z)
  : list Z :=
  match signal_values !! i with
  | Some v => if decide (v = 0) then slots else <[idx := v]> slots
  | None => slots
  end.

(** What the loop of [map_signals_to_timeframe] does to the slots of one
    signal, entry by entry. *)
Definition slot_write (timeframe : string) (resampled_dt : list date)
    (signal_values : list Z) (slots : list Z) (entry : nat * date) : list Z :=
  match resampled_idx timeframe resampled_dt entry.2 with
  | Some idx =>
      match signal_values !! entry.1 with
      | Some v => if decide (v = 0) then slots else <[idx := v]> slots
      | None => slots
      end
  | None => slots
  end.

Definition map_signal (timeframe : string) (resampled_dt original_dates : list date)
    (signal_values : list Z) : list Z :=
  foldl (slot_write timeframe resampled_dt signal_values)
    (replicate (length resampled_dt) 0) (imap pair original_dates).

(** The nonzero values of the daily entries selected by [sel], in the
    order of the daily axis, and the last of them (0 when there is none). *)
Definition events_in (sel : date -> bool) (original_dates : list date)
    (signal_values : list Z) : list Z :=
  omap id
    (imap (fun i d =>
             match signal_values !! i with
             | Some v => if sel d && negb (v =? 0) then Some v else None
             | None => None
             end)
          original_dates).

Definition last_event (sel : date -> bool) (original_dates : list date)
    (signal_values : list Z) : Z :=
  default 0 (last (events_in sel original_dates signal_values)).

(** The values picked by [f] along a list, in the order of the list; both
    [events_in] and [period_fcv_values] are of this shape. *)
Definition picks {A B} (f : nat -> A -> option B) (l : list A) : list B :=
  omap id (imap f l).

(** ** Example data

    The trading week from Monday 2024-01-01 to Friday 2024-01-05. *)

Definition jan (d : Z) : date := days_from_civil 2024 1 d.

Definition week1 : list date := [jan 1; jan 2; jan 3; jan 4; jan 5].

Definition prices (l : list Z) : list Q := inject_Z <$> l.

(** Closes 10, 11, 9, 12, 13; a signal with 1 on day 2 and -1 on day 4;
    composite values 0.2, 0.6, 0.9 on the last three days. *)
Definition week1_data : dataset :=
  {| symbol := "^KS11";
     dates := week1;
     data := Some {| open := prices [10; 10; 11; 9; 12];
                     high := prices [11; 12; 11; 12; 13];
                     low := prices [9; 10; 9; 9; 12];
                     close := prices [10; 11; 9; 12; 13];
                     volume := prices [100; 200; 300; 400; 500] |};
     signals := {[ "short_signal_v1" := [0; 1; 0; -1; 0] ]};
     indicators := {[ FCV := [0%Q; 0%Q; (2 # 10)%Q; (6 # 10)%Q; (9 # 10)%Q] ]};
     trendlines := Some [];
     last_updated := None;
     error := None |}.

(** Three days of that week with the composite values 0.2, 0.6, 0.9. *)
Definition three_days : dataset :=
  {| symbol := "^KS11";
     dates := [jan 1; jan 2; jan 3];
     data := Some {| open := prices [10; 10; 11];
                     high := prices [11; 12; 11];
                     low := prices [9; 10; 9];
                     close := prices [10; 11; 9];
                     volume := prices [100; 200; 300] |};
     signals := ∅;
     indicators := {[ FCV := [(2 # 10)%Q; (6 # 10)%Q; (9 # 10)%Q] ]};
     trendlines := Some [];
     last_updated := None;
     error := None |}.

(** Thursday and Friday of that week with volumes 2^63 - 1 and 1. *)
Definition heavy_week : dataset :=
  {| symbol := "^KS11";
     dates := [jan 4; jan 5];
     data := Some {| open := prices [9; 12];
                     high := prices [12; 13];
                     low := prices [9; 12];
                     close := prices [12; 13];
                     volume := prices [2 ^ 63 - 1; 1] |};
     signals := ∅;
     indicators := ∅;
     trendlines := Some [];
     last_updated := None;
     error := None |}.

(** The same week with a second indicator next to the composite. *)
Definition week1_rsi : dataset :=
  {| symbol := symbol week1_data;
     dates := dates week1_data;
     data := data week1_data;
     signals := signals week1_data;
     indicators := <["rsi" := prices [40; 45; 50; 55; 60]]> (indicators week1_data);
     trendlines := trendlines week1_data;
     last_updated := last_updated week1_data;
     error := error week1_data |}.

(** The same week with a signal series shorter than the date axis. *)
Definition week1_short_signal : dataset :=
  {| symbol := symbol week1_data;
     dates := dates week1_data;
     data := data week1_data;
     signals := {[ "short_signal_v1" := [0; 1; 0] ]};
     indicators := indicators week1_data;
     trendlines := trendlines week1_data;
     last_updated := last_updated week1_data;
     error := error week1_data |}.

(** The same week with close prices shorter than the date axis. *)
Definition week1_short_close : dataset :=
  {| symbol := symbol week1_data;
     dates := dates week1_data;
     data := Some {| open := prices [10; 10; 11; 9; 12];
                     high := prices [11; 12; 11; 12; 13];
                     low := prices [9; 10; 9; 9; 12];
                     close := prices [10; 11; 9];
                     volume := prices [100; 200; 300; 400; 500] |};
     signals := signals week1_data;
     indicators := indicators week1_data;
     trendlines := trendlines week1_data;
     last_updated := last_updated week1_data;
     error := error week1_data |}.

(** One stored item, and a client that loaded it earlier. *)
Definition item1 : item :=
  {| i_date := Some (jan 2); i_open := Some 10%Q; i_high := Some 12%Q;
     i_low := Some 10%Q; i_close := Some 11%Q; i_volume := Some 200%Q;
     i_short_signal_v1 := Some 1; i_short_signal_v2 := None;
     i_long_signal := None; i_combined_signal_v1 := None;
     i_macd_signal := None; i_momentum_color_signal := None;
     i_fcv := Some (2 # 10)%Q; i_last_updated := None |}.

Definition warm_client : client :=
  {| data_dir := "data"; _cache := {[ "TLT" := DocItems [item1] ]} |}.

(** A file system without any file. *)
Definition no_files : string -> file_state := fun _ => Missing.

(** ** The rest of the client and of the chart *)

(** The document [get_signals_data] works on: the cached one when there
    is one, the file content otherwise. *)
Definition consulted (self : client) (fs : string -> file_state)
    (symbol_ : string) : json_doc :=
  match _cache self !! symbol_ with
  | Some doc => doc
  | None => _load_symbol_data self fs symbol_
  end.

(** [s.endswith(suffix)]: some tail of [s] is [suffix]. *)
Fixpoint ends_with (suffix s : string) : bool :=
  String.eqb s suffix ||
  match s with
  | EmptyString => false
  | String _ s' => ends_with suffix s'
  end.

(** [s.replace(old, "")] for a non-empty [old]: the occurrences of [old]
    are found from left to right, without overlap, and left out; [skip]
    counts the characters of the current occurrence still to leave out. *)
Fixpoint remove_all_go (old : string) (skip : nat) (s : string) : string :=
  match s with
  | EmptyString => EmptyString
  | String c s' =>
      match skip with
      | S k => remove_all_go old k s'
      | O =>
          if String.prefix old s then remove_all_go old (String.length old - 1) s'
          else String c (remove_all_go old 0 s')
      end
  end.

Definition remove_all (old s : string) : string := remove_all_go old 0 s.

(** Lines 118-160 of json_client.py: the special characters that
    [_get_symbol_filename] took out are put back for the known symbols. *)
Definition restore_symbol (symbol_ : string) : string :=
  if String.eqb symbol_ "KS11" then "^KS11"
  else if String.eqb symbol_ "IXIC" then "^IXIC"
  else if String.eqb symbol_ "GSPC" then "^GSPC"
  else if String.eqb symbol_ "DJI" then "^DJI"
  else if String.eqb symbol_ "FTSE" then "^FTSE"
  else if String.eqb symbol_ "GDAXI" then "^GDAXI"
  else if String.eqb symbol_ "FCHI" then "^FCHI"
  else if String.eqb symbol_ "N225" then "^N225"
  else if String.eqb symbol_ "HSI" then "^HSI"
  else if String.eqb symbol_ "AXJO" then "^AXJO"
  else if String.eqb symbol_ "GCF" then "GC=F"
  else if String.eqb symbol_ "SIF" then "SI=F"
  else if String.eqb symbol_ "CLF" then "CL=F"
  else if String.eqb symbol_ "NGF" then "NG=F"
  else if String.eqb symbol_ "ZCF" then "ZC=F"
  else if String.eqb symbol_ "ZSF" then "ZS=F"
  else if String.eqb symbol_ "USDKRWX" then "USDKRW=X"
  else if String.eqb symbol_ "EURUSDX" then "EURUSD=X"
  else if String.eqb symbol_ "GBPUSDX" then "GBPUSD=X"
  else if String.eqb symbol_ "USDJPYX" then "USDJPY=X"
  else if String.eqb symbol_ "005930KS" then "005930.KS"
  else symbol_.

(** Line 115: the files that count as symbol files. *)
Definition is_symbol_file (filename : string) : bool :=
  String.prefix "signals_" filename && ends_with ".json" filename.

(** Lines 117-160: the symbol listed for a symbol file. *)
Definition symbol_of_file (filename : string) : string :=
  restore_symbol (remove_all ".json" (remove_all "signals_" filename)).

(** What [os.path.exists] and [os.listdir] find at a directory path. *)
Inductive dir_state :=
| NoDir
| DirError
| Listing (names : list string).

(** [get_available_symbols]: [sorted] is the ascending order of Python
    strings, here [String.le]; a failing [os.listdir] is caught and gives
    the empty list. *)
Definition get_available_symbols (self : client) (ls : string -> dir_state)
  : list string :=
  match ls (data_dir self) with
  | NoDir => []
  | DirError => []
  | Listing names =>
      merge_sort String.le (symbol_of_file <$> filter (fun f => is_symbol_file f = true) names)
  end.

(** A symbol without any of the characters that the file name scheme or
    the listing treats specially. *)
Definition plain_symbol (x : string) : Prop :=
  Forall (fun c => c ∉ ["^"; "="; "/"; "_"; "."]%char)
    (String.list_ascii_of_string x).

(** A data directory with three symbol files and a stray file. *)
Definition data_listing : string -> dir_state :=
  fun _ => Listing ["signals_TLT.json"; "readme.txt"; "signals_KS11.json";
                    "signals_AAPL.json"].

(** Two items, the second without a date. *)
Definition item_without_date : item :=
  {| i_date := None; i_open := Some 10%Q; i_high := None; i_low := None;
     i_close := None; i_volume := None; i_short_signal_v1 := None;
     i_short_signal_v2 := None; i_long_signal := None;
     i_combined_signal_v1 := None; i_macd_signal := None;
     i_momentum_color_signal := None; i_fcv := None; i_last_updated := None |}.

Definition broken_file : string -> file_state :=
  fun _ => Content (DocItems [item1; item_without_date]).

(** ** The markers and zones of [_create_candlestick_chart] (lines 386-630) *)

(** The display flags of [st.session_state], each as
    [st.session_state.get(key, True)] reads it. *)
Record session := {
  show_local_dip : bool;
  show_rebound_potential : bool;
  show_rebound_alert : bool;
  show_fcv_zones : bool
}.

(** The keys of [settings] that the chart code reads:
    [settings.get('selected_signals')] (nothing when missing),
    [settings.get('show_buy_signals', True)] and
    [settings['selected_indicator_group']] when it is there. *)
Record chart_settings := {
  selected_signals : list string;
  show_buy_signals : bool;
  selected_indicator_group : option string
}.

(** [enumerate(l)]. *)
Definition enumerate {A : Type} (l : list A) : list (nat * A) := imap pair l.

(** [l[start:stop]] for [0 <= start]. *)
Definition slice {A : Type} (start stop : nat) (l : list A) : list A :=
  take (stop - start) (drop start l).

(** [strftime('%Y-%W')], as the two numbers it prints: the year and the
    week of the year, where weeks start on a Monday and the days before the
    first Monday of the year are in week 0. *)
Definition year_of (d : date) : Z := (civil_from_days d).1.1.
Definition yday (d : date) : Z := d - days_from_civil (year_of d) 1 1.
Definition strftime_Y_W (d : date) : Z * Z :=
  (year_of d, (yday d + 7 - weekday d) / 7).

(** Lines 443-444 and 492-493. *)
Definition week_key (d : date) : Z * Z :=
  let week_start := d - weekday d in
  strftime_Y_W week_start.

(** [(dates[i], low_prices[i] * factor)]; [None] stands for the IndexError
    of an index out of range, which ends the chart. *)
Definition low_point (a : chart_arrays) (factor : Q) (i : nat)
  : option (date * Q) :=
  d ← c_dates a !! i;
  low_price ← c_low a !! i;
  Some (d, (low_price * factor)%Q).

(** The loops of lines 454-456 and 500-518: a point for every index below
    [min_length] whose signal is 1 and that passes [confirmed]. *)
Definition every_signal (a : chart_arrays) (min_length : nat)
    (confirmed : nat -> bool) (factor : Q) (signal_values : list Z)
  : option (list (date * Q)) :=
  foldl (fun acc '(i, signal) =>
           points ← acc;
           if (i <? min_length)%nat && (signal =? 1) && confirmed i
           then p ← low_point a factor i; Some (points ++ [p])
           else Some points)
        (Some []) (enumerate signal_values).

(** The loops of lines 439-448 and 473-495: the same, but kept in a dict
    under the week key of the date, and only when the key is new.  The dict
    is the list of its entries in insertion order. *)
Definition first_of_week (a : chart_arrays) (min_length : nat)
    (confirmed : nat -> bool) (factor : Q) (signal_values : list Z)
  : option (list (Z * Z * (date * Q))) :=
  foldl (fun acc '(i, signal) =>
           weekly ← acc;
           if (i <? min_length)%nat && (signal =? 1) && confirmed i
           then d ← c_dates a !! i;
                if bool_decide (week_key d ∈ weekly.*1) then Some weekly
                else p ← low_point a factor i;
                     Some (weekly ++ [(week_key d, p)])
           else Some weekly)
        (Some []) (enumerate signal_values).

(** Lines 434-456. *)
Definition buy_signals (a : chart_arrays) (min_length : nat)
    (signal_name : string) (signal_values : list Z)
  : option (list (date * Q)) :=
  if String.eqb signal_name "momentum_color_signal"
  then weekly_signals ← first_of_week a min_length (fun _ => true) (99 # 100)
                           signal_values;
       Some (weekly_signals.*2)
  else every_signal a min_length (fun _ => true) (97 # 100) signal_values.

Definition reversal_signals : list string :=
  ["macd_signal"; "momentum_color_signal"; "combined_signal_v1"].

(** Lines 462-468. *)
Definition group_buy_signals (signal_name : string) : list string :=
  if String.eqb signal_name "macd_signal" then ["short_signal_v2"]
  else if String.eqb signal_name "momentum_color_signal" then ["short_signal_v1"]
  else if String.eqb signal_name "combined_signal_v1" then ["long_signal"]
  else [].

(** Lines 477-488 and 503-514, with [start_idx = max(0, i - lookback)]. *)
Definition has_buy_signal (signals : gmap string (list Z))
    (group_buy_signals : list string) (lookback i : nat) : bool :=
  let start_idx := (i - lookback)%nat in
  existsb (fun group_signal =>
             match signals !! group_signal with
             | Some group_values =>
                 (i <? length group_values)%nat &&
                 bool_decide (1 ∈ slice start_idx i group_values)
             | None => false
             end)
          group_buy_signals.

(** Lines 470-518. *)
Definition buy_text_signals (signals : gmap string (list Z))
    (a : chart_arrays) (min_length : nat)
    (signal_name : string) (signal_values : list Z)
  : option (list (date * Q)) :=
  if String.eqb signal_name "momentum_color_signal"
  then weekly_buy_texts ←
         first_of_week a min_length
           (has_buy_signal signals (group_buy_signals signal_name) 50)
           (95 # 100) signal_values;
       Some (weekly_buy_texts.*2)
  else every_signal a min_length
         (has_buy_signal signals (group_buy_signals signal_name) 20)
         (95 # 100) signal_values.

(** Lines 427-431. *)
Definition should_show_signal (st : session) (signal_name : string) : bool :=
  if bool_decide (signal_name ∈
                    ["short_signal_v2"; "short_signal_v1"; "long_signal"])
  then show_local_dip st
  else if bool_decide (signal_name ∈
                         ["macd_signal"; "momentum_color_signal";
                          "combined_signal_v1"])
  then show_rebound_potential st
  else true.

(** What one selected signal adds to the figure: the positions of its
    Rebound Alert annotations and the points of its marker trace (no trace
    when there is no point). *)
Record signal_marks := {
  m_alerts : list (date * Q);
  m_trace : option (list (date * Q))
}.

Definition no_marks : signal_marks := {| m_alerts := []; m_trace := None |}.

(** Lines 421-568 for one name of [settings['selected_signals']]. *)
Definition draw_signal (st : session) (show_buy : bool)
    (signals : gmap string (list Z)) (a : chart_arrays) (min_length : nat)
    (signal_name : string) : option signal_marks :=
  match signals !! signal_name with
  | None => Some no_marks
  | Some signal_values =>
      if show_buy && negb (String.eqb signal_name "fcv_signal")
         && should_show_signal st signal_name
      then
        buy ← buy_signals a min_length signal_name signal_values;
        alerts ←
          (if bool_decide (signal_name ∈ reversal_signals)
           then texts ← buy_text_signals signals a min_length signal_name
                          signal_values;
                Some (if show_rebound_alert st
                      then (fun '(d, price) => (d, (price - 1)%Q)) <$> texts
                      else [])
           else Some []);
        Some {| m_alerts := alerts;
                m_trace := match buy with [] => None | _ => Some buy end |}
      else Some no_marks
  end.

(** Lines 387-568: the marks of every selected signal, in the order of the
    selection. *)
Definition draw_signals (st : session) (settings : option chart_settings)
    (signals_data : dataset) (a : chart_arrays) (min_length : nat)
  : option (list (string * signal_marks)) :=
  match settings with
  | None => Some []
  | Some s =>
      mapM (fun signal_name =>
              m ← draw_signal st (show_buy_signals s) (signals signals_data)
                    a min_length signal_name;
              Some (signal_name, m))
           (selected_signals s)
  end.

(** A background rectangle of lines 612-630. *)
Inductive zone_color := Green | Red.

Record zone := {
  z_color : zone_color;
  z_x0 : date;
  z_x1 : date
}.

(** [dates[i+1] if i+1 < len(dates) else dates[i]]. *)
Definition zone_end (a : chart_arrays) (i : nat) : option date :=
  if (i + 1 <? length (c_dates a))%nat then c_dates a !! (i + 1)%nat
  else c_dates a !! i.

(** Lines 603-630. *)
Definition fcv_zones (st : session) (signals_data : dataset)
    (a : chart_arrays) (min_length : nat) : option (list zone) :=
  match indicators signals_data !! FCV with
  | Some fcv_values =>
      if show_fcv_zones st
      then
        foldl (fun acc i =>
                 zones ← acc;
                 fcv_val ← fcv_values !! i;
                 if Qle_bool (1 # 2) fcv_val
                 then x0 ← c_dates a !! i; x1 ← zone_end a i;
                      Some (zones ++ [{| z_color := Green; z_x0 := x0; z_x1 := x1 |}])
                 else if Qle_bool fcv_val (- (1 # 2))
                 then x0 ← c_dates a !! i; x1 ← zone_end a i;
                      Some (zones ++ [{| z_color := Red; z_x0 := x0; z_x1 := x1 |}])
                 else Some zones)
              (Some []) (seq 0 (Nat.min (length fcv_values) min_length))
      else Some []
  | None => Some []
  end.



(** What [_create_candlestick_chart] hands to plotly: the candlestick
    arrays, the trendlines with at least two points (lines 364-384), the
    marks of the selected signals and the background zones. *)
Record figure := {
  f_candles : chart_arrays;
  f_trendlines : list trendline;
  f_marks : list (string * signal_marks);
  f_zones : list zone
}.

(** Lines 323-630 and 801-804.  [None]: no figure is shown, either for
    lack of data (line 336) or because an exception was caught. *)
Definition _create_candlestick_chart (st : session) (signals_data : dataset)
    (settings : option chart_settings) : option figure :=
  a ← chart_inputs signals_data;
  let min_length := length (c_dates a) in
  marks ← draw_signals st settings signals_data a min_length;
  zones ← fcv_zones st signals_data a min_length;
  Some {| f_candles := a;
          f_trendlines :=
            filter (fun t => (2 <= length (tl_points t))%nat)
                   (default [] (trendlines signals_data));
          f_marks := marks;
          f_zones := zones |}.

(** The Monday of the week of a date. *)
Definition monday (d : date) : date := d - weekday d.

(** Whether the markers of a selected signal are drawn at all (line 433). *)
Definition markers_shown (st : session) (show_buy : bool) (name : string)
  : bool :=
  show_buy && negb (String.eqb name "fcv_signal") && should_show_signal st name.

(** The bars at which a loop of the marker code acts. *)
Definition fires (n : nat) (c : nat -> bool) (sv : list Z) (i : nat) : Prop :=
  (i < n)%nat /\ sv !! i = Some 1 /\ c i = true.

(** The colour of the rectangle of a composite value. *)
Definition zone_of (v : Q) : option zone_color :=
  if Qle_bool (1 # 2) v then Some Green
  else if Qle_bool v (- (1 # 2)) then Some Red
  else None.

(** Two weeks of daily bars, 1-5 and 8-12 January 2024, with a momentum
    signal on the Tuesday and Wednesday of the first week and on the Monday
    and Friday of the second, and buy signals on the first Monday. *)
Definition two_weeks : dataset :=
  {| symbol := "^KS11";
     dates := [jan 1; jan 2; jan 3; jan 4; jan 5;
               jan 8; jan 9; jan 10; jan 11; jan 12];
     data := Some {| open := prices [10; 10; 11; 9; 12; 13; 13; 12; 11; 12];
                     high := prices [11; 12; 11; 12; 13; 14; 14; 13; 12; 13];
                     low := prices [9; 10; 9; 9; 12; 12; 12; 11; 10; 11];
                     close := prices [10; 11; 9; 12; 13; 13; 12; 11; 12; 12];
                     volume := prices [1; 2; 3; 4; 5; 6; 7; 8; 9; 10] |};
     signals := {[ "momentum_color_signal" := [0; 1; 1; 0; 0; 1; 0; 0; 0; 1];
                   "macd_signal" := [1; 1; 0; 0; 0; 0; 0; 0; 0; 0];
                   "short_signal_v1" := [1; 0; 0; 0; 0; 0; 0; 0; 0; 0];
                   "short_signal_v2" := [1; 0; 0; 0; 0; 0; 0; 0; 0; 0] ]};
     indicators := {[ FCV := [(6 # 10)%Q; 0%Q; (- (5 # 10))%Q; (1 # 2)%Q;
                              (- (7 # 10))%Q; 0%Q; 0%Q; 0%Q; 0%Q; (9 # 10)%Q] ]};
     trendlines := Some [];
     last_updated := None;
     error := None |}.

(** The two weeks with a composite series that stops after the first
    week. *)
Definition short_composite : dataset :=
  {| symbol := symbol two_weeks;
     dates := dates two_weeks;
     data := data two_weeks;
     signals := signals two_weeks;
     indicators := {[ FCV := [(2 # 10)%Q; (6 # 10)%Q; (9 # 10)%Q; (9 # 10)%Q;
                              (9 # 10)%Q] ]};
     trendlines := trendlines two_weeks;
     last_updated := last_updated two_weeks;
     error := error two_weeks |}.

(** Every checkbox of the display controls ticked. *)
Definition all_shown : session :=
  {| show_local_dip := true; show_rebound_potential := true;
     show_rebound_alert := true; show_fcv_zones := true |}.

Definition two_weeks_settings : chart_settings :=
  {| selected_signals := ["momentum_color_signal"; "macd_signal";
                          "short_signal_v1"];
     show_buy_signals := true;
     selected_indicator_group := None |}.

(** The weekly bars of the two weeks. *)
Definition two_weeks_weekly : dataset :=
  match resample_data_to_timeframe two_weeks "weekly" with
  | Ok ds' => ds'
  | Raise _ => two_weeks
  end.

(** The settings of the weekly chart of the application (app.py, lines
    182-186 and 248-255). *)
Definition weekly_settings : chart_settings :=
  {| selected_signals := ["short_signal_v1"; "momentum_color_signal"];
     show_buy_signals := true;
     selected_indicator_group := Some "Mid-term Analysis(weekly chart)" |}.

(** The alert of a bar: the bar has the reversal signal [name], and a buy
    signal of its group is 1 on one of the [lookback] bars before it, in a
    series that reaches the bar; [y] is the height of the annotation. *)
Definition alert_bar (ds : dataset) (a : chart_arrays) (name : string)
    (lookback : nat) (d : date) (y : Q) : Prop :=
  exists sv i low_price g gv j,
    signals ds !! name = Some sv /\ sv !! i = Some 1 /\
    c_dates a !! i = Some d /\ c_low a !! i = Some low_price /\
    y = (low_price * (95 # 100) - 1)%Q /\
    g ∈ group_buy_signals name /\ signals ds !! g = Some gv /\
    (i < length gv)%nat /\ gv !! j = Some 1 /\ (i - lookback <= j < i)%nat.

(** Lines 477 and 503. *)
Definition lookback_of (name : string) : nat :=
  if String.eqb name "momentum_color_signal" then 50%nat else 20%nat.

(** ** The stock selector (components/stock_selector.py) *)

(** The items of the dict [symbol_display_names] (lines 131-169). *)
Definition display_name_items : list (string * string) :=
  [("^KS11", "🇰🇷 KOSPI (Korea Stock Price Index)");
   ("005930.KS", "🇰🇷 Samsung Electronics");
   ("^IXIC", "🇺🇸 NASDAQ Composite");
   ("^GSPC", "🇺🇸 S&P 500");
   ("^DJI", "🇺🇸 Dow Jones Industrial Average");
   ("AAPL", "🇺🇸 Apple Inc.");
   ("MSFT", "🇺🇸 Microsoft Corporation");
   ("SPY", "🇺🇸 S&P 500 ETF");
   ("QQQ", "🇺🇸 NASDAQ 100 ETF");
   ("^FTSE", "🇬🇧 FTSE 100 (UK)");
   ("^GDAXI", "🇩🇪 DAX (Germany)");
   ("^FCHI", "🇫🇷 CAC 40 (France)");
   ("^N225", "🇯🇵 Nikkei 225 (Japan)");
   ("^HSI", "🇭🇰 Hang Seng (Hong Kong)");
   ("^AXJO", "🇦🇺 ASX 200 (Australia)");
   ("GC=F", "🥇 Gold Futures");
   ("SI=F", "🥈 Silver Futures");
   ("CL=F", "🛢️ Crude Oil Futures");
   ("NG=F", "⛽ Natural Gas Futures");
   ("ZC=F", "🌽 Corn Futures");
   ("ZS=F", "🌾 Soybean Futures");
   ("TLT", "📈 TLT (20-Year Treasury Bond)");
   ("USDKRW=X", "💱 USD/KRW Exchange Rate");
   ("EURUSD=X", "💱 EUR/USD Exchange Rate");
   ("GBPUSD=X", "💱 GBP/USD Exchange Rate");
   ("USDJPY=X", "💱 USD/JPY Exchange Rate")].

Definition symbol_display_names : gmap string string :=
  list_to_map display_name_items.

(** Lines 171-178: the display names and the symbols of the listed symbols
    that the dict knows, as two parallel lists. *)
Definition known_options (available_symbols : list string)
  : list string * list string :=
  foldl (fun acc symbol_ =>
           let '(available_options, available_symbols_filtered) := acc in
           match symbol_display_names !! symbol_ with
           | Some name => (available_options ++ [name],
                           available_symbols_filtered ++ [symbol_])
           | None => acc
           end)
        ([], []) available_symbols.

(** Lines 191-196: the symbol at the first index whose display name is the
    selected one. *)
Fixpoint symbol_of_display (selected_display : string) (i : nat)
    (available_options available_symbols_filtered : list string)
  : option string :=
  match available_options with
  | [] => None
  | display_name :: rest =>
      if String.eqb display_name selected_display
      then available_symbols_filtered !! i
      else symbol_of_display selected_display (S i) rest
             available_symbols_filtered
  end.

(** [render_simple_stock_selector]; [selectbox] is the choice made in the
    drop-down among the options it is given.  [None] is returned after
    "Cannot load stock list", when no option matches, and on an
    exception. *)
Definition render_simple_stock_selector (data_dir : string)
    (ls : string -> dir_state) (selectbox : list string -> string)
  : option string :=
  let json_client := new_client data_dir in
  let available_symbols := get_available_symbols json_client ls in
  match available_symbols with
  | [] => None
  | _ =>
      let '(available_options, available_symbols_filtered) :=
        known_options available_symbols in
      match available_options with
      | [] => None
      | _ =>
          let selected_display := selectbox available_options in
          symbol_of_display selected_display 0 available_options
            available_symbols_filtered
      end
  end.

(** The drop-down choice of the second option. *)
Definition pick_second (options : list string) : string :=
  default "" (options !! 1%nat).

(** ** [render_stock_chart] (lines 261-315) *)

(** Lines 271-279. *)
Definition timeframe_of (settings : option chart_settings) : string :=
  match settings with
  | Some s =>
      match selected_indicator_group s with
      | Some indicator_group =>
          if String.eqb indicator_group "Short-term Analysis(daily chart)"
          then "daily"
          else if String.eqb indicator_group "Mid-term Analysis(weekly chart)"
          then "weekly"
          else if String.eqb indicator_group "Long-term Analysis(monthly chart)"
          then "monthly"
          else "daily"
      | None => "daily"
      end
  | None => "daily"
  end.

(** Lines 297-302. *)
Definition timeframe_display (timeframe : string) : string :=
  if String.eqb timeframe "daily" then "Daily Chart"
  else if String.eqb timeframe "weekly" then "Weekly Chart"
  else if String.eqb timeframe "monthly" then "Monthly Chart"
  else "Daily Chart".

(** What [render_stock_chart] shows: the warning of lines 292-294, the
    error of lines 313-315, or the header with the name of the timeframe
    and the number of candles, followed by what [_create_candlestick_chart]
    makes of the data. *)
Inductive rendering :=
| Unsupported
| RenderFailed (e : exn)
| Rendered (timeframe_name : string) (data_count : nat) (fig : option figure).

(** Lines 269-315, from the dict that [get_cached_signals_data] returned. *)
Definition render_stock_chart (st : session) (signals_data : dataset)
    (settings : option chart_settings) : rendering :=
  let timeframe := timeframe_of settings in
  match resample_data_to_timeframe signals_data timeframe with
  | Raise e => RenderFailed e
  | Ok signals_data =>
      if bool_decide (is_Some (error signals_data))
         || bool_decide (dates signals_data = [])
      then Unsupported
      else Rendered (timeframe_display timeframe)
             (length (dates signals_data))
             (_create_candlestick_chart st signals_data settings)
  end.

(* ===================================================================== *)
(** * Part 2: properties                                                  *)
(* ===================================================================== *)

(** A closed decidable fact, by evaluation. *)
Ltac by_evaluation := apply (bool_decide_unpack _); vm_compute; exact I.

(** ** The calendar *)

Lemma md_table leap doy : 0 <= doy < 337 + feb_len leap -> md_step_ok leap doy.
Proof.
  intros H.
  assert (Forall (md_step_ok leap) (seqZ 0 (337 + feb_len leap))) as HF.
  { destruct leap; by_evaluation. }
  rewrite Forall_forall in HF. apply HF. apply elem_of_seqZ. lia.
Qed.

Lemma yoe_spec doe : 0 <= doe < 146097 ->
  0 <= yoe_of doe < 400 /\ year_start (yoe_of doe) <= doe /\
  doe < year_start (yoe_of doe + 1) + (if yoe_of doe =? 399 then 1 else 0).
Proof.
  intros H. unfold yoe_of, year_start.
  assert (doe = 146096 \/ doe < 146096) as [->|H1] by lia; [vm_compute; intuition congruence|].
  replace (doe / 146096) with 0 by (symmetry; apply Z.div_small; lia).
  destruct (Z.eqb_spec ((doe - doe / 1460 + doe / 36524 - 0) / 365) 399).
  all: Z.div_mod_to_equations; lia.
Qed.

Lemma year_len y : 0 <= y < 400 ->
  year_start (y + 1) + (if y =? 399 then 1 else 0) - year_start y = 337 + feb_len (is_leap (y + 1)).
Proof.
  intros H. unfold year_start, is_leap, feb_len.
  destruct (Z.eqb_spec y 399) as [->|Hy]; [reflexivity|].
  destruct (Z.eqb_spec ((y + 1) mod 4) 0), (Z.eqb_spec ((y + 1) mod 100) 0), (Z.eqb_spec ((y + 1) mod 400) 0); simpl.
  all: Z.div_mod_to_equations; lia.
Qed.

Lemma yoe_unique a b x :
  0 <= a < 400 -> 0 <= b < 400 ->
  year_start a <= x < year_start (a + 1) + (if a =? 399 then 1 else 0) ->
  year_start b <= x < year_start (b + 1) + (if b =? 399 then 1 else 0) ->
  a = b.
Proof.
  unfold year_start. intros Ha Hb H1 H2.
  destruct (Z.eqb_spec a 399), (Z.eqb_spec b 399).
  all: Z.div_mod_to_equations; lia.
Qed.

Lemma days_in_month_len y m :
  1 <= m <= 12 ->
  days_in_month (y + (if m <=? 2 then 1 else 0)) m = month_len (is_leap (y + 1)) m.
Proof.
  intros Hm. unfold days_in_month, month_len, feb_len.
  destruct (Z.eqb_spec m 2) as [->|Hne]; [reflexivity|]. reflexivity.
Qed.

Lemma civil_of_doe_valid doe :
  0 <= doe < 146097 -> valid_civil (civil_of_doe doe).
Proof.
  intros H. unfold civil_of_doe.
  pose proof (yoe_spec doe H) as (Hy & Hlo & Hhi).
  pose proof (year_len _ Hy) as Hlen.
  pose proof (md_table (is_leap (yoe_of doe + 1)) (doe - year_start (yoe_of doe))) as Ht.
  unfold md_step_ok in Ht.
  destruct (md_of_doy (doe - year_start (yoe_of doe))) as [m d].
  destruct (md_of_doy (doe - year_start (yoe_of doe) + 1)) as [m' d'].
  destruct Ht as ((Hm & Hd) & _); [lia|].
  simpl. rewrite days_in_month_len by lia. lia.
Qed.

Lemma civil_of_doe_step doe :
  0 <= doe < 146096 -> civil_of_doe (doe + 1) = next_day (civil_of_doe doe).
Proof.
  intros H. unfold civil_of_doe.
  pose proof (yoe_spec doe ltac:(lia)) as (Hy & Hlo & Hhi).
  pose proof (yoe_spec (doe + 1) ltac:(lia)) as (Hy' & Hlo' & Hhi').
  pose proof (year_len _ Hy) as Hlen.
  pose proof (md_table (is_leap (yoe_of doe + 1)) (doe - year_start (yoe_of doe))) as Ht.
  unfold md_step_ok in Ht.
  set (y := yoe_of doe) in *. clearbody y.
  remember (doe - year_start y) as doy eqn:Hdoy.
  destruct (md_of_doy doy) as [m d] eqn:E1.
  destruct (md_of_doy (doy + 1)) as [m' d'] eqn:E2.
  destruct Ht as ((Hm & Hd) & Hin & Hout & Hfeb & Hlast); [lia|].
  assert (Hdim := days_in_month_len y m Hm).
  destruct (Z.eq_dec (doy + 1) (337 + feb_len (is_leap (y + 1)))) as [Hend|Hmid].
  - destruct (Hlast Hend) as [-> ->].
    assert (Hy399 : y <> 399).
    { intros ->. change (feb_len (is_leap (399 + 1))) with 29 in Hend.
      change (year_start 399) with 145731 in Hdoy. lia. }
    destruct (Z.eqb_spec y 399) as [|_]; [contradiction|].
    assert (Hy1 : yoe_of (doe + 1) = y + 1).
    { pose proof (year_len (y + 1) ltac:(lia)) as Hlen1.
      assert (0 < feb_len (is_leap (y + 1 + 1))) by (unfold feb_len; case (is_leap _); lia).
      apply (yoe_unique _ _ (doe + 1)); lia. }
    rewrite Hy1. replace (doe + 1 - year_start (y + 1)) with 0 by lia.
    simpl. unfold next_day. change (2 <=? 2) with true in Hdim. rewrite Hdim.
    change (month_len (is_leap (y + 1)) 2) with (feb_len (is_leap (y + 1))).
    rewrite Z.ltb_irrefl. simpl. f_equal. f_equal. lia.
  - assert (Hy1 : yoe_of (doe + 1) = y) by (apply (yoe_unique _ _ (doe + 1)); lia).
    rewrite Hy1. replace (doe + 1 - year_start y) with (doy + 1) by lia.
    rewrite E2. unfold next_day. rewrite Hdim.
    destruct (Z.ltb_spec d (month_len (is_leap (y + 1)) m)) as [Hlt|Hge].
    + destruct (Hin Hlt) as [-> ->]. reflexivity.
    + assert (Hd' : d = month_len (is_leap (y + 1)) m) by lia.
      assert (Hm2 : m <> 2) by (intros ->; specialize (Hfeb Hd' eq_refl); lia).
      destruct (Hout Hd' Hm2) as [-> ->].
      destruct (Z.ltb_spec m 12).
      * repeat f_equal. destruct (Z.leb_spec m 2), (Z.leb_spec (m + 1) 2); lia.
      * assert (m = 12) as -> by lia. simpl. f_equal. f_equal. lia.
Qed.

Lemma is_leap_era y k : is_leap (y + 400 * k) = is_leap y.
Proof.
  unfold is_leap.
  replace ((y + 400 * k) mod 4) with (y mod 4) by (Z.div_mod_to_equations; lia).
  replace ((y + 400 * k) mod 100) with (y mod 100) by (Z.div_mod_to_equations; lia).
  replace ((y + 400 * k) mod 400) with (y mod 400) by (Z.div_mod_to_equations; lia).
  reflexivity.
Qed.

Lemma days_in_month_era y k m : days_in_month (y + 400 * k) m = days_in_month y m.
Proof. unfold days_in_month. by rewrite is_leap_era. Qed.

Lemma civil_from_days_valid z : valid_civil (civil_from_days z).
Proof.
  unfold civil_from_days.
  pose proof (civil_of_doe_valid ((z + 719468) mod 146097)) as Hv.
  destruct (civil_of_doe ((z + 719468) mod 146097)) as [[y m] d].
  simpl in *. rewrite days_in_month_era. apply Hv.
  apply Z.mod_pos_bound. lia.
Qed.

Lemma civil_from_days_step z :
  civil_from_days (z + 1) = next_day (civil_from_days z).
Proof.
  unfold civil_from_days.
  set (w := z + 719468). replace (z + 1 + 719468) with (w + 1) by lia.
  assert (Hr : 0 <= w mod 146097 < 146097) by (apply Z.mod_pos_bound; lia).
  destruct (Z.eq_dec (w mod 146097) 146096) as [Hlast|Hmid].
  - assert ((w + 1) mod 146097 = 0 /\ (w + 1) / 146097 = w / 146097 + 1) as [-> ->]
      by (Z.div_mod_to_equations; lia).
    rewrite Hlast. change (civil_of_doe 0) with (0, 3, 1).
    change (civil_of_doe 146096) with (400, 2, 29).
    unfold next_day. rewrite days_in_month_era. simpl. f_equal. f_equal. lia.
  - assert ((w + 1) mod 146097 = w mod 146097 + 1 /\ (w + 1) / 146097 = w / 146097) as [-> ->]
      by (Z.div_mod_to_equations; lia).
    rewrite civil_of_doe_step by lia.
    destruct (civil_of_doe (w mod 146097)) as [[y m] d].
    unfold next_day. rewrite days_in_month_era.
    destruct (d <? days_in_month y m); [reflexivity|].
    destruct (m <? 12); [reflexivity|]. f_equal. f_equal. lia.
Qed.

Lemma month_step z :
  month_start z <= z <= month_end z /\
  (z < month_end z ->
   month_start (z + 1) = month_start z /\ month_end (z + 1) = month_end z) /\
  (z = month_end z -> month_start (z + 1) = z + 1).
Proof.
  unfold month_start, month_end. rewrite civil_from_days_step.
  pose proof (civil_from_days_valid z) as Hv.
  destruct (civil_from_days z) as [[y m] d]. simpl in Hv. unfold next_day.
  destruct (Z.ltb_spec d (days_in_month y m)); [lia|].
  destruct (m <? 12); lia.
Qed.

Lemma month_walk (n : nat) : forall w,
  (Z.of_nat n <= month_end w - w /\
   month_start (w + Z.of_nat n) = month_start w /\
   month_end (w + Z.of_nat n) = month_end w) \/
  (month_end w - w < Z.of_nat n /\
   w + Z.of_nat n - month_start (w + Z.of_nat n) < Z.of_nat n - (month_end w - w)).
Proof.
  induction n as [|n IH]; intros w.
  - left. rewrite Z.add_0_r. pose proof (month_step w). simpl. lia.
  - replace (w + Z.of_nat (S n)) with (w + Z.of_nat n + 1) by lia.
    pose proof (month_step (w + Z.of_nat n)) as (Hr & Hin & Hout).
    destruct (IH w) as [(Hle & Hs & He)|(Hlt & Hoff)].
    + destruct (Z.eq_dec (Z.of_nat n) (month_end w - w)) as [Heq|Hne].
      * right. rewrite Hout by lia. lia.
      * left. destruct Hin as [Hs' He']; lia.
    + right. destruct (Z.eq_dec (w + Z.of_nat n) (month_end (w + Z.of_nat n))) as [Heq|Hne].
      * rewrite Hout by lia. lia.
      * destruct Hin as [Hs' He']; lia.
Qed.

#[export] Instance month_period : Period month_end month_start.
Proof.
  split.
  - intros z. apply month_step.
  - intros z z' Hz. pose proof (month_step z) as (Hr & _).
    destruct (Z.le_gt_cases z z') as [Hle|Hgt].
    + destruct (month_walk (Z.to_nat (z' - z)) z) as [(_ & Hs & He)|(Hlt & _)].
      * replace (z + Z.of_nat (Z.to_nat (z' - z))) with z' in * by lia. done.
      * lia.
    + pose proof (month_step z') as (Hr' & _).
      destruct (month_walk (Z.to_nat (z - z')) z') as [(_ & Hs & He)|(Hlt & Hoff)].
      * replace (z' + Z.of_nat (Z.to_nat (z - z'))) with z in * by lia. done.
      * replace (z' + Z.of_nat (Z.to_nat (z - z'))) with z in * by lia. lia.
Qed.

#[export] Instance week_period : Period week_end (fun z => week_end z - 6).
Proof.
  split.
  - intros z. unfold week_end, weekday. Z.div_mod_to_equations. lia.
  - intros z z'. unfold week_end, weekday. Z.div_mod_to_equations. lia.
Qed.

Lemma week_end_friday z : weekday (week_end z) = 4.
Proof. unfold week_end, weekday. Z.div_mod_to_equations. lia. Qed.

(** The calendar is anchored at the epoch and advances by [next_day], so
    it is the civil calendar; the dates of the examples, for instance. *)
Lemma civil_from_days_epoch : civil_from_days 0 = (1970, 1, 1).
Proof. reflexivity. Qed.

Lemma civil_from_days_jan :
  civil_from_days (jan 1) = (2024, 1, 1) /\ weekday (jan 1) = 0 /\
  civil_from_days (jan 5) = (2024, 1, 5) /\ weekday (jan 5) = 4 /\
  month_start (jan 5) = jan 1 /\ month_end (jan 5) = jan 31.
Proof. by vm_compute. Qed.

Lemma resample_rule_Some tf r :
  resample_rule tf = Some r <->
  (tf = "weekly" /\ r = W_FRI) \/ (tf = "monthly" /\ r = M).
Proof.
  unfold resample_rule.
  destruct (String.eqb_spec tf "weekly") as [->|Hw].
  - split; [intros [= <-]; by left|]. by intros [[_ ->]|[? _]].
  - destruct (String.eqb_spec tf "monthly") as [->|Hm].
    + split; [intros [= <-]; by right|]. by intros [[? _]|[_ ->]].
    + split; [done|]. by intros [[? _]|[? _]].
Qed.

(** ** Periods that tile the day axis *)

#[export] Instance rule_period r : Period (rule_label r) (rule_start r).
Proof. destruct r; simpl; apply _. Qed.

Section Period.
Context {bucket start : Z -> Z} `{!Period bucket start}.

Lemma period_le z : z <= bucket z.
Proof. apply (period_range z). Qed.

Lemma period_idem z : bucket (bucket z) = bucket z.
Proof. apply (period_block z). pose proof (period_range z). lia. Qed.

Lemma period_mono z z' : z <= z' -> bucket z <= bucket z'.
Proof.
  intros Hle. destruct (Z.le_gt_cases z' (bucket z)) as [Hin|Hout].
  - pose proof (period_range z) as Hr.
    destruct (period_block z z') as [_ ->]; lia.
  - pose proof (period_le z'). lia.
Qed.

Lemma period_next_gt b : b < bucket (b + 1).
Proof. pose proof (period_le (b + 1)). lia. Qed.

Lemma period_start_eq z : start (bucket z) = start z.
Proof. apply (period_block z). pose proof (period_range z). lia. Qed.

(** The days of a bucket are those between its start and its boundary. *)
Lemma period_interval z z' :
  bucket z' = bucket z <-> start (bucket z) <= z' <= bucket z.
Proof.
  rewrite period_start_eq. split.
  - intros Heq. pose proof (period_range z') as Hr'.
    destruct (Z.le_gt_cases z z') as [Hle|Hgt]; pose proof (period_range z) as Hr.
    + lia.
    + destruct (period_block z' z) as [Hs _]; lia.
  - intros Hin. by apply (period_block z).
Qed.

End Period.

(** On a boundary of the axis, the interval of the composite value is
    the bucket itself. *)
Lemma interval_is_bucket r b d :
  rule_label r b = b ->
  interval_start r b <= d <= b <-> rule_label r d = b.
Proof.
  intros Hb.
  pose proof (period_interval (bucket := rule_label r) b d) as Hint.
  rewrite Hb in Hint. rewrite Hint.
  destruct r; simpl in *; by rewrite ?Hb.
Qed.

(** ** The bins of [resample] *)

Lemma bin_labels_ge r fuel : forall b0 last b,
  b ∈ bin_labels r fuel b0 last -> b0 <= b.
Proof.
  induction fuel as [|fuel IH]; intros b0 last b; simpl.
  - by intros ?%elem_of_nil.
  - destruct (b0 <=? last); [|by intros ?%elem_of_nil].
    intros [->|Hin]%elem_of_cons; [lia|].
    apply IH in Hin. pose proof (period_next_gt (bucket := rule_label r) b0). lia.
Qed.

Lemma bin_labels_sorted r fuel : forall b0 last,
  StronglySorted Z.lt (bin_labels r fuel b0 last).
Proof.
  induction fuel as [|fuel IH]; intros b0 last; simpl; [constructor|].
  destruct (b0 <=? last); [|constructor].
  constructor; [apply IH|]. apply Forall_forall. intros b Hb.
  apply bin_labels_ge in Hb.
  pose proof (period_next_gt (bucket := rule_label r) b0). lia.
Qed.

Lemma bin_labels_spec r fuel : forall b0 last b,
  rule_label r b0 = b0 -> last - b0 < Z.of_nat fuel ->
  b ∈ bin_labels r fuel b0 last <-> b0 <= b <= last /\ rule_label r b = b.
Proof.
  induction fuel as [|fuel IH]; intros b0 last b Hfix Hfuel; simpl.
  - rewrite elem_of_nil. lia.
  - destruct (Z.leb_spec b0 last) as [Hle|Hgt]; [|rewrite elem_of_nil; lia].
    pose proof (period_next_gt (bucket := rule_label r) b0) as Hnext.
    rewrite elem_of_cons, IH; [|apply period_idem|lia].
    split.
    + intros [->|[Hb Hb']]; [split; [lia|done]|split; [lia|done]].
    + intros [Hb Hb']. destruct (Z.eq_dec b b0) as [->|Hne]; [by left|right].
      split; [|done]. rewrite <- Hb'.
      split; [apply period_mono|]; lia.
Qed.

Lemma foldl_min_spec l : forall a x, x ∈ a :: l -> foldl Z.min a l <= x.
Proof.
  induction l as [|y l IH]; intros a x; simpl.
  - intros [->|?%elem_of_nil]%elem_of_cons; [lia|done].
  - intros [->|[->|Hin]%elem_of_cons]%elem_of_cons.
    + etrans; [apply IH; left|]. lia.
    + etrans; [apply IH; left|]. lia.
    + apply IH. by right.
Qed.

Lemma foldl_max_spec l : forall a x, x ∈ a :: l -> x <= foldl Z.max a l.
Proof.
  induction l as [|y l IH]; intros a x; simpl.
  - intros [->|?%elem_of_nil]%elem_of_cons; [lia|done].
  - intros [->|[->|Hin]%elem_of_cons]%elem_of_cons.
    + etrans; [|apply IH; left]. lia.
    + etrans; [|apply IH; left]. lia.
    + apply IH. by right.
Qed.

Lemma resample_bins_sorted r df : StronglySorted Z.lt (resample_bins r df).
Proof. destruct df; [constructor|apply bin_labels_sorted]. Qed.

(** Every row of the frame falls in one of the bins. *)
Lemma resample_bins_elem r df y :
  y ∈ df -> rule_label r (r_date y) ∈ resample_bins r df.
Proof.
  destruct df as [|x rest]; [by intros ?%elem_of_nil|]. intros Hy.
  unfold resample_bins.
  assert (Hd : r_date y ∈ r_date x :: (r_date <$> rest)).
  { change (r_date y ∈ r_date <$> x :: rest). by apply list_elem_of_fmap_2. }
  apply bin_labels_spec; [apply period_idem|lia|].
  split; [|apply period_idem].
  split; apply period_mono; [by apply foldl_min_spec|by apply foldl_max_spec].
Qed.

(** ** The aggregates *)

Lemma Qmax_cases x y : Qmax x y = x \/ Qmax x y = y.
Proof. unfold Qmax, GenericMinMax.gmax. destruct (x ?= y)%Q; auto. Qed.

Lemma Qmin_cases x y : Qmin x y = x \/ Qmin x y = y.
Proof. unfold Qmin, GenericMinMax.gmin. destruct (x ?= y)%Q; auto. Qed.

Lemma foldl_Qmax_spec l : forall x, is_max_of (foldl Qmax x l) (x :: l).
Proof.
  induction l as [|a l IH]; intros x; simpl.
  - split; [left|]. intros y [->|?%elem_of_nil]%elem_of_cons; [apply Qle_refl|done].
  - destruct (IH (Qmax x a)) as [Hin Hle]. split.
    + apply elem_of_cons in Hin as [Heq|Hin]; [|by do 2 right].
      rewrite Heq. destruct (Qmax_cases x a) as [->| ->]; [left|right; left].
    + intros y [->|[->|Hy]%elem_of_cons]%elem_of_cons.
      * eapply Qle_trans; [apply Q.le_max_l|apply Hle; left].
      * eapply Qle_trans; [apply Q.le_max_r|apply Hle; left].
      * apply Hle. by right.
Qed.

Lemma foldl_Qmin_spec l : forall x, is_min_of (foldl Qmin x l) (x :: l).
Proof.
  induction l as [|a l IH]; intros x; simpl.
  - split; [left|]. intros y [->|?%elem_of_nil]%elem_of_cons; [apply Qle_refl|done].
  - destruct (IH (Qmin x a)) as [Hin Hle]. split.
    + apply elem_of_cons in Hin as [Heq|Hin]; [|by do 2 right].
      rewrite Heq. destruct (Qmin_cases x a) as [->| ->]; [left|right; left].
    + intros y [->|[->|Hy]%elem_of_cons]%elem_of_cons.
      * eapply Qle_trans; [apply Hle; left|apply Q.le_min_l].
      * eapply Qle_trans; [apply Hle; left|apply Q.le_min_r].
      * apply Hle. by right.
Qed.

Lemma agg_max_spec l x : agg_max l = Some x -> is_max_of x l.
Proof. destruct l; [done|]. intros [= <-]. apply foldl_Qmax_spec. Qed.

Lemma agg_min_spec l x : agg_min l = Some x -> is_min_of x l.
Proof. destruct l; [done|]. intros [= <-]. apply foldl_Qmin_spec. Qed.

Lemma foldl_Qplus l : forall a, (foldl Qplus a l == a + Qsum l)%Q.
Proof.
  induction l as [|x l IH]; intros a; simpl.
  - ring.
  - rewrite IH. ring.
Qed.

Lemma agg_sum_spec t l : t <> Int64 -> (agg_sum t l == Qsum l)%Q.
Proof. intros Ht. destruct t; [done|..]; cbn; rewrite foldl_Qplus; ring. Qed.

Lemma foldl_Zadd l : forall a, foldl Z.add a l = a + Zsum l.
Proof.
  induction l as [|x l IH]; intros a; cbn [foldl Zsum foldr]; [lia|].
  rewrite IH. unfold Zsum. lia.
Qed.

Lemma agg_sum_int64 l :
  agg_sum Int64 l = inject_Z (wrap64 (Zsum (Qnum <$> l))).
Proof. cbn. by rewrite foldl_Zadd. Qed.

Lemma wrap64_id z : - 2 ^ 63 <= z < 2 ^ 63 -> wrap64 z = z.
Proof. intros Hz. unfold wrap64. rewrite Z.mod_small; lia. Qed.

Lemma wrap64_mod z : (wrap64 z - z) mod 2 ^ 64 = 0.
Proof. unfold wrap64. Z.div_mod_to_equations. lia. Qed.

Lemma wrap64_range z : - 2 ^ 63 <= wrap64 z < 2 ^ 63.
Proof. unfold wrap64. Z.div_mod_to_equations. lia. Qed.

Lemma is_integer_spec q : is_integer q = true -> q = inject_Z (Qnum q).
Proof.
  unfold is_integer. intros Hq%Pos.eqb_eq. destruct q as [n d].
  cbn in *. by subst.
Qed.

Lemma is_int64_spec q :
  is_int64 q = true <->
  is_integer q = true /\ - 2 ^ 63 <= Qnum q < 2 ^ 63.
Proof.
  unfold is_int64. rewrite !andb_true_iff, Z.leb_le, Z.ltb_lt.
  split; [by intros [[? ?] ?]|by intros [? [? ?]]].
Qed.

(** The sum of a list of integers, as rationals and as integers. *)
Lemma Qsum_integers l :
  Forall (fun q => is_integer q = true) l ->
  (Qsum l == inject_Z (Zsum (Qnum <$> l)))%Q.
Proof.
  induction 1 as [|q l Hq _ IH]; [reflexivity|].
  cbn [Qsum foldr fmap list_fmap Zsum]. fold (Qsum l).
  fold (Zsum (Qnum <$> l)). rewrite IH, inject_Z_plus.
  by rewrite <- (is_integer_spec q Hq).
Qed.

Lemma column_dtype_Int64 l :
  column_dtype l = Int64 <-> Forall (fun q => is_int64 q = true) l.
Proof.
  unfold column_dtype. destruct (forallb is_int64 l) eqn:H.
  - split; [intros _|done]. apply Forall_forall. intros q Hq%list_elem_of_In.
    by apply (proj1 (forallb_forall _ _) H).
  - split; [by destruct (forallb is_integer l)|]. intros HF.
    rewrite Forall_forall in HF.
    assert (forallb is_int64 l = true); [|congruence].
    apply forallb_forall. intros q Hq%list_elem_of_In. by apply HF.
Qed.

Lemma Forall_int64_integer l :
  Forall (fun q => is_int64 q = true) l ->
  Forall (fun q => is_integer q = true) l.
Proof. intros H. eapply Forall_impl; [exact H|]. by intros q [? _]%is_int64_spec. Qed.

(** ** The resampled frame *)

Lemma dropna_row_agg_Some {t} b g x :
  dropna_row (agg_ohlc t b g) = Some x ->
  g <> [] /\ r_date x = b /\
  head (r_open <$> g) = Some (r_open x) /\
  agg_max (r_high <$> g) = Some (r_high x) /\
  agg_min (r_low <$> g) = Some (r_low x) /\
  last (r_close <$> g) = Some (r_close x) /\
  r_volume x = agg_sum t (r_volume <$> g).
Proof.
  unfold dropna_row, agg_ohlc. simpl.
  destruct (head (r_open <$> g)) as [o|] eqn:Ho; [|done].
  destruct (agg_max (r_high <$> g)) as [h|]; [|done].
  destruct (agg_min (r_low <$> g)) as [l|]; [|done].
  destruct (last (r_close <$> g)) as [c|]; [|done].
  intros [= <-]. simpl. by destruct g.
Qed.

Lemma dropna_row_agg_date {t} b g x :
  dropna_row (agg_ohlc t b g) = Some x -> r_date x = b.
Proof. intros HF. by destruct (dropna_row_agg_Some _ _ _ HF) as (_ & ? & _). Qed.

Lemma dropna_row_agg_group {t} b g x :
  dropna_row (agg_ohlc t b g) = Some x -> g <> [].
Proof. intros HF. by destruct (dropna_row_agg_Some _ _ _ HF) as (? & _). Qed.

Lemma dropna_row_agg_nonempty t b g :
  g <> [] -> is_Some (dropna_row (agg_ohlc t b g)).
Proof.
  intros Hg. unfold dropna_row, agg_ohlc.
  cbn [a_label a_open a_high a_low a_close a_volume].
  destruct g as [|x g]; [done|].
  destruct (last (r_close <$> x :: g)) as [c|] eqn:Hl.
  - by eexists.
  - by apply last_None in Hl.
Qed.

Lemma dropna_resample r df :
  dropna (resample_agg r df) =
  omap (fun b => dropna_row (agg_ohlc (column_dtype (r_volume <$> df)) b
                             (bin_rows r df b)))
       (resample_bins r df).
Proof.
  unfold dropna, resample_agg.
  induction (resample_bins r df) as [|b l IH]; [done|].
  csimpl. rewrite IH. done.
Qed.

Lemma resampled_elem r df x :
  x ∈ dropna (resample_agg r df) <->
  r_date x ∈ resample_bins r df /\
  dropna_row (agg_ohlc (column_dtype (r_volume <$> df)) (r_date x)
                (bin_rows r df (r_date x))) = Some x.
Proof.
  rewrite dropna_resample, list_elem_of_omap. split.
  - intros (b & Hb & HF).
    by rewrite (dropna_row_agg_date _ _ _ HF).
  - intros [Hb HF]. eauto.
Qed.

(** A bucket is on the coarse axis exactly when some row falls in it. *)
Lemma resampled_dates_elem r df b :
  b ∈ r_date <$> dropna (resample_agg r df) <-> bin_rows r df b <> [].
Proof.
  rewrite list_elem_of_fmap. split.
  - intros (x & -> & [_ HF]%resampled_elem).
    by apply dropna_row_agg_group in HF.
  - intros Hg.
    destruct (dropna_row_agg_nonempty (column_dtype (r_volume <$> df)) b _ Hg)
      as [x HF]. exists x.
    pose proof (dropna_row_agg_date _ _ _ HF) as Hx.
    split; [done|]. apply resampled_elem. rewrite Hx. split; [|done].
    destruct (bin_rows r df b) as [|y g] eqn:Hy; [done|].
    assert (y ∈ bin_rows r df b) as Hin by (rewrite Hy; left).
    apply list_elem_of_filter in Hin as [<- Hin].
    by apply resample_bins_elem.
Qed.

Lemma omap_labels_sorted (F : Z -> option row) l :
  (forall b x, F b = Some x -> r_date x = b) ->
  StronglySorted Z.lt l -> StronglySorted Z.lt (r_date <$> omap F l).
Proof.
  intros HF. induction 1 as [|b l Hs IH Hall]; [constructor|].
  csimpl. destruct (F b) as [x|] eqn:Hb; [|done].
  csimpl. constructor; [done|].
  rewrite (HF _ _ Hb). apply Forall_forall. intros b' Hb'.
  apply list_elem_of_fmap in Hb' as (x' & -> & Hx').
  apply list_elem_of_omap in Hx' as (b'' & Hin & HF').
  rewrite (HF _ _ HF'). rewrite Forall_forall in Hall. by apply Hall.
Qed.

Lemma resampled_dates_sorted r df :
  StronglySorted Z.lt (r_date <$> dropna (resample_agg r df)).
Proof.
  rewrite dropna_resample. apply omap_labels_sorted.
  - intros b x HF. by apply dropna_row_agg_date in HF.
  - apply resample_bins_sorted.
Qed.

Lemma StronglySorted_lt_lookup (l : list Z) i j x y :
  StronglySorted Z.lt l -> l !! i = Some x -> l !! j = Some y ->
  (i < j)%nat -> x < y.
Proof.
  intros Hs. revert i j. induction Hs as [|a l Hs IH Hall]; intros i j; [done|].
  destruct i as [|i], j as [|j]; simpl; try lia.
  - intros [= <-] Hy _. rewrite Forall_forall in Hall.
    apply Hall. by eapply list_elem_of_lookup_2.
  - intros Hx Hy Hij. apply (IH i j); [done..|lia].
Qed.

Lemma StronglySorted_lt_inj (l : list Z) i j x :
  StronglySorted Z.lt l -> l !! i = Some x -> l !! j = Some x -> i = j.
Proof.
  intros Hs Hi Hj.
  destruct (Nat.lt_total i j) as [Hlt|[Heq|Hgt]]; [|done|].
  - pose proof (StronglySorted_lt_lookup _ _ _ _ _ Hs Hi Hj Hlt). lia.
  - pose proof (StronglySorted_lt_lookup _ _ _ _ _ Hs Hj Hi Hgt). lia.
Qed.

(** ** The frame of a well-formed dataset *)

Lemma zip_rows_dates ds : forall o h l c v,
  length o = length ds -> length h = length ds -> length l = length ds ->
  length c = length ds -> length v = length ds ->
  r_date <$> zip_rows ds o h l c v = ds.
Proof.
  induction ds as [|d ds IH]; intros o h l c v Ho Hh Hl Hc Hv; [done|].
  destruct o, h, l, c, v; simplify_eq/=. f_equal. by apply IH.
Qed.

Lemma same_length_spec n s :
  same_length n s = true <->
  length (open s) = n /\ length (high s) = n /\ length (low s) = n /\
  length (close s) = n /\ length (volume s) = n.
Proof.
  unfold same_length. rewrite !andb_true_iff, !Nat.eqb_eq. tauto.
Qed.

Lemma well_formed_frame ds :
  well_formed ds ->
  DataFrame (dates ds) (default empty_ohlcv (data ds)) = Ok (daily_records ds) /\
  r_date <$> daily_records ds = dates ds.
Proof.
  intros (_ & Hd & _). unfold DataFrame, daily_records.
  destruct (data ds) as [s|]; [|done]. simpl. rewrite Hd.
  split; [done|]. apply same_length_spec in Hd as (? & ? & ? & ? & ?).
  by apply zip_rows_dates.
Qed.

Lemma daily_records_volume ds s :
  data ds = Some s -> same_length (length (dates ds)) s = true ->
  r_volume <$> daily_records ds = volume s.
Proof.
  intros Hs Hlen. unfold daily_records. rewrite Hs. simpl.
  apply same_length_spec in Hlen as (Ho & Hh & Hl & Hc & Hv).
  revert Ho Hh Hl Hc Hv.
  generalize (dates ds) (open s) (high s) (low s) (close s) (volume s).
  induction l as [|d l IH]; intros o h lo c v Ho Hh Hl Hc Hv.
  - by destruct v.
  - destruct o, h, lo, c, v; simplify_eq/=. f_equal. by apply IH.
Qed.

Lemma resample_rule_not_daily tf r :
  resample_rule tf = Some r -> String.eqb tf "daily" = false.
Proof.
  unfold resample_rule.
  destruct (String.eqb_spec tf "weekly") as [->|_]; [done|].
  destruct (String.eqb_spec tf "monthly") as [->|_]; done.
Qed.

(** ** Locating a boundary on the coarse axis *)

Lemma get_loc_Some index : forall key i,
  get_loc index key = Some i -> index !! i = Some key.
Proof.
  induction index as [|x t IH]; intros key i; simpl; [done|].
  destruct (Z.eqb_spec x key) as [->|Hne].
  - by intros [= <-].
  - destruct (get_loc t key) as [j|] eqn:Hj; [|done].
    intros [= <-]. by apply IH.
Qed.

Lemma get_loc_None index key : get_loc index key = None <-> key ∉ index.
Proof.
  induction index as [|x t IH]; simpl.
  - split; [intros _ ?%elem_of_nil; done|done].
  - rewrite not_elem_of_cons.
    destruct (Z.eqb_spec x key) as [->|Hne]; [split; [done|tauto]|].
    destruct (get_loc t key) as [j|]; simpl.
    + split; [done|]. intros [_ Hk]. by apply IH in Hk.
    + split; [|done]. intros _. split; [congruence|]. by apply IH.
Qed.

Lemma get_loc_sorted index key i :
  StronglySorted Z.lt index -> index !! i = Some key ->
  get_loc index key = Some i.
Proof.
  intros Hs Hi.
  destruct (get_loc index key) as [j|] eqn:Hj.
  - f_equal. apply get_loc_Some in Hj. by eapply StronglySorted_lt_inj.
  - apply get_loc_None in Hj. destruct Hj. by eapply list_elem_of_lookup_2.
Qed.

Lemma searchsorted_le index v : (searchsorted index v <= length index)%nat.
Proof. induction index as [|x t IH]; simpl; [lia|]. destruct (x <? v); simpl; lia. Qed.

Lemma searchsorted_before index v : forall i x,
  (i < searchsorted index v)%nat -> index !! i = Some x -> x < v.
Proof.
  induction index as [|y t IH]; intros i x; simpl; [lia|].
  destruct (Z.ltb_spec y v) as [Hlt|Hge]; [|lia].
  destruct i as [|i]; simpl; [by intros _ [= <-]|].
  intros Hi. apply IH. lia.
Qed.

Lemma searchsorted_after index v : forall i x,
  StronglySorted Z.lt index ->
  (searchsorted index v <= i)%nat -> index !! i = Some x -> v <= x.
Proof.
  induction index as [|y t IH]; intros i x Hs; simpl; [done|].
  apply StronglySorted_inv in Hs as [Hs Hall].
  destruct (Z.ltb_spec y v) as [Hlt|Hge].
  - destruct i as [|i]; [lia|]. simpl. intros Hi. apply IH; [done|lia].
  - intros _. destruct i as [|i]; simpl; [intros [= <-]; lia|].
    intros Hx. rewrite Forall_forall in Hall.
    assert (y < x) by (apply Hall; by eapply list_elem_of_lookup_2). lia.
Qed.

Lemma locate_lt resampled_dt target k :
  locate resampled_dt target = Some k -> (k < length resampled_dt)%nat.
Proof.
  unfold locate. destruct (get_loc resampled_dt target) as [i|] eqn:Hi.
  - intros [= <-]. apply get_loc_Some in Hi. by eapply lookup_lt_Some.
  - pose proof (searchsorted_le resampled_dt target).
    destruct (Nat.ltb_spec 0 (searchsorted resampled_dt target)); [|done].
    intros [= <-]. lia.
Qed.

(** An exact match takes the slot of the boundary. *)
Lemma locate_exact resampled_dt target k :
  StronglySorted Z.lt resampled_dt -> resampled_dt !! k = Some target ->
  locate resampled_dt target = Some k.
Proof. intros Hs Hk. unfold locate. by rewrite (get_loc_sorted _ _ _ Hs Hk). Qed.

(** Without an exact match the search goes backward only. *)
Lemma locate_fallback resampled_dt target :
  StronglySorted Z.lt resampled_dt -> target ∉ resampled_dt ->
  match locate resampled_dt target with
  | Some k =>
      exists b, resampled_dt !! k = Some b /\ b < target /\
        forall k' b', resampled_dt !! k' = Some b' -> b' <= target -> (k' <= k)%nat
  | None => forall b, b ∈ resampled_dt -> target < b
  end.
Proof.
  intros Hs Hnot. unfold locate.
  apply get_loc_None in Hnot as Hloc. rewrite Hloc.
  pose proof (searchsorted_le resampled_dt target) as Hle.
  destruct (Nat.ltb_spec 0 (searchsorted resampled_dt target)) as [Hpos|Hzero].
  - destruct (lookup_lt_is_Some_2 resampled_dt (searchsorted resampled_dt target - 1))
      as [b Hb]; [lia|].
    exists b. split; [done|]. split.
    + eapply searchsorted_before; [|done]. lia.
    + intros k' b' Hk' Hb'.
      destruct (Nat.le_gt_cases k' (searchsorted resampled_dt target - 1)) as [|Hgt]; [done|].
      assert (target <= b') by (eapply searchsorted_after; [done| |done]; lia).
      assert (b' = target) as -> by lia.
      destruct Hnot. by eapply list_elem_of_lookup_2.
  - intros b [i Hi]%list_elem_of_lookup_1.
    assert (target <= b) by (eapply searchsorted_after; [done| |done]; lia).
    assert (b <> target) by (intros ->; destruct Hnot; by eapply list_elem_of_lookup_2).
    lia.
Qed.

Lemma period_end_rule tf r d :
  resample_rule tf = Some r -> period_end tf d = Some (rule_label r d).
Proof.
  unfold resample_rule, period_end.
  destruct (String.eqb tf "weekly"); [by intros [= <-]|].
  destruct (String.eqb tf "monthly"); [by intros [= <-]|done].
Qed.

(** ** The signal loop, one signal at a time *)

Lemma write_signal_lookup i idx k x mapped name :
  write_signal i idx k x mapped !! name =
  if decide (k = name) then write_one i idx x <$> mapped !! name
  else mapped !! name.
Proof.
  unfold write_signal, write_one.
  destruct (x !! i) as [v|]; [destruct (decide (v = 0))|].
  - destruct (decide (k = name)); [|done]. by destruct (mapped !! name).
  - destruct (decide (k = name)) as [->|Hne].
    + by rewrite lookup_alter_eq.
    + by rewrite lookup_alter_ne.
  - destruct (decide (k = name)); [|done]. by destruct (mapped !! name).
Qed.

Lemma write_signals_lookup i idx (original mapped : gmap string (list Z)) name :
  write_signals i idx original mapped !! name =
  match original !! name with
  | Some values => write_one i idx values <$> mapped !! name
  | None => mapped !! name
  end.
Proof.
  unfold write_signals. revert name.
  apply (map_fold_weak_ind
    (fun acc (m : gmap string (list Z)) => forall name,
       acc !! name =
       match m !! name with
       | Some values => write_one i idx values <$> mapped !! name
       | None => mapped !! name
       end)).
  - intros name. by rewrite lookup_empty.
  - intros k x m acc Hk IH name. rewrite write_signal_lookup.
    destruct (decide (k = name)) as [->|Hne].
    + rewrite lookup_insert_eq, IH, Hk. done.
    + rewrite lookup_insert_ne by done. apply IH.
Qed.

Lemma map_entry_lookup tf resampled_dt (original mapped : gmap string (list Z))
    entry name :
  map_entry tf resampled_dt original mapped entry !! name =
  match original !! name with
  | Some values => (fun slots => slot_write tf resampled_dt values slots entry)
                     <$> mapped !! name
  | None => mapped !! name
  end.
Proof.
  unfold map_entry, slot_write.
  destruct (resampled_idx tf resampled_dt entry.2) as [idx|].
  - rewrite write_signals_lookup. done.
  - destruct (original !! name); [|done]. by destruct (mapped !! name).
Qed.

Lemma foldl_map_entry_lookup tf resampled_dt (original : gmap string (list Z))
    entries : forall (mapped : gmap string (list Z)) name,
  foldl (map_entry tf resampled_dt original) mapped entries !! name =
  match original !! name with
  | Some values =>
      (fun slots => foldl (slot_write tf resampled_dt values) slots entries)
        <$> mapped !! name
  | None => mapped !! name
  end.
Proof.
  induction entries as [|e entries IH]; intros mapped name; simpl.
  - destruct (original !! name); [|done]. by destruct (mapped !! name).
  - rewrite IH, map_entry_lookup.
    destruct (original !! name); [|done]. by destruct (mapped !! name).
Qed.

(** Each signal is remapped on its own: the result for a signal is the
    fold of its own writes. *)
Lemma map_signals_lookup (original : gmap string (list Z)) original_dates
    resampled_dates tf name :
  String.eqb tf "daily" = false ->
  map_signals_to_timeframe original original_dates resampled_dates tf !! name =
  map_signal tf resampled_dates original_dates <$> original !! name.
Proof.
  intros Htf. unfold map_signals_to_timeframe, map_signal. rewrite Htf.
  rewrite foldl_map_entry_lookup, lookup_fmap.
  by destruct (original !! name).
Qed.

Lemma slot_write_length tf resampled_dt values slots entry :
  length (slot_write tf resampled_dt values slots entry) = length slots.
Proof.
  unfold slot_write.
  destruct (resampled_idx tf resampled_dt entry.2); [|done].
  destruct (values !! entry.1) as [v|]; [|done].
  destruct (decide (v = 0)); [done|]. apply length_insert.
Qed.

Lemma foldl_slot_write_length tf resampled_dt values entries : forall slots,
  length (foldl (slot_write tf resampled_dt values) slots entries) = length slots.
Proof.
  induction entries as [|e entries IH]; intros slots; simpl; [done|].
  by rewrite IH, slot_write_length.
Qed.

Lemma map_signal_length tf resampled_dt original_dates values :
  length (map_signal tf resampled_dt original_dates values) = length resampled_dt.
Proof.
  unfold map_signal. by rewrite foldl_slot_write_length, length_replicate.
Qed.

Lemma events_in_snoc sel ds d values :
  events_in sel (ds ++ [d]) values =
  events_in sel ds values ++
  match values !! length ds with
  | Some v => if sel d && negb (v =? 0) then [v] else []
  | None => []
  end.
Proof.
  unfold events_in. rewrite imap_app, omap_app. f_equal. simpl.
  rewrite Nat.add_0_r.
  destruct (values !! length ds) as [v|]; [|done].
  by destruct (sel d && negb (v =? 0)).
Qed.

(** A slot holds the last nonzero value written to it, and 0 when nothing
    was written. *)
Lemma map_signal_lookup tf resampled_dt values k : forall original_dates,
  (k < length resampled_dt)%nat ->
  map_signal tf resampled_dt original_dates values !! k =
  Some (last_event (fun d => bool_decide (resampled_idx tf resampled_dt d = Some k))
          original_dates values).
Proof.
  intros original_dates Hk. unfold map_signal, last_event.
  induction original_dates as [|d ds IH] using rev_ind.
  - simpl. by rewrite lookup_replicate_2.
  - rewrite imap_app, foldl_app, events_in_snoc. simpl. rewrite Nat.add_0_r.
    set (slots := foldl _ _ (imap pair ds)) in *.
    assert (Hlen : length slots = length resampled_dt).
    { unfold slots. by rewrite foldl_slot_write_length, length_replicate. }
    unfold slot_write. simpl.
    destruct (resampled_idx tf resampled_dt d) as [idx|] eqn:Hidx.
    + destruct (values !! length ds) as [v|]; [|by rewrite app_nil_r].
      destruct (decide (v = 0)) as [->|Hv].
      * rewrite andb_false_r, app_nil_r. done.
      * assert (negb (v =? 0) = true) as -> by (by apply negb_true_iff, Z.eqb_neq).
        rewrite andb_true_r.
        destruct (decide (idx = k)) as [->|Hne].
        -- rewrite bool_decide_eq_true_2 by done.
           rewrite last_snoc. simpl. apply list_lookup_insert_eq. lia.
        -- rewrite bool_decide_eq_false_2 by congruence.
           rewrite app_nil_r, list_lookup_insert_ne by done. done.
    + rewrite bool_decide_eq_false_2 by done. simpl.
      destruct (values !! length ds); by rewrite app_nil_r.
Qed.

(** ** Last picked value *)

Lemma picks_snoc {A B} (f : nat -> A -> option B) l x :
  picks f (l ++ [x]) = picks f l ++ option_list (f (length l) x).
Proof.
  unfold picks. rewrite imap_app, omap_app. f_equal. simpl.
  rewrite Nat.add_0_r. by destruct (f (length l) x).
Qed.

Lemma picks_nil {A B} (f : nat -> A -> option B) l :
  (forall i x, l !! i = Some x -> f i x = None) -> picks f l = [].
Proof.
  induction l as [|x l IH] using rev_ind; intros Hnone; [done|].
  rewrite picks_snoc, IH, (Hnone (length l) x); [done| |].
  - by rewrite lookup_app_r, Nat.sub_diag by lia.
  - intros i y Hi. apply Hnone. by rewrite lookup_app_l by (by eapply lookup_lt_Some).
Qed.

Lemma last_picks {A B} (f : nat -> A -> option B) l i x y :
  l !! i = Some x -> f i x = Some y ->
  (forall j x', (i < j)%nat -> l !! j = Some x' -> f j x' = None) ->
  last (picks f l) = Some y.
Proof.
  induction l as [|z l IH] using rev_ind; intros Hi Hf Hlater; [done|].
  rewrite picks_snoc.
  destruct (decide (i = length l)) as [->|Hne].
  - rewrite lookup_app_r, Nat.sub_diag in Hi by lia. simplify_eq/=.
    rewrite Hf. simpl. apply last_snoc.
  - assert (Hlt : (i < length l)%nat).
    { apply lookup_lt_Some in Hi. rewrite length_app in Hi. simpl in Hi. lia. }
    rewrite (Hlater (length l) z Hlt); [|by rewrite lookup_app_r, Nat.sub_diag by lia].
    simpl. rewrite app_nil_r. apply IH; [by rewrite lookup_app_l in Hi|done|].
    intros j x' Hj Hx'. apply Hlater; [done|].
    by rewrite lookup_app_l by (by eapply lookup_lt_Some).
Qed.

Lemma last_event_last sel ds values i d v :
  ds !! i = Some d -> values !! i = Some v -> v <> 0 -> sel d = true ->
  (forall j d' v', (i < j)%nat -> ds !! j = Some d' -> values !! j = Some v' ->
                   sel d' = true -> v' = 0) ->
  last_event sel ds values = v.
Proof.
  intros Hd Hv Hnz Hsel Hlater. unfold last_event, events_in.
  fold (picks (fun i d =>
    match values !! i with
    | Some v => if sel d && negb (v =? 0) then Some v else None
    | None => None
    end) ds).
  erewrite last_picks; [done|exact Hd| |].
  - simpl. rewrite Hv, Hsel. by apply Z.eqb_neq in Hnz as ->.
  - intros j d' Hj Hd'. simpl.
    destruct (values !! j) as [v'|] eqn:Hv'; [|done].
    destruct (sel d') eqn:Hsel'; [|done].
    by rewrite (Hlater j d' v').
Qed.

Lemma last_event_none sel ds values :
  (forall i d v, ds !! i = Some d -> values !! i = Some v -> sel d = true -> v = 0) ->
  last_event sel ds values = 0.
Proof.
  intros Hnone. unfold last_event, events_in.
  fold (picks (fun i d =>
    match values !! i with
    | Some v => if sel d && negb (v =? 0) then Some v else None
    | None => None
    end) ds).
  rewrite picks_nil; [done|].
  intros i d Hd. simpl. destruct (values !! i) as [v|] eqn:Hv; [|done].
  destruct (sel d) eqn:Hsel; [|done].
  by rewrite (Hnone i d v).
Qed.

(** The slot [k] of a remapped signal, in terms of the daily entries that
    are sent to [k]. *)
Lemma map_signal_slot tf resampled_dt original_dates values k :
  (k < length resampled_dt)%nat ->
  (forall i d v,
     original_dates !! i = Some d -> values !! i = Some v -> v <> 0 ->
     resampled_idx tf resampled_dt d = Some k ->
     (forall j d' v', (i < j)%nat -> original_dates !! j = Some d' ->
        values !! j = Some v' -> resampled_idx tf resampled_dt d' = Some k ->
        v' = 0) ->
     map_signal tf resampled_dt original_dates values !! k = Some v) /\
  ((forall i d v,
      original_dates !! i = Some d -> values !! i = Some v ->
      resampled_idx tf resampled_dt d = Some k -> v = 0) ->
   map_signal tf resampled_dt original_dates values !! k = Some 0).
Proof.
  intros Hk. rewrite map_signal_lookup by done. split.
  - intros i d v Hd Hv Hnz Hidx Hlater. f_equal.
    apply (last_event_last _ _ _ i d); [done..|by apply bool_decide_eq_true_2|].
    intros j d' v' Hj Hd' Hv' Hidx'%bool_decide_eq_true_1. by eapply Hlater.
  - intros Hnone. f_equal. apply last_event_none.
    intros i d v Hd Hv Hidx%bool_decide_eq_true_1. by eapply Hnone.
Qed.

(** ** The pipeline on a well-formed dataset *)

Lemma resample_weekly_monthly ds tf r :
  well_formed ds -> resample_rule tf = Some r ->
  resample_data_to_timeframe ds tf =
  let resampled_df := dropna (resample_agg r (daily_records ds)) in
  let resampled_dates := r_date <$> resampled_df in
  Ok {| symbol := symbol ds;
        dates := resampled_dates;
        data := Some {| open := r_open <$> resampled_df;
                        high := r_high <$> resampled_df;
                        low := r_low <$> resampled_df;
                        close := r_close <$> resampled_df;
                        volume := r_volume <$> resampled_df |};
        signals := map_signals_to_timeframe (signals ds) (dates ds)
                     resampled_dates tf;
        indicators :=
          map_imap (fun indicator_name indicator_values =>
                      Some (resample_indicator tf (dates ds) resampled_dates
                              indicator_name indicator_values))
                   (indicators ds);
        trendlines := Some (default [] (trendlines ds));
        last_updated := last_updated ds;
        error := None |}.
Proof.
  intros Hwf Hrule. unfold resample_data_to_timeframe.
  rewrite (resample_rule_not_daily _ _ Hrule).
  destruct (well_formed_frame ds Hwf) as [-> _]. by rewrite Hrule.
Qed.

Lemma resample_frame ds tf r :
  same_length (length (dates ds)) (default empty_ohlcv (data ds)) = true ->
  resample_rule tf = Some r ->
  resample_data_to_timeframe ds tf =
  Ok {| symbol := symbol ds;
        dates := r_date <$> dropna (resample_agg r (daily_records ds));
        data := Some {| open := r_open <$> dropna (resample_agg r (daily_records ds));
                        high := r_high <$> dropna (resample_agg r (daily_records ds));
                        low := r_low <$> dropna (resample_agg r (daily_records ds));
                        close := r_close <$> dropna (resample_agg r (daily_records ds));
                        volume := r_volume <$> dropna (resample_agg r (daily_records ds)) |};
        signals := map_signals_to_timeframe (signals ds) (dates ds)
                     (r_date <$> dropna (resample_agg r (daily_records ds))) tf;
        indicators :=
          map_imap (fun indicator_name indicator_values =>
                      Some (resample_indicator tf (dates ds)
                              (r_date <$> dropna (resample_agg r (daily_records ds)))
                              indicator_name indicator_values))
                   (indicators ds);
        trendlines := Some (default [] (trendlines ds));
        last_updated := last_updated ds;
        error := None |}.
Proof.
  intros Hlen Hrule. unfold resample_data_to_timeframe, DataFrame.
  by rewrite (resample_rule_not_daily _ _ Hrule), Hlen, Hrule.
Qed.

(** The boundary of every daily date is on the coarse axis. *)
Lemma axis_covers r ds d :
  well_formed ds -> d ∈ dates ds ->
  rule_label r d ∈ r_date <$> dropna (resample_agg r (daily_records ds)).
Proof.
  intros Hwf Hd. destruct (well_formed_frame ds Hwf) as [_ Hdates].
  rewrite <- Hdates in Hd. apply list_elem_of_fmap in Hd as (x & -> & Hx).
  apply resampled_dates_elem. intros Hnil.
  assert (x ∈ bin_rows r (daily_records ds) (rule_label r (r_date x))) as Hin
    by (by apply list_elem_of_filter).
  rewrite Hnil in Hin. by apply elem_of_nil in Hin.
Qed.

(** On the axis of the pipeline the fallback is never taken: a daily date
    is sent to the slot of its own boundary. *)
Lemma axis_resampled_idx tf r ds d k b :
  well_formed ds -> resample_rule tf = Some r -> d ∈ dates ds ->
  (r_date <$> dropna (resample_agg r (daily_records ds))) !! k = Some b ->
  resampled_idx tf (r_date <$> dropna (resample_agg r (daily_records ds))) d
    = Some k <-> rule_label r d = b.
Proof.
  intros Hwf Hrule Hd Hk. unfold resampled_idx.
  rewrite (period_end_rule _ _ _ Hrule). simpl.
  pose proof (resampled_dates_sorted r (daily_records ds)) as Hs.
  destruct (list_elem_of_lookup_1 _ _ (axis_covers r ds d Hwf Hd)) as [k0 Hk0].
  rewrite (locate_exact _ _ _ Hs Hk0). split.
  - intros [= ->]. congruence.
  - intros Hb. f_equal. rewrite Hb in Hk0. by eapply StronglySorted_lt_inj.
Qed.

(* ===================================================================== *)
(** * Part 3: the claims                                                  *)
(* ===================================================================== *)

(** ** Daily passthrough *)

(** C6.  With granularity daily the aggregation returns its input dataset
    itself, every field, signal series, indicator series and overlay
    unchanged, and the daily signal remap returns the signal series it was
    given. *)
Theorem daily_passthrough :
  forall (ds : dataset) (original_signals : gmap string (list Z))
         (original_dates resampled_dates : list date),
    resample_data_to_timeframe ds "daily" = Ok ds /\
    map_signals_to_timeframe original_signals original_dates resampled_dates
      "daily" = original_signals.
Proof. intros. split; reflexivity. Qed.

(** ** The weekly boundary *)

(** C5, as stated, fails on a weekend: Saturday 2024-01-06 is sent to
    Friday 2024-01-12, while the Friday of its ISO week is 2024-01-05; and
    Friday 2024-01-05, a day of that same ISO week, is sent to itself. *)
Lemma week_end_saturday :
  weekday (jan 6) = 5 /\
  week_end (jan 6) = jan 12 /\
  iso_week_friday (jan 6) = jan 5 /\
  week_end (jan 6) <> iso_week_friday (jan 6) /\
  iso_week_friday (jan 5) = iso_week_friday (jan 6) /\
  week_end (jan 5) <> week_end (jan 6).
Proof. vm_compute. repeat split; congruence. Qed.

(** C5, amended.  The weekly boundary of a date is the date plus
    ((4 - weekday) mod 7) days, Monday being 0: the first Friday on or
    after the date.  For Monday to Friday that is the Friday of the ISO
    week of the date, for Saturday and Sunday the Friday of the next ISO
    week.  The days with the same boundary are the seven days from the
    Saturday before it to the boundary.  The weekly resampling rule labels
    its bins with the same boundary.  2024-01-01 is a Monday, and the days
    from 2024-01-01 to 2024-01-05 all have the boundary 2024-01-05. *)
Theorem week_end_first_friday :
  forall d : date,
    week_end d = d + (4 - weekday d) mod 7 /\
    rule_label W_FRI d = week_end d /\
    period_end "weekly" d = Some (week_end d) /\
    weekday (week_end d) = 4 /\
    d <= week_end d <= d + 6 /\
    (weekday d <= 4 -> week_end d = iso_week_friday d) /\
    (5 <= weekday d -> week_end d = iso_week_friday d + 7) /\
    (forall d', week_end d' = week_end d <-> week_end d - 6 <= d' <= week_end d) /\
    weekday (jan 1) = 0 /\
    Forall (fun x => week_end x = jan 5) [jan 1; jan 2; jan 3; jan 4; jan 5].
Proof.
  intros d. do 3 (split; [reflexivity|]). split; [apply week_end_friday|].
  split; [|split; [|split; [|split; [|split]]]].
  - unfold week_end, weekday. Z.div_mod_to_equations. lia.
  - unfold week_end, iso_week_friday, weekday. Z.div_mod_to_equations. lia.
  - unfold week_end, iso_week_friday, weekday. Z.div_mod_to_equations. lia.
  - intros d'. unfold week_end, weekday. Z.div_mod_to_equations. lia.
  - reflexivity.
  - repeat constructor.
Qed.

(** ** The backward fallback *)

(** C4.  Let a daily entry have a computed boundary that is not on the
    (strictly ascending) coarse axis.  Then the slot chosen for it is that
    of a boundary below the computed one, and no boundary of the axis lies
    between the two: it is the nearest one at or before, never a later
    one; there is no slot exactly when every boundary of the axis is later
    than the computed one.  A nonzero value of the entry is written to that
    slot, and the entry is dropped when there is none. *)
Theorem fallback_nearest_before :
  forall (tf : string) (resampled_dt : list date) (orig_date target : date),
    period_end tf orig_date = Some target ->
    StronglySorted Z.lt resampled_dt ->
    target ∉ resampled_dt ->
    match resampled_idx tf resampled_dt orig_date with
    | Some k =>
        exists b, resampled_dt !! k = Some b /\ b < target /\
          forall b', b' ∈ resampled_dt -> b' <= target -> b' <= b
    | None => forall b, b ∈ resampled_dt -> target < b
    end /\
    forall (original mapped : gmap string (list Z)) (i : nat) name values v,
      original !! name = Some values -> values !! i = Some v -> v <> 0 ->
      map_entry tf resampled_dt original mapped (i, orig_date) !! name =
      match resampled_idx tf resampled_dt orig_date with
      | Some k => <[k := v]> <$> mapped !! name
      | None => mapped !! name
      end.
Proof.
  intros tf resampled_dt orig_date target Hend Hs Hnot. split.
  - unfold resampled_idx. rewrite Hend. simpl.
    pose proof (locate_fallback resampled_dt target Hs Hnot) as Hloc.
    destruct (locate resampled_dt target) as [k|]; [|done].
    destruct Hloc as (b & Hb & Hlt & Hnear). exists b. split; [done|].
    split; [done|]. intros b' [k' Hk']%list_elem_of_lookup_1 Hle.
    specialize (Hnear k' b' Hk' Hle).
    destruct (decide (k' = k)) as [->|Hne]; [simplify_eq; lia|].
    assert (b' < b); [|lia].
    eapply (StronglySorted_lt_lookup resampled_dt k' k); [done..|lia].
  - intros original mapped i name values v Ho Hv Hnz.
    rewrite map_entry_lookup, Ho. unfold slot_write. simpl.
    destruct (resampled_idx tf resampled_dt orig_date) as [k|].
    + rewrite Hv. destruct (decide (v = 0)); [done|]. done.
    + by destruct (mapped !! name).
Qed.

(** A holiday week: the axis has 2024-01-05 and 2024-01-19 but not
    2024-01-12; an entry of Monday 2024-01-08 goes back to slot 0. *)
Lemma fallback_nearest_before_holiday :
  resampled_idx "weekly" [jan 5; jan 19] (jan 8) = Some 0%nat /\
  forall b', b' ∈ [jan 5; jan 19] -> b' <= jan 12 -> b' <= jan 5.
Proof.
  destruct (fallback_nearest_before "weekly" [jan 5; jan 19] (jan 8) (jan 12))
    as [H _].
  - reflexivity.
  - by_evaluation.
  - by_evaluation.
  - change (resampled_idx "weekly" [jan 5; jan 19] (jan 8)) with (Some 0%nat) in H.
    destruct H as (b & Hb & _ & Hnear). simpl in Hb. simplify_eq.
    split; [reflexivity|exact Hnear].
Defined.

(** ** Overwrite by recency *)

(** C2.  A signal series remapped to a weekly or monthly bucket axis has
    one slot per bucket; a slot holds the value of the last nonzero daily
    entry that is sent to it (each nonzero write overwrites the earlier
    ones, zero entries are skipped), and 0 when no nonzero entry is sent to
    it.  In the aggregation of a well-formed dataset the entries sent to
    the slot of a bucket are those whose boundary is that bucket.  On the
    week from 2024-01-01 to 2024-01-05 the series 0, 1, 0, -1, 0 (1 on
    day 2, -1 on day 4) is remapped to the single value -1. *)
Theorem signal_overwrite_by_recency :
  (forall (original : gmap string (list Z)) (original_dates resampled_dates : list date)
          (tf : string) (r : rule) name values,
     resample_rule tf = Some r -> StronglySorted Z.lt resampled_dates ->
     original !! name = Some values ->
     exists coarse,
       map_signals_to_timeframe original original_dates resampled_dates tf !! name
         = Some coarse /\
       length coarse = length resampled_dates /\
       forall k, (k < length resampled_dates)%nat ->
         (forall i d v,
            original_dates !! i = Some d -> values !! i = Some v -> v <> 0 ->
            resampled_idx tf resampled_dates d = Some k ->
            (forall j d' v', (i < j)%nat -> original_dates !! j = Some d' ->
               values !! j = Some v' ->
               resampled_idx tf resampled_dates d' = Some k -> v' = 0) ->
            coarse !! k = Some v) /\
         ((forall i d v,
             original_dates !! i = Some d -> values !! i = Some v ->
             resampled_idx tf resampled_dates d = Some k -> v = 0) ->
          coarse !! k = Some 0)) /\
  (forall (ds : dataset) (tf : string) (r : rule),
     well_formed ds -> resample_rule tf = Some r ->
     exists ds', resample_data_to_timeframe ds tf = Ok ds' /\
       forall name values, signals ds !! name = Some values ->
         exists coarse, signals ds' !! name = Some coarse /\
           length coarse = length (dates ds') /\
           forall k b, dates ds' !! k = Some b ->
             (forall i d v,
                dates ds !! i = Some d -> values !! i = Some v -> v <> 0 ->
                rule_label r d = b ->
                (forall j d' v', (i < j)%nat -> dates ds !! j = Some d' ->
                   values !! j = Some v' -> rule_label r d' = b -> v' = 0) ->
                coarse !! k = Some v) /\
             ((forall i d v,
                 dates ds !! i = Some d -> values !! i = Some v ->
                 rule_label r d = b -> v = 0) ->
              coarse !! k = Some 0)) /\
  (exists ds', resample_data_to_timeframe week1_data "weekly" = Ok ds' /\
     dates ds' = [jan 5] /\ signals ds' !! "short_signal_v1" = Some [-1]).
Proof.
  split; [|split; [|by eexists]].
  - intros original original_dates resampled_dates tf r name values Hrule _ Hvalues.
    exists (map_signal tf resampled_dates original_dates values).
    rewrite map_signals_lookup, Hvalues by (by eapply resample_rule_not_daily).
    split; [done|]. split; [apply map_signal_length|].
    intros k Hk. by apply map_signal_slot.
  - intros ds tf r Hwf Hrule. eexists. split; [by apply resample_weekly_monthly|].
    simpl. intros name values Hvalues.
    exists (map_signal tf (r_date <$> dropna (resample_agg r (daily_records ds)))
              (dates ds) values).
    rewrite map_signals_lookup, Hvalues by (by eapply resample_rule_not_daily).
    split; [done|]. split; [apply map_signal_length|].
    intros k b Hk.
    destruct (map_signal_slot tf
                (r_date <$> dropna (resample_agg r (daily_records ds)))
                (dates ds) values k) as [Hlast Hnone];
      [by eapply lookup_lt_Some|].
    split.
    + intros i d v Hd Hv Hnz Hb Hlater.
      apply (Hlast i d v); [done..| |].
      * apply (axis_resampled_idx tf r ds d k b); [done..| |done|done].
        by eapply list_elem_of_lookup_2.
      * intros j d' v' Hj Hd' Hv' Hidx. apply (Hlater j d' v'); [done..|].
        apply (axis_resampled_idx tf r ds d' k b) in Hidx; [done..| |done].
        by eapply list_elem_of_lookup_2.
    + intros Hzero. apply Hnone. intros i d v Hd Hv Hidx.
      apply (Hzero i d v); [done..|].
      apply (axis_resampled_idx tf r ds d k b) in Hidx; [done..| |done].
      by eapply list_elem_of_lookup_2.
Qed.

(** The week of the example: the rule yields a slot for 2024-01-05 whose
    value is that of day 4, the last nonzero entry. *)
Lemma signal_overwrite_by_recency_week1 :
  well_formed week1_data /\
  exists ds' coarse,
    resample_data_to_timeframe week1_data "weekly" = Ok ds' /\
    signals ds' !! "short_signal_v1" = Some coarse /\
    coarse !! 0%nat = Some (-1).
Proof.
  assert (Hwf : well_formed week1_data)
    by (by_evaluation).
  split; [exact Hwf|].
  destruct (proj1 (proj2 signal_overwrite_by_recency)
              week1_data "weekly" W_FRI Hwf eq_refl)
    as (ds' & Hds' & Hsig).
  destruct (Hsig "short_signal_v1" [0; 1; 0; -1; 0] eq_refl)
    as (coarse & Hcoarse & _ & Hslot).
  exists ds', coarse. split; [exact Hds'|]. split; [exact Hcoarse|].
  assert (Hk : dates ds' !! 0%nat = Some (jan 5)).
  { vm_compute in Hds'. injection Hds' as <-. reflexivity. }
  apply (proj1 (Hslot 0%nat (jan 5) Hk) 3%nat (jan 4) (-1)); try reflexivity.
  - discriminate.
  - intros j d' v' Hj Hd' Hv' _.
    destruct j as [|[|[|[|[|j]]]]]; try lia; cbv in Hv'; congruence.
Defined.

(** ** The composite value: last in period *)

Lemma week_start_rule tf r b :
  resample_rule tf = Some r -> week_start tf b = interval_start r b.
Proof.
  unfold resample_rule, week_start.
  destruct (String.eqb tf "weekly"); [by intros [= <-]|].
  destruct (String.eqb tf "monthly"); [by intros [= <-]|done].
Qed.

Lemma empty_axis r ds :
  dates ds = [] -> r_date <$> dropna (resample_agg r (daily_records ds)) = [].
Proof. intros Hd. unfold daily_records. by rewrite Hd. Qed.

(** C3.  On a dataset with strictly ascending dates and OHLCV arrays as
    long as the date axis, aggregated weekly or monthly, the composite
    series is resampled to one slot per bucket.  The slot of the bucket
    with boundary b holds the composite value of the daily record with the
    latest date in the interval of the bucket, which runs from b - 6
    (weekly) or from the first day of the month of b (monthly) to b; it
    holds 0 when no daily record with a composite value lies in that
    interval, whatever the slots next to it hold.  A well-formed dataset
    is such a dataset, in which every daily record has a composite value.
    The composite values 0.2, 0.6, 0.9 of 2024-01-01, 2024-01-02 and
    2024-01-03 are resampled to 0.9, weekly (bucket 2024-01-05) and monthly
    (bucket 2024-01-31). *)
Theorem composite_last_in_period :
  (forall (ds : dataset) (tf : string) (r : rule) (s : ohlcv) (values : list Q),
     StronglySorted Z.lt (dates ds) ->
     data ds = Some s -> same_length (length (dates ds)) s = true ->
     resample_rule tf = Some r ->
     indicators ds !! FCV = Some values ->
     (dates ds <> [] -> values <> []) ->
     exists ds' coarse,
       resample_data_to_timeframe ds tf = Ok ds' /\
       indicators ds' !! FCV = Some coarse /\
       length coarse = length (dates ds') /\
       forall k b, dates ds' !! k = Some b ->
         (forall i d v,
            dates ds !! i = Some d -> values !! i = Some v ->
            interval_start r b <= d <= b ->
            (forall j d', dates ds !! j = Some d' -> is_Some (values !! j) ->
               interval_start r b <= d' <= b -> d' <= d) ->
            coarse !! k = Some v) /\
         ((forall i d, dates ds !! i = Some d ->
             interval_start r b <= d <= b -> values !! i = None) ->
          coarse !! k = Some 0%Q)) /\
  (forall (ds : dataset) (values : list Q),
     well_formed ds -> indicators ds !! FCV = Some values ->
     StronglySorted Z.lt (dates ds) /\
     (exists s, data ds = Some s /\
                same_length (length (dates ds)) s = true) /\
     (dates ds <> [] -> values <> []) /\
     forall i, is_Some (dates ds !! i) -> is_Some (values !! i)) /\
  (exists ds', resample_data_to_timeframe three_days "weekly" = Ok ds' /\
     dates ds' = [jan 5] /\ indicators ds' !! FCV = Some [(9 # 10)%Q]) /\
  (exists ds', resample_data_to_timeframe three_days "monthly" = Ok ds' /\
     dates ds' = [jan 31] /\ indicators ds' !! FCV = Some [(9 # 10)%Q]).
Proof.
  split; [|split; [|split; by eexists]].
  - intros ds tf r s values Hsorted Hdata Hlen Hrule Hfcv Hne.
    set (axis := r_date <$> dropna (resample_agg r (daily_records ds))).
    exists
      {| symbol := symbol ds; dates := axis;
         data := Some {| open := r_open <$> dropna (resample_agg r (daily_records ds));
                         high := r_high <$> dropna (resample_agg r (daily_records ds));
                         low := r_low <$> dropna (resample_agg r (daily_records ds));
                         close := r_close <$> dropna (resample_agg r (daily_records ds));
                         volume := r_volume <$> dropna (resample_agg r (daily_records ds)) |};
         signals := map_signals_to_timeframe (signals ds) (dates ds) axis tf;
         indicators :=
           map_imap (fun indicator_name indicator_values =>
                       Some (resample_indicator tf (dates ds) axis
                               indicator_name indicator_values))
                    (indicators ds);
         trendlines := Some (default [] (trendlines ds));
         last_updated := last_updated ds;
         error := None |},
      (resample_indicator tf (dates ds) axis FCV values).
    split.
    { apply resample_frame; [|done]. by rewrite Hdata. }
    simpl. rewrite map_lookup_imap, Hfcv. split; [done|].
    unfold resample_indicator. rewrite String.eqb_refl. simpl.
    destruct (Nat.ltb_spec 0 (length values)) as [Hpos|Hzero].
    + split; [by unfold resample_fcv; rewrite length_fmap|].
      intros k b Hk. unfold resample_fcv. rewrite list_lookup_fmap, Hk. simpl.
      unfold period_fcv_values. rewrite (week_start_rule _ _ _ Hrule).
      match goal with
      | |- context [omap id (imap ?f (dates ds))] =>
          change (omap id (imap f (dates ds))) with (picks f (dates ds))
      end.
      split.
      * intros i d v Hd Hv Hin Hlast. f_equal.
        erewrite last_picks; [done|exact Hd| |].
        -- simpl. rewrite Hv.
           by destruct (Z.leb_spec (interval_start r b) d), (Z.leb_spec d b); try lia.
        -- intros j d' Hj Hd'. simpl.
           destruct (Z.leb_spec (interval_start r b) d'), (Z.leb_spec d' b); try done.
           simpl. destruct (values !! j) as [v'|] eqn:Hv'; [|done].
           pose proof (StronglySorted_lt_lookup _ _ _ _ _ Hsorted Hd Hd' Hj).
           assert (d' <= d); [|lia].
           apply (Hlast j d' Hd'); [by rewrite Hv'|lia].
      * intros Hnone. rewrite picks_nil; [done|].
        intros i d Hd. simpl.
        destruct (Z.leb_spec (interval_start r b) d), (Z.leb_spec d b); try done.
        simpl. apply (Hnone i d Hd). lia.
    + assert (values = []) as Hv by (apply nil_length_inv; lia).
      assert (dates ds = []) as Hnil.
      { destruct (dates ds) as [|d l] eqn:Hd; [done|]. by destruct Hne. }
      assert (axis = []) as -> by (by apply empty_axis).
      split; [simpl; lia|]. by intros k b ?.
  - intros ds values (Hsorted & Hdata & _ & Hind) Hfcv.
    pose proof (map_Forall_lookup_1 _ _ _ _ Hind Hfcv) as Hlen. cbn in Hlen.
    split; [done|]. split; [|split].
    + destruct (data ds) as [s|]; [|done]. by exists s.
    + intros Hne ->. cbn in Hlen. by destruct (dates ds).
    + intros i Hi%lookup_lt_is_Some. apply lookup_lt_is_Some. lia.
Qed.

(** Two weeks whose composite series stops after the first week: the slot
    of 2024-01-05 takes the composite value of 2024-01-05, the latest day
    of its interval; no day of the week of 2024-01-12 has a composite
    value, and its slot holds 0, not the 0.9 of the week before. *)
Lemma composite_last_in_period_default :
  exists ds' coarse,
    resample_data_to_timeframe short_composite "weekly" = Ok ds' /\
    dates ds' = [jan 5; jan 12] /\
    indicators ds' !! FCV = Some coarse /\
    coarse !! 0%nat = Some (9 # 10)%Q /\ coarse !! 1%nat = Some 0%Q.
Proof.
  destruct (proj1 composite_last_in_period short_composite "weekly" W_FRI
              (default empty_ohlcv (data short_composite))
              [(2 # 10)%Q; (6 # 10)%Q; (9 # 10)%Q; (9 # 10)%Q; (9 # 10)%Q])
    as (ds' & coarse & Hds' & Hcoarse & _ & Hslot).
  - by_evaluation.
  - reflexivity.
  - reflexivity.
  - reflexivity.
  - reflexivity.
  - discriminate.
  - exists ds', coarse. split; [exact Hds'|].
    assert (Hdates : dates ds' = [jan 5; jan 12]).
    { vm_compute in Hds'. injection Hds' as <-. reflexivity. }
    split; [exact Hdates|]. split; [exact Hcoarse|]. split.
    + apply (proj1 (Hslot 0%nat (jan 5) ltac:(by rewrite Hdates))
               4%nat (jan 5) (9 # 10)%Q); try reflexivity.
      * vm_compute. split; discriminate.
      * intros j d' Hd' _ [_ Hle]. exact Hle.
    + apply (proj2 (Hslot 1%nat (jan 12) ltac:(by rewrite Hdates))).
      intros i d Hd [Hlo _].
      destruct i as [|[|[|[|[|i]]]]]; [| | | | |reflexivity];
        cbv in Hd; simplify_eq; vm_compute in Hlo; by destruct Hlo.
Defined.

(** ** OHLCV aggregation *)

(** C1, as stated, fails for the volume: Thursday 2024-01-04 with volume
    2^63 - 1 and Friday 2024-01-05 with volume 1 aggregate to one weekly
    bar whose volume is -2^63, not the sum 2^63. *)
Lemma volume_sum_wraps :
  well_formed heavy_week /\
  exists ds' s',
    resample_data_to_timeframe heavy_week "weekly" = Ok ds' /\
    data ds' = Some s' /\ dates ds' = [jan 5] /\
    volume s' = [inject_Z (- 2 ^ 63)] /\
    Qsum (volume (default empty_ohlcv (data heavy_week))) = inject_Z (2 ^ 63) /\
    ~ (inject_Z (- 2 ^ 63) ==
       Qsum (volume (default empty_ohlcv (data heavy_week))))%Q.
Proof.
  split; [by_evaluation|]. do 2 eexists.
  split; [vm_compute; reflexivity|]. split; [reflexivity|].
  split; [reflexivity|]. split; [reflexivity|]. split; [reflexivity|].
  by vm_compute.
Qed.

(** C1, amended.  On a well-formed daily dataset aggregated weekly or
    monthly the coarse date axis is strictly ascending, and for every
    boundary b: when no daily record has the boundary b, b is not on the
    axis (an empty period gets no bar, nothing is filled in); when some
    daily record has it, b is on the axis exactly once, and the bar at
    that position has the open of the first such record, the greatest of
    their highs, the least of their lows, the close of the last such
    record and the sum of their volumes in the number type of the volume
    column: float volumes give their sum; integer volumes are summed as
    64-bit signed integers, which is their sum z while z lies between
    -2^63 and 2^63 - 1, and z wrapped around modulo 2^64 otherwise. *)
Theorem ohlcv_aggregation :
  forall (ds : dataset) (tf : string) (r : rule) (s : ohlcv),
    well_formed ds -> resample_rule tf = Some r -> data ds = Some s ->
    exists ds' s',
      resample_data_to_timeframe ds tf = Ok ds' /\
      data ds' = Some s' /\
      StronglySorted Z.lt (dates ds') /\
      forall b,
        (contributing r ds b = [] -> b ∉ dates ds') /\
        (contributing r ds b <> [] ->
         exists k,
           (forall k', dates ds' !! k' = Some b <-> k' = k) /\
           open s' !! k = head (r_open <$> contributing r ds b) /\
           (exists h, high s' !! k = Some h /\
                      is_max_of h (r_high <$> contributing r ds b)) /\
           (exists l, low s' !! k = Some l /\
                      is_min_of l (r_low <$> contributing r ds b)) /\
           close s' !! k = last (r_close <$> contributing r ds b) /\
           (exists v, volume s' !! k = Some v /\
              (column_dtype (volume s) = Float64 ->
               (v == Qsum (r_volume <$> contributing r ds b))%Q) /\
              (column_dtype (volume s) = Int64 ->
               exists z,
                 (Qsum (r_volume <$> contributing r ds b) == inject_Z z)%Q /\
                 v = inject_Z (wrap64 z) /\
                 (- 2 ^ 63 <= z < 2 ^ 63 ->
                  (v == Qsum (r_volume <$> contributing r ds b))%Q)))).
Proof.
  intros ds tf r s Hwf Hrule Hdata. do 2 eexists.
  split; [by apply resample_weekly_monthly|]. simpl. split; [done|].
  pose proof (resampled_dates_sorted r (daily_records ds)) as Hs.
  split; [exact Hs|]. intros b.
  change (contributing r ds b) with (bin_rows r (daily_records ds) b).
  split.
  - intros Hnil Hb. by apply resampled_dates_elem in Hb.
  - intros Hg. apply resampled_dates_elem in Hg as Hb.
    apply list_elem_of_lookup_1 in Hb as [k Hk]. exists k.
    split.
    { intros k'. split; [|by intros ->].
      intros Hk'. by eapply StronglySorted_lt_inj. }
    apply list_lookup_fmap_Some in Hk as (x & -> & Hx).
    assert (x ∈ dropna (resample_agg r (daily_records ds))) as Hin
      by (by eapply list_elem_of_lookup_2).
    apply resampled_elem in Hin as [_ HF].
    apply dropna_row_agg_Some in HF as (_ & _ & Ho & Hh & Hl & Hc & Hv).
    assert (Hcol : r_volume <$> daily_records ds = volume s).
    { destruct Hwf as (_ & Hlen & _). rewrite Hdata in Hlen.
      by apply daily_records_volume. }
    rewrite Hcol in Hv.
    simpl. rewrite !list_lookup_fmap, Hx. simpl.
    split; [done|]. split; [|split; [|split]].
    + eexists. split; [done|]. by apply agg_max_spec.
    + eexists. split; [done|]. by apply agg_min_spec.
    + done.
    + eexists. split; [done|]. split.
      * intros Ht. rewrite Hv, Ht. by apply agg_sum_spec.
      * intros Ht. rewrite Hv, Ht, agg_sum_int64.
        assert (Hint : Forall (fun q => is_integer q = true)
                         (r_volume <$> bin_rows r (daily_records ds) (r_date x))).
        { apply Forall_int64_integer. apply column_dtype_Int64 in Ht.
          rewrite <- Hcol in Ht. rewrite Forall_forall in Ht.
          apply Forall_forall. intros q (y & -> & Hy)%list_elem_of_fmap.
          apply Ht, list_elem_of_fmap_2.
          by apply list_elem_of_filter in Hy as [_ ?]. }
        eexists. split; [by apply Qsum_integers|]. split; [done|].
        intros Hz. by rewrite (wrap64_id _ Hz), Qsum_integers.
Qed.

(** The week of the example: closes 10, 11, 9, 12, 13 aggregate to the bar
    of 2024-01-05 with open 10, high 13, low 9, close 13 and volume 1500. *)
Lemma ohlcv_aggregation_week1 :
  well_formed week1_data /\
  exists ds' s',
    resample_data_to_timeframe week1_data "weekly" = Ok ds' /\
    data ds' = Some s' /\ dates ds' = [jan 5] /\
    open s' = prices [10] /\ close s' = prices [13] /\
    (exists h, high s' !! 0%nat = Some h /\ forall y, y ∈ prices [11; 12; 11; 12; 13] -> (y <= h)%Q) /\
    (exists l, low s' !! 0%nat = Some l /\ forall y, y ∈ prices [9; 10; 9; 9; 12] -> (l <= y)%Q) /\
    (exists v, volume s' !! 0%nat = Some v /\ v = inject_Z 1500).
Proof.
  assert (Hwf : well_formed week1_data)
    by (by_evaluation).
  split; [exact Hwf|].
  destruct (ohlcv_aggregation week1_data "weekly" W_FRI _ Hwf eq_refl eq_refl)
    as (ds' & s' & Hds' & Hs' & _ & Hbar).
  exists ds', s'. split; [exact Hds'|]. split; [exact Hs'|].
  destruct (Hbar (jan 5)) as [_ Hbar5].
  destruct Hbar5
    as (k & Hk & _ & (h & Hh & _ & Hmax) & (l & Hl & _ & Hmin) & _ &
        (v & Hv & _ & Hint));
    [discriminate|].
  destruct (Hint eq_refl) as (z & Hz & Hvz & _).
  assert (z = 1500) as ->.
  { assert (Hsum : (Qsum (r_volume <$> contributing W_FRI week1_data (jan 5))
                    == inject_Z 1500)%Q) by (by vm_compute).
    apply inject_Z_injective. by rewrite <- Hz, Hsum. }
  vm_compute in Hds'. injection Hds' as <-.
  injection Hs' as <-.
  assert (k = 0%nat) as -> by (symmetry; apply Hk; reflexivity).
  split; [reflexivity|]. split; [reflexivity|]. split; [reflexivity|].
  split; [exists h; by split|]. split; [exists l; by split|].
  exists v. split; [exact Hv|exact Hvz].
Defined.

(** ** Lengths of the output arrays *)

Lemma resample_indicator_fcv_length ds tf r values :
  well_formed ds -> indicators ds !! FCV = Some values ->
  length (resample_indicator tf (dates ds)
            (r_date <$> dropna (resample_agg r (daily_records ds))) FCV values) =
  length (r_date <$> dropna (resample_agg r (daily_records ds))).
Proof.
  intros Hwf Hfcv.
  assert (Hlen : length values = length (dates ds)).
  { destruct Hwf as (_ & _ & _ & Hind). by apply (map_Forall_lookup_1 _ _ _ _ Hind Hfcv). }
  unfold resample_indicator. rewrite String.eqb_refl. simpl.
  destruct (Nat.ltb_spec 0 (length values)) as [Hpos|Hzero].
  - unfold resample_fcv. by rewrite length_fmap.
  - rewrite empty_axis by (apply nil_length_inv; lia).
    simpl. lia.
Qed.

Lemma resample_indicator_other tf original_dates resampled_dates name values :
  name <> FCV ->
  resample_indicator tf original_dates resampled_dates name values = values.
Proof.
  intros Hne. unfold resample_indicator.
  by destruct (String.eqb_spec name FCV).
Qed.

(** C7, as stated, fails for an indicator other than the composite: on the
    example week with an extra indicator ["rsi"], the weekly output has
    one bucket and an ["rsi"] series of five values. *)
Lemma indicator_length_counterexample :
  well_formed week1_rsi /\
  exists ds' s,
    resample_data_to_timeframe week1_rsi "weekly" = Ok ds' /\
    indicators ds' !! "rsi" = Some s /\
    length (dates ds') = 1%nat /\ length s = 5%nat.
Proof.
  split; [by_evaluation|].
  by do 2 eexists.
Qed.

Lemma last_event_ext (sel1 sel2 : date -> bool) original_dates values :
  (forall d, d ∈ original_dates -> sel1 d = sel2 d) ->
  last_event sel1 original_dates values = last_event sel2 original_dates values.
Proof.
  intros Hsel. unfold last_event, events_in. do 3 f_equal.
  apply imap_ext. intros i d Hd.
  by rewrite (Hsel d) by (by eapply list_elem_of_lookup_2).
Qed.

(** C7, amended.  For every granularity and every well-formed dataset the
    aggregation returns a dataset in which each OHLCV array, every signal
    series and the composite series ([Final_Composite_Value]) are as long
    as the date axis of the output, and index k of each of them refers to
    the bucket of the date at index k: weekly and monthly, the OHLCV
    entries are those of the bar aggregated from the daily records of that
    bucket, the signal entry is the last nonzero daily entry of that
    bucket (0 without one), and the composite entry is the last composite
    value of the interval of that bucket; with any other granularity the
    dataset is returned as it is.  Every other indicator series is the
    daily series of the input, unchanged. *)
Theorem output_lengths :
  forall (ds : dataset) (tf : string),
    well_formed ds ->
    exists ds' s',
      resample_data_to_timeframe ds tf = Ok ds' /\
      data ds' = Some s' /\
      same_length (length (dates ds')) s' = true /\
      map_Forall (fun _ (s : list Z) => length s = length (dates ds')) (signals ds') /\
      (forall s, indicators ds' !! FCV = Some s -> length s = length (dates ds')) /\
      (forall name, name <> FCV -> indicators ds' !! name = indicators ds !! name) /\
      (resample_rule tf = None -> ds' = ds) /\
      (forall r, resample_rule tf = Some r ->
         forall k b, dates ds' !! k = Some b ->
           (contributing r ds b <> [] /\
            exists bar,
              dropna_row (agg_ohlc (column_dtype (r_volume <$> daily_records ds))
                            b (contributing r ds b)) = Some bar /\
              open s' !! k = Some (r_open bar) /\
              high s' !! k = Some (r_high bar) /\
              low s' !! k = Some (r_low bar) /\
              close s' !! k = Some (r_close bar) /\
              volume s' !! k = Some (r_volume bar)) /\
           (forall name values, signals ds !! name = Some values ->
              exists coarse, signals ds' !! name = Some coarse /\
                coarse !! k =
                  Some (last_event (fun d => bool_decide (rule_label r d = b))
                          (dates ds) values)) /\
           (forall values, indicators ds !! FCV = Some values ->
              exists coarse, indicators ds' !! FCV = Some coarse /\
                coarse !! k =
                  Some (default 0%Q
                          (last (picks (fun i d =>
                                   if (interval_start r b <=? d) && (d <=? b)
                                   then values !! i else None)
                                  (dates ds)))))).
Proof.
  intros ds tf Hwf.
  assert (Hsame : exists s, data ds = Some s /\
            same_length (length (dates ds)) s = true /\
            map_Forall (fun _ (s : list Z) => length s = length (dates ds)) (signals ds) /\
            (forall s, indicators ds !! FCV = Some s -> length s = length (dates ds))).
  { destruct Hwf as (_ & Hd & Hsig & Hind). destruct (data ds) as [s|]; [|done].
    exists s. repeat split; try done.
    intros v Hv. by apply (map_Forall_lookup_1 _ _ _ _ Hind Hv). }
  destruct Hsame as (s & Hs & Hlen & Hsig & Hfcv).
  destruct (resample_rule tf) as [r|] eqn:Hrule.
  - do 2 eexists. split; [by apply resample_weekly_monthly|]. simpl.
    split; [done|]. split; [|split; [|split; [|split; [|split; [done|]]]]].
    + apply same_length_spec. simpl. by rewrite !length_fmap.
    + intros name coarse.
      rewrite map_signals_lookup by (by eapply resample_rule_not_daily).
      destruct (signals ds !! name) as [values|]; [|done].
      intros [= <-]. apply map_signal_length.
    + intros coarse. rewrite map_lookup_imap.
      destruct (indicators ds !! FCV) as [values|] eqn:Hvalues; [|done].
      intros [= <-]. by apply resample_indicator_fcv_length.
    + intros name Hne. rewrite map_lookup_imap.
      destruct (indicators ds !! name) as [values|]; [|done]. simpl.
      by rewrite resample_indicator_other.
    + intros r' [= <-] k b Hk.
      change (contributing r ds b) with (bin_rows r (daily_records ds) b).
      pose proof Hk as Hk'.
      apply list_lookup_fmap_Some in Hk' as (x & -> & Hx).
      assert (x ∈ dropna (resample_agg r (daily_records ds))) as Hin
        by (by eapply list_elem_of_lookup_2).
      apply resampled_elem in Hin as [_ HF].
      split; [|split].
      * split; [by apply dropna_row_agg_group in HF|].
        exists x. split; [done|]. cbn [open high low close volume].
        by rewrite !list_lookup_fmap, Hx.
      * intros name values Hvalues.
        exists (map_signal tf (r_date <$> dropna (resample_agg r (daily_records ds)))
                  (dates ds) values).
        rewrite map_signals_lookup, Hvalues by (by eapply resample_rule_not_daily).
        split; [done|].
        rewrite map_signal_lookup by (by eapply lookup_lt_Some).
        f_equal. apply last_event_ext. intros d Hd.
        apply bool_decide_ext.
        by apply (axis_resampled_idx tf r ds d k (r_date x)).
      * intros values Hvalues. eexists.
        rewrite map_lookup_imap, Hvalues. split; [done|].
        unfold resample_indicator. rewrite String.eqb_refl. cbn [andb].
        destruct (Nat.ltb_spec 0 (length values)) as [Hpos|Hzero].
        -- unfold resample_fcv. rewrite list_lookup_fmap, Hk. cbn.
           unfold period_fcv_values.
           by rewrite (week_start_rule _ _ _ Hrule).
        -- specialize (Hfcv values Hvalues).
           assert (dates ds = []) as Hnil by (apply nil_length_inv; lia).
           rewrite (empty_axis r ds Hnil) in Hk. done.
  - exists ds, s.
    assert (resample_data_to_timeframe ds tf = Ok ds) as ->.
    { unfold resample_data_to_timeframe.
      destruct (String.eqb tf "daily"); [done|].
      destruct (well_formed_frame ds Hwf) as [-> _]. by rewrite Hrule. }
    split; [done|]. split; [done|]. split; [done|]. split; [done|].
    split; [done|]. split; [done|]. split; [done|]. done.
Qed.

(** On the example week, weekly: one bucket, 2024-01-05; index 0 of every
    array is made from the five days of that bucket. *)
Lemma output_lengths_week1 :
  well_formed week1_data /\
  exists ds' s',
    resample_data_to_timeframe week1_data "weekly" = Ok ds' /\
    data ds' = Some s' /\
    same_length (length (dates ds')) s' = true /\
    (forall s, indicators ds' !! FCV = Some s -> length s = length (dates ds')) /\
    dates ds' !! 0%nat = Some (jan 5) /\
    length (contributing W_FRI week1_data (jan 5)) = 5%nat /\
    open s' !! 0%nat = Some 10%Q /\ close s' !! 0%nat = Some 13%Q /\
    (exists coarse, signals ds' !! "short_signal_v1" = Some coarse /\
       coarse !! 0%nat = Some (-1)) /\
    (exists coarse, indicators ds' !! FCV = Some coarse /\
       coarse !! 0%nat = Some (9 # 10)%Q).
Proof.
  assert (Hwf : well_formed week1_data)
    by (by_evaluation).
  split; [exact Hwf|].
  destruct (output_lengths week1_data "weekly" Hwf)
    as (ds' & s' & Hds' & Hs' & Hlen & _ & Hfcv & _ & _ & Halign).
  exists ds', s'. do 4 (split; [assumption|]).
  assert (Hk : dates ds' !! 0%nat = Some (jan 5)).
  { vm_compute in Hds'. injection Hds' as <-. reflexivity. }
  split; [exact Hk|]. split; [reflexivity|].
  destruct (Halign W_FRI eq_refl 0%nat (jan 5) Hk)
    as ((_ & bar & Hbar & Ho & _ & _ & Hc & _) & Hsig & Hcomp).
  vm_compute in Hbar. injection Hbar as <-.
  split; [exact Ho|]. split; [exact Hc|]. split.
  - destruct (Hsig "short_signal_v1" [0; 1; 0; -1; 0] eq_refl)
      as (coarse & Hcoarse & Hv).
    exists coarse. split; [exact Hcoarse|]. exact Hv.
  - destruct (Hcomp [0%Q; 0%Q; (2 # 10)%Q; (6 # 10)%Q; (9 # 10)%Q] eq_refl)
      as (coarse & Hcoarse & Hv).
    exists coarse. split; [exact Hcoarse|]. exact Hv.
Defined.

(** ** Shape validation *)

(** C8, as stated, fails.  A signal series shorter than the date axis
    (three values for five dates) raises nothing: the weekly aggregation
    returns a coarse dataset.  With close prices shorter than the date
    axis the daily aggregation returns the dataset as it is, and the chart
    cuts the dates to the three days that have a close. *)
Lemma shape_mismatch_tolerated :
  (signals week1_short_signal !! "short_signal_v1" = Some [0; 1; 0] /\
   length (dates week1_short_signal) = 5%nat /\
   exists ds', resample_data_to_timeframe week1_short_signal "weekly" = Ok ds' /\
     dates ds' = [jan 5] /\ signals ds' !! "short_signal_v1" = Some [1]) /\
  (resample_data_to_timeframe week1_short_close "daily" = Ok week1_short_close /\
   exists a, chart_inputs week1_short_close = Some a /\
     c_dates a = [jan 1; jan 2; jan 3]).
Proof.
  split.
  - split; [reflexivity|]. split; [reflexivity|]. by eexists.
  - split; [reflexivity|]. by eexists.
Qed.

(** C8, amended.  The daily aggregation returns any dataset unchanged,
    without a check.  With another granularity token, a dataset in which
    one of the open, high, low, close and volume arrays is not as long as
    the date axis makes the frame construction raise [ValueError] (which
    names no field), and no dataset is returned; when these five arrays
    are as long as the date axis the aggregation returns a dataset,
    whatever the lengths of the signal and indicator series.  The chart
    cuts dates, open, high, low and close to the shortest of them. *)
Theorem shape_mismatch_behaviour :
  forall (ds : dataset) (tf : string),
    resample_data_to_timeframe ds "daily" = Ok ds /\
    (String.eqb tf "daily" = false ->
     same_length (length (dates ds)) (default empty_ohlcv (data ds)) = false ->
     resample_data_to_timeframe ds tf = Raise ValueError) /\
    (same_length (length (dates ds)) (default empty_ohlcv (data ds)) = true ->
     exists ds', resample_data_to_timeframe ds tf = Ok ds') /\
    (forall a s, chart_inputs ds = Some a -> data ds = Some s ->
       exists n : nat,
         n = Nat.min (length (dates ds))
               (Nat.min (length (open s))
                  (Nat.min (length (high s))
                     (Nat.min (length (low s)) (length (close s))))) /\
         c_dates a = take n (dates ds) /\ c_open a = take n (open s) /\
         c_high a = take n (high s) /\ c_low a = take n (low s) /\
         c_close a = take n (close s) /\
         length (c_dates a) = n /\ length (c_open a) = n /\
         length (c_high a) = n /\ length (c_low a) = n /\
         length (c_close a) = n).
Proof.
  intros ds tf. split; [reflexivity|]. split; [|split].
  - intros Htf Hlen. unfold resample_data_to_timeframe, DataFrame.
    by rewrite Htf, Hlen.
  - intros Hlen. unfold resample_data_to_timeframe, DataFrame. rewrite Hlen.
    destruct (String.eqb tf "daily"); [by eexists|].
    destruct (resample_rule tf); by eexists.
  - intros a s Ha Hs. unfold chart_inputs in Ha. rewrite Hs in Ha.
    eexists. split; [reflexivity|].
    destruct (Nat.eqb_spec
      (Nat.min (length (dates ds))
         (Nat.min (length (open s))
            (Nat.min (length (high s))
               (Nat.min (length (low s)) (length (close s)))))) 0); [done|].
    injection Ha as <-. simpl. rewrite !length_take. repeat split; lia.
Qed.

(** ** Granularity tokens *)

(** C9, as stated, fails: the token ["hourly"] raises nothing, the example
    week comes back as it went in. *)
Lemma unsupported_granularity_returns :
  resample_data_to_timeframe week1_data "hourly" = Ok week1_data.
Proof. reflexivity. Qed.

(** C9, amended.  For every granularity token other than daily, weekly
    and monthly, and every dataset whose five OHLCV arrays are as long as
    its date axis (every well-formed dataset is one), the aggregation
    raises nothing and returns the input dataset unchanged. *)
Theorem unsupported_granularity_passthrough :
  forall (ds : dataset) (tf : string),
    tf <> "daily" -> tf <> "weekly" -> tf <> "monthly" ->
    same_length (length (dates ds)) (default empty_ohlcv (data ds)) = true ->
    resample_data_to_timeframe ds tf = Ok ds.
Proof.
  intros ds tf Hd Hw Hm Hlen. unfold resample_data_to_timeframe, DataFrame.
  rewrite Hlen. destruct (String.eqb_spec tf "daily"); [done|].
  unfold resample_rule.
  destruct (String.eqb_spec tf "weekly"); [done|].
  by destruct (String.eqb_spec tf "monthly").
Qed.

Lemma unsupported_granularity_passthrough_hourly :
  resample_data_to_timeframe week1_data "hourly" = Ok week1_data.
Proof.
  apply (unsupported_granularity_passthrough week1_data "hourly");
    [discriminate|discriminate|discriminate|reflexivity].
Defined.

(** ** The JSON client on a missing, unreadable or empty file *)

Lemma load_not_truthy self fs symbol_ :
  let file := fs (path_join (data_dir self) (_get_symbol_filename symbol_)) in
  file = Missing \/ file = Unreadable \/
  (exists doc, file = Content doc /\ truthy doc = false) ->
  truthy (_load_symbol_data self fs symbol_) = false.
Proof.
  simpl. unfold _load_symbol_data.
  intros [-> | [-> | (doc & -> & Hdoc)]]; done.
Qed.

(** C10, as stated, fails when the client has cached the symbol: a client
    that loaded one item for ["TLT"] earlier returns that item, without an
    ['error'] key, although the file of ["TLT"] is missing now. *)
Lemma stale_cache_counterexample :
  no_files (path_join (data_dir warm_client) (_get_symbol_filename "TLT")) = Missing /\
  let d := (get_signals_data warm_client no_files "TLT" "1y").1 in
  error d = None /\ dates d = [jan 2] /\ signals d <> ∅.
Proof.
  split; [reflexivity|]. split; [reflexivity|]. split; [reflexivity|].
  intros H. apply (f_equal (fun m => m !! "long_signal")) in H.
  vm_compute in H. discriminate.
Qed.

(** C10, amended.  When the client has no cached data for the symbol (no
    cache entry, or a cached document that is empty) and the JSON file of
    the symbol is missing, unreadable or empty, [get_signals_data] returns
    (it cannot raise) the dict whose ['symbol'] is the symbol argument,
    whose ['dates'] is the empty list, whose ['signals'] and
    ['indicators'] are empty, and which has an ['error'] key. *)
Theorem missing_file_error_dict :
  forall (self : client) (fs : string -> file_state) (symbol_ period : string),
    _cache self !! symbol_ = None \/
    (exists doc, _cache self !! symbol_ = Some doc /\ truthy doc = false) ->
    (let file := fs (path_join (data_dir self) (_get_symbol_filename symbol_)) in
     file = Missing \/ file = Unreadable \/
     (exists doc, file = Content doc /\ truthy doc = false)) ->
    let d := (get_signals_data self fs symbol_ period).1 in
    symbol d = symbol_ /\ dates d = [] /\ signals d = ∅ /\ indicators d = ∅ /\
    is_Some (error d).
Proof.
  intros self fs symbol_ period Hcache Hfile.
  assert ((get_signals_data self fs symbol_ period).1 = error_dict symbol_ NoData)
    as ->; [|by repeat split].
  unfold get_signals_data.
  destruct Hcache as [-> | (doc & -> & Hdoc)].
  - by rewrite (load_not_truthy self fs symbol_ Hfile).
  - by rewrite Hdoc.
Qed.

(** A fresh client over a directory without files. *)
Lemma missing_file_error_dict_fresh :
  let d := (get_signals_data (new_client "data") no_files "TLT" "1y").1 in
  symbol d = "TLT" /\ dates d = [] /\ signals d = ∅ /\ indicators d = ∅ /\
  is_Some (error d).
Proof.
  apply (missing_file_error_dict (new_client "data") no_files "TLT" "1y").
  - left. reflexivity.
  - left. reflexivity.
Defined.

(* ===================================================================== *)
(** * Part 4: further properties of the code                              *)
(* ===================================================================== *)

(** ** The JSON client *)

Lemma item_dates_length items ds :
  item_dates items = Ok ds -> length ds = length items.
Proof.
  revert ds. induction items as [|it items IH]; intros ds; simpl.
  - by intros [= <-].
  - destruct (i_date it); [|done].
    destruct (item_dates items) as [ds'|]; [|done].
    intros [= <-]. simpl. f_equal. by apply IH.
Qed.

Lemma item_dates_lookup items ds i it :
  item_dates items = Ok ds -> items !! i = Some it -> ds !! i = i_date it.
Proof.
  revert ds i. induction items as [|it' items IH]; intros ds i; [done|]. simpl.
  destruct (i_date it') as [d|] eqn:Hd; [|done].
  destruct (item_dates items) as [ds'|]; [|done].
  intros [= <-]. destruct i as [|i]; simpl.
  - by intros [= <-].
  - by apply IH.
Qed.

Lemma column_lookup {A} (get : item -> option A) dflt items i it :
  items !! i = Some it ->
  column get dflt items !! i = Some (default dflt (get it)).
Proof. intros Hit. unfold column. by rewrite list_lookup_fmap, Hit. Qed.

Lemma item_dates_missing items :
  (exists it, it ∈ items /\ i_date it = None) ->
  item_dates items = Raise (KeyError "date").
Proof.
  intros (it & Hin & Hnone).
  induction Hin as [it items|it it' items Hin IH]; simpl.
  - by rewrite Hnone.
  - destruct (i_date it'); [|done]. by rewrite IH.
Qed.

Lemma get_signals_data_consulted self fs symbol_ period :
  (get_signals_data self fs symbol_ period).1 =
  if negb (truthy (consulted self fs symbol_)) then error_dict symbol_ NoData
  else match structure symbol_ (consulted self fs symbol_) with
       | Ok d => d
       | Raise e => error_dict symbol_ (QueryFailed e)
       end.
Proof.
  unfold get_signals_data, consulted.
  destruct (_cache self !! symbol_) as [doc|].
  - destruct (negb (truthy doc)); [done|]. by destruct (structure symbol_ doc).
  - destruct (negb (truthy (_load_symbol_data self fs symbol_))); [done|].
    by destruct (structure symbol_ (_load_symbol_data self fs symbol_)).
Qed.

(** X1.  When the document of a symbol is a non-empty list of items that
    all have a date, [get_signals_data] returns a dict without ['error']
    whose arrays have one entry per item, in the order of the items: at
    index i the date axis holds the date of item i, the five OHLCV arrays
    hold its prices and volume, the six signal series hold its signals
    and the composite series holds its composite value, each with 0 for a
    key the item does not have.  When the item dates are strictly
    ascending the dict is a well-formed dataset. *)
Theorem loader_parallel_arrays :
  forall (self : client) (fs : string -> file_state) (symbol_ period : string)
         (items : list item) (ds : list date),
    consulted self fs symbol_ = DocItems items ->
    items <> [] ->
    item_dates items = Ok ds ->
    let d := (get_signals_data self fs symbol_ period).1 in
    error d = None /\ symbol d = symbol_ /\ dates d = ds /\
    length (dates d) = length items /\
    (exists s, data d = Some s /\ same_length (length items) s = true) /\
    dom (signals d) =
      {[ "short_signal_v1"; "short_signal_v2"; "long_signal";
         "combined_signal_v1"; "macd_signal"; "momentum_color_signal" ]} /\
    map_Forall (fun _ (s : list Z) => length s = length items) (signals d) /\
    dom (indicators d) = {[ FCV ]} /\
    map_Forall (fun _ (s : list Q) => length s = length items) (indicators d) /\
    (forall i it, items !! i = Some it ->
       dates d !! i = i_date it /\
       (exists s, data d = Some s /\
          open s !! i = Some (default 0%Q (i_open it)) /\
          high s !! i = Some (default 0%Q (i_high it)) /\
          low s !! i = Some (default 0%Q (i_low it)) /\
          close s !! i = Some (default 0%Q (i_close it)) /\
          volume s !! i = Some (default 0%Q (i_volume it))) /\
       entry_at (signals d) "short_signal_v1" i =
         Some (default 0 (i_short_signal_v1 it)) /\
       entry_at (signals d) "short_signal_v2" i =
         Some (default 0 (i_short_signal_v2 it)) /\
       entry_at (signals d) "long_signal" i =
         Some (default 0 (i_long_signal it)) /\
       entry_at (signals d) "combined_signal_v1" i =
         Some (default 0 (i_combined_signal_v1 it)) /\
       entry_at (signals d) "macd_signal" i =
         Some (default 0 (i_macd_signal it)) /\
       entry_at (signals d) "momentum_color_signal" i =
         Some (default 0 (i_momentum_color_signal it)) /\
       entry_at (indicators d) FCV i = Some (default 0%Q (i_fcv it))) /\
    (StronglySorted Z.lt ds -> well_formed d).
Proof.
  intros self fs symbol_ period items ds Hdoc Hne Hds d. subst d.
  rewrite get_signals_data_consulted, Hdoc.
  assert (truthy (DocItems items) = true) as -> by (by destruct items).
  simpl. rewrite Hds. simpl.
  pose proof (item_dates_length _ _ Hds) as Hlen.
  assert (Hcol : forall A (get : item -> option A) dflt,
            length (column get dflt items) = length items)
    by (intros; unfold column; apply length_fmap).
  split; [done|]. split; [done|]. split; [done|]. split; [done|].
  split; [eexists; split; [done|]; apply same_length_spec; simpl; by rewrite !Hcol|].
  assert (Hsig : map_Forall (fun _ (s : list Z) => length s = length items)
    (signals (match structure symbol_ (DocItems items) with
              | Ok d => d | Raise _ => error_dict symbol_ NoData end))).
  { simpl. rewrite Hds. simpl.
    repeat (apply map_Forall_insert_2; [apply Hcol|]). apply map_Forall_empty. }
  simpl in Hsig. rewrite Hds in Hsig. simpl in Hsig.
  split; [|split; [exact Hsig|split; [|split; [|split]]]].
  - rewrite !dom_insert_L, dom_empty_L. set_solver.
  - by rewrite dom_singleton_L.
  - apply map_Forall_singleton. apply Hcol.
  - intros i it Hit. split; [by eapply item_dates_lookup|]. split.
    { eexists. split; [done|]. cbn [open high low close volume].
      by rewrite !(column_lookup _ _ _ _ _ Hit). }
    unfold entry_at.
    repeat (split;
      [rewrite ?lookup_insert_ne by done; rewrite lookup_insert_eq;
       cbn [mbind option_bind]; by apply column_lookup|]).
    rewrite lookup_singleton_eq. cbn [mbind option_bind]. by apply column_lookup.
  - intros Hsorted. unfold well_formed. simpl. rewrite Hlen.
    split; [done|]. split; [apply same_length_spec; simpl; by rewrite !Hcol|].
    split; [exact Hsig|]. apply map_Forall_singleton. apply Hcol.
Qed.

Lemma loader_parallel_arrays_item1 :
  let d := (get_signals_data warm_client no_files "TLT" "1y").1 in
  error d = None /\ dates d = [jan 2] /\ well_formed d /\
  entry_at (signals d) "short_signal_v1" 0 = Some 1 /\
  entry_at (signals d) "macd_signal" 0 = Some 0 /\
  entry_at (indicators d) FCV 0 = Some (2 # 10)%Q.
Proof.
  destruct (loader_parallel_arrays warm_client no_files "TLT" "1y" [item1] [jan 2])
    as (He & _ & Hd & _ & _ & _ & _ & _ & _ & Hitem & Hwf).
  - reflexivity.
  - discriminate.
  - reflexivity.
  - destruct (Hitem 0%nat item1 eq_refl)
      as (_ & _ & Hv1 & _ & _ & _ & Hmacd & _ & Hfcv).
    split; [exact He|]. split; [exact Hd|].
    split; [apply Hwf; by_evaluation|].
    split; [exact Hv1|]. split; [exact Hmacd|exact Hfcv].
Defined.

(** X2.  When the document of a symbol is a list in which some item has
    no ['date'] key, [get_signals_data] returns the error dict for the
    caught [KeyError]: no date, no signal and no indicator of the items
    before the faulty one is returned. *)
Theorem loader_missing_date :
  forall (self : client) (fs : string -> file_state) (symbol_ period : string)
         (items : list item),
    consulted self fs symbol_ = DocItems items ->
    (exists it, it ∈ items /\ i_date it = None) ->
    (get_signals_data self fs symbol_ period).1 =
    error_dict symbol_ (QueryFailed (KeyError "date")).
Proof.
  intros self fs symbol_ period items Hdoc Hmiss.
  rewrite get_signals_data_consulted, Hdoc.
  assert (truthy (DocItems items) = true) as ->.
  { destruct Hmiss as (it & Hin & _). destruct items; [|done].
    by apply elem_of_nil in Hin. }
  simpl. by rewrite (item_dates_missing _ Hmiss).
Qed.

Lemma loader_missing_date_second_item :
  (get_signals_data (new_client "data") broken_file "TLT" "1y").1 =
  error_dict "TLT" (QueryFailed (KeyError "date")).
Proof.
  apply (loader_missing_date (new_client "data") broken_file "TLT" "1y"
           [item1; item_without_date]).
  - reflexivity.
  - exists item_without_date. split; [|reflexivity].
    apply elem_of_cons. right. apply elem_of_cons. by left.
Defined.

(** X3.  [get_signals_data] consults the file system at most once per
    symbol: after a call the cache holds the document the call worked on
    (an empty list when the file was missing or unreadable), so every
    later call for that symbol returns the same dict and leaves the client
    as it is, whatever the files are by then; the cache entries of the
    other symbols are not touched. *)
Theorem cache_is_sticky :
  forall (self : client) (fs fs' : string -> file_state)
         (symbol_ period period' : string),
    let r := get_signals_data self fs symbol_ period in
    _cache r.2 !! symbol_ = Some (consulted self fs symbol_) /\
    get_signals_data r.2 fs' symbol_ period' = r /\
    (forall other, other <> symbol_ ->
       _cache r.2 !! other = _cache self !! other) /\
    data_dir r.2 = data_dir self.
Proof.
  intros self fs fs' symbol_ period period'. simpl.
  unfold get_signals_data, consulted.
  destruct (_cache self !! symbol_) as [doc|] eqn:Hc.
  - destruct (negb (truthy doc)) eqn:Ht; simpl.
    + rewrite Hc, Ht. done.
    + destruct (structure symbol_ doc) eqn:Hs; simpl; rewrite Hc, Ht, Hs; done.
  - set (doc := _load_symbol_data self fs symbol_).
    destruct (negb (truthy doc)) eqn:Ht; simpl.
    + rewrite lookup_insert_eq, Ht. repeat split; try done.
      intros other Hne. by rewrite lookup_insert_ne.
    + destruct (structure symbol_ doc) eqn:Hs; simpl;
        rewrite lookup_insert_eq, Ht, Hs; (repeat split; try done);
        intros other Hne; by rewrite lookup_insert_ne.
Qed.

(** ** File names *)

Lemma chars_app s1 s2 :
  String.list_ascii_of_string (s1 +:+ s2) =
  String.list_ascii_of_string s1 ++ String.list_ascii_of_string s2.
Proof. induction s1 as [|a s1 IH]; simpl; [done|]. by rewrite IH. Qed.

Lemma replace_char_chars c by_ s x :
  x ∈ String.list_ascii_of_string (replace_char c by_ s) ->
  x ∈ String.list_ascii_of_string by_ \/ (x ∈ String.list_ascii_of_string s /\ x <> c).
Proof.
  induction s as [|a s IH]; simpl; [by intros ?%elem_of_nil|].
  destruct (Ascii.eqb_spec a c) as [->|Hne].
  - rewrite chars_app. intros [Hx|Hx]%elem_of_app; [by left|].
    destruct (IH Hx) as [?|[? ?]]; [by left|right]. split; [by right|done].
  - intros [->|Hx]%elem_of_cons.
    + right. split; [left|done].
    + destruct (IH Hx) as [?|[? ?]]; [by left|right]. split; [by right|done].
Qed.

Lemma replace_char_remove c s :
  String.list_ascii_of_string (replace_char c "" s) =
  filter (fun x => x <> c) (String.list_ascii_of_string s).
Proof.
  induction s as [|a s IH]; [done|]. cbn [replace_char String.list_ascii_of_string].
  destruct (Ascii.eqb_spec a c) as [->|Hne].
  - rewrite filter_cons_False by (by intros ?). exact IH.
  - rewrite filter_cons_True by done. cbn. by rewrite IH.
Qed.

Lemma replace_char_subst c d s :
  String.list_ascii_of_string (replace_char c (String d "") s) =
  (fun x => if Ascii.eqb x c then d else x) <$> String.list_ascii_of_string s.
Proof.
  induction s as [|a s IH]; [done|]. cbn [replace_char String.list_ascii_of_string].
  rewrite fmap_cons. destruct (Ascii.eqb a c);
    [rewrite chars_app|]; cbn [String.list_ascii_of_string app];
    by rewrite IH.
Qed.

(** X4.  The file name of a symbol is ["signals_"], the sanitized symbol
    and [".json"].  The sanitized symbol is the symbol with every [^] and
    [=] left out and every [/] turned into [_]; every other character, a
    backslash or a dot for instance, is kept where it is.  So the file
    name contains none of the characters [/], [^] and [=]. *)
Theorem filename_sanitized :
  forall (symbol_ : string),
    (exists safe_symbol,
       _get_symbol_filename symbol_ = "signals_" +:+ safe_symbol +:+ ".json" /\
       String.list_ascii_of_string safe_symbol =
         (fun x => if Ascii.eqb x "/" then "_"%char else x) <$>
         filter (fun x => x <> "="%char /\ x <> "^"%char)
                (String.list_ascii_of_string symbol_)) /\
    forall x, x ∈ String.list_ascii_of_string (_get_symbol_filename symbol_) ->
      x <> "/"%char /\ x <> "^"%char /\ x <> "="%char.
Proof.
  intros symbol_. split.
  { eexists. split; [done|].
    by rewrite replace_char_subst, !replace_char_remove, list_filter_filter. }
  intros x. unfold _get_symbol_filename.
  rewrite !chars_app.
  intros [Hx|[Hx|Hx]%elem_of_app]%elem_of_app.
  - revert Hx. change (String.list_ascii_of_string "signals_") with
      ["s"; "i"; "g"; "n"; "a"; "l"; "s"; "_"]%char.
    rewrite !elem_of_cons, elem_of_nil. intros H.
    repeat (destruct H as [->|H]; [repeat split; discriminate|]). done.
  - apply replace_char_chars in Hx as [Hx|[Hx Hslash]].
    { apply list_elem_of_singleton in Hx as ->. repeat split; discriminate. }
    apply replace_char_chars in Hx as [Hx|[Hx Heq]]; [by apply elem_of_nil in Hx|].
    apply replace_char_chars in Hx as [Hx|[Hx Hcaret]]; [by apply elem_of_nil in Hx|].
    done.
  - revert Hx. change (String.list_ascii_of_string ".json") with
      ["."; "j"; "s"; "o"; "n"]%char.
    rewrite !elem_of_cons, elem_of_nil. intros H.
    repeat (destruct H as [->|H]; [repeat split; discriminate|]). done.
Qed.

(** ** The coarse axis *)

Lemma axis_elem_daily r ds b :
  well_formed ds ->
  b ∈ r_date <$> dropna (resample_agg r (daily_records ds)) ->
  exists d, d ∈ dates ds /\ rule_label r d = b.
Proof.
  intros Hwf Hb. destruct (well_formed_frame ds Hwf) as [_ Hdates].
  apply resampled_dates_elem in Hb.
  destruct (bin_rows r (daily_records ds) b) as [|x g] eqn:Hg; [done|].
  assert (x ∈ bin_rows r (daily_records ds) b) as Hin by (rewrite Hg; left).
  apply list_elem_of_filter in Hin as [Hx Hin].
  exists (r_date x). split; [|done]. rewrite <- Hdates. by apply list_elem_of_fmap_2.
Qed.

(** X8.  On a well-formed dataset aggregated weekly or monthly, every date
    of the coarse axis is the end of its period (a Friday, respectively
    the last day of a month), whether or not that day is a daily date, and
    it is the boundary of at least one daily date, which lies in the
    interval of the bucket; the coarse axis is never longer than the daily
    axis. *)
Theorem coarse_axis_period_ends :
  forall (ds : dataset) (tf : string) (r : rule),
    well_formed ds -> resample_rule tf = Some r ->
    exists ds',
      resample_data_to_timeframe ds tf = Ok ds' /\
      (length (dates ds') <= length (dates ds))%nat /\
      forall b, b ∈ dates ds' ->
        rule_label r b = b /\
        match r with
        | W_FRI => weekday b = 4
        | M => month_end b = b /\ (civil_from_days (b + 1)).2 = 1
        end /\
        exists d, d ∈ dates ds /\ rule_label r d = b /\
                  interval_start r b <= d <= b.
Proof.
  intros ds tf r Hwf Hrule. eexists.
  split; [by apply resample_weekly_monthly|]. cbn [dates]. split.
  - rewrite <- (length_fmap (rule_label r) (dates ds)).
    apply submseteq_length, NoDup_submseteq.
    + pose proof (resampled_dates_sorted r (daily_records ds)) as Hs.
      apply NoDup_alt. intros i j x Hi Hj. by eapply StronglySorted_lt_inj.
    + intros b Hb. destruct (axis_elem_daily r ds b Hwf Hb) as (d & Hd & <-).
      by apply list_elem_of_fmap_2.
  - intros b Hb. destruct (axis_elem_daily r ds b Hwf Hb) as (d & Hd & <-).
    assert (Hfix : rule_label r (rule_label r d) = rule_label r d)
      by apply period_idem.
    split; [done|]. split.
    + destruct r; cbn [rule_label] in *; [apply week_end_friday|]. split; [done|].
      pose proof (month_step (month_end d)) as (_ & _ & Hnext).
      specialize (Hnext (eq_sym Hfix)).
      unfold month_start in Hnext.
      destruct (civil_from_days (month_end d + 1)) as [[y m] dd].
      simpl in *. lia.
    + exists d. split; [done|]. split; [done|].
      by apply interval_is_bucket.
Qed.

(** The example week, monthly: its bar is dated on a month end (it is
    2024-01-31, not a daily date of the week). *)
Lemma coarse_axis_period_ends_week1 :
  well_formed week1_data /\
  exists ds', resample_data_to_timeframe week1_data "monthly" = Ok ds' /\
    forall b, b ∈ dates ds' -> month_end b = b.
Proof.
  assert (Hwf : well_formed week1_data) by by_evaluation.
  split; [exact Hwf|].
  destruct (coarse_axis_period_ends week1_data "monthly" M Hwf eq_refl)
    as (ds' & Hds' & _ & Hends).
  exists ds'. split; [exact Hds'|]. intros b Hb. apply (Hends b Hb).
Defined.

(** ** Volume is conserved *)

Lemma Zsum_cons x l : Zsum (x :: l) = x + Zsum l.
Proof. reflexivity. Qed.

Lemma Zsum_zero {A} (l : list A) : Zsum ((fun _ => 0) <$> l) = 0.
Proof. induction l as [|a l IH]; [done|]. by rewrite fmap_cons, Zsum_cons, IH. Qed.

Lemma Zsum_plus {A} (f g : A -> Z) l :
  Zsum ((fun b => f b + g b) <$> l) = Zsum (f <$> l) + Zsum (g <$> l).
Proof.
  induction l as [|a l IH]; [done|].
  rewrite !fmap_cons, !Zsum_cons, IH. lia.
Qed.

Lemma Zsum_indicator (l : list Z) a v :
  NoDup l -> a ∈ l ->
  Zsum ((fun b => if decide (a = b) then v else 0) <$> l) = v.
Proof.
  induction 1 as [|b l Hb Hnd IH]; intros Hin; [by apply elem_of_nil in Hin|].
  rewrite fmap_cons, Zsum_cons. destruct (decide (a = b)) as [->|Hne].
  - rewrite (list_fmap_ext _ (fun _ => 0) l); [by rewrite Zsum_zero; lia|].
    intros k c Hc. rewrite decide_False; [done|]. intros ->.
    apply Hb. by eapply list_elem_of_lookup_2.
  - apply elem_of_cons in Hin as [?|Hin]; [done|]. by rewrite IH.
Qed.

(** The sums over the bins add up to the sum over the frame. *)
Lemma Zsum_bins r (f : row -> Z) df bins :
  NoDup bins ->
  (forall x, x ∈ df -> rule_label r (r_date x) ∈ bins) ->
  Zsum ((fun b => Zsum (f <$> bin_rows r df b)) <$> bins) = Zsum (f <$> df).
Proof.
  intros Hnd. induction df as [|x df IH]; intros Hcover.
  - apply (Zsum_zero bins).
  - rewrite fmap_cons, Zsum_cons.
    rewrite <- IH by (intros y Hy; apply Hcover; by right).
    rewrite <- (Zsum_indicator bins (rule_label r (r_date x)) (f x) Hnd)
      by (apply Hcover; left).
    rewrite <- Zsum_plus. f_equal. apply list_fmap_ext. intros k b _.
    unfold bin_rows. rewrite filter_cons.
    by destruct (decide (rule_label r (r_date x) = b)).
Qed.

(** The volumes of the bars of an [int64] column, as integers: each is
    the wrapped sum of its bin. *)
Lemma Zsum_resampled r df bins :
  (Zsum (Qnum <$> (r_volume <$>
           omap (fun b => dropna_row (agg_ohlc Int64 b (bin_rows r df b))) bins)) -
   Zsum ((fun b => Zsum (Qnum <$> (r_volume <$> bin_rows r df b))) <$> bins))
    mod 2 ^ 64 = 0 /\
  ((forall b, b ∈ bins ->
      - 2 ^ 63 <= Zsum (Qnum <$> (r_volume <$> bin_rows r df b)) < 2 ^ 63) ->
   Zsum (Qnum <$> (r_volume <$>
           omap (fun b => dropna_row (agg_ohlc Int64 b (bin_rows r df b))) bins)) =
   Zsum ((fun b => Zsum (Qnum <$> (r_volume <$> bin_rows r df b))) <$> bins)) /\
  Forall (fun q => is_int64 q = true)
    (r_volume <$>
       omap (fun b => dropna_row (agg_ohlc Int64 b (bin_rows r df b))) bins).
Proof.
  induction bins as [|b bins (IHmod & IHeq & IHint)].
  - split; [done|]. split; [done|]. constructor.
  - cbn [fmap list_fmap Zsum foldr]. csimpl.
    fold (Zsum ((fun b => Zsum (Qnum <$> (r_volume <$> bin_rows r df b))) <$> bins)).
    destruct (dropna_row (agg_ohlc Int64 b (bin_rows r df b))) as [x|] eqn:HF.
    + apply dropna_row_agg_Some in HF as (_ & _ & _ & _ & _ & _ & Hv).
      rewrite agg_sum_int64 in Hv.
      cbn [fmap list_fmap Zsum foldr]. rewrite Hv. cbn [Qnum inject_Z].
      set (z := Zsum (Qnum <$> (r_volume <$> bin_rows r df b))) in *.
      match goal with |- context [foldr Z.add 0 ?l] => fold (Zsum l) end.
      pose proof (wrap64_mod z) as Hw. pose proof (wrap64_range z) as Hr.
      split; [|split].
      * revert IHmod Hw. generalize (wrap64 z). intros w.
        Z.div_mod_to_equations. lia.
      * intros Hb. rewrite IHeq by (intros b' Hb'; apply Hb; by right).
        rewrite wrap64_id; [done|]. apply Hb. left.
      * constructor; [|done]. apply is_int64_spec. split; [done|].
        cbn [Qnum inject_Z]. lia.
    + destruct (bin_rows r df b) as [|y g] eqn:Hg.
      * cbn [fmap list_fmap Zsum foldr]. split; [|split; [|done]].
        -- revert IHmod. Z.div_mod_to_equations. lia.
        -- intros Hb. rewrite IHeq by (intros b' Hb'; apply Hb; by right). lia.
      * destruct (dropna_row_agg_nonempty Int64 b (y :: g)) as [z Hz]; [done|].
        congruence.
Qed.

Lemma Zsum_filter_le (P : row -> Prop) `{!forall x, Decision (P x)}
    (f : row -> Z) (l : list row) :
  (forall x, x ∈ l -> 0 <= f x) ->
  0 <= Zsum (f <$> filter P l) <= Zsum (f <$> l).
Proof.
  induction l as [|x l IH]; intros Hpos; [done|].
  assert (0 <= Zsum (f <$> filter P l) <= Zsum (f <$> l)) as Hl
    by (apply IH; intros y Hy; apply Hpos; by right).
  pose proof (Hpos x ltac:(left)) as Hx.
  rewrite filter_cons. destruct (decide (P x));
    cbn [fmap list_fmap Zsum foldr]; fold (Zsum (f <$> filter P l));
    fold (Zsum (f <$> l)); lia.
Qed.

(** X9.  Weekly and monthly aggregation conserve integer volume: on a
    well-formed dataset whose volumes are 64-bit integers the volumes of
    the bars are 64-bit integers again, and they add up to the sum of the
    daily volumes modulo 2^64 (every daily record is counted in exactly
    one bar, and a bar wraps around beyond 2^63 - 1).  When no volume is
    negative and the daily volumes add up to less than 2^63, the sums are
    equal. *)
Theorem volume_is_conserved :
  forall (ds : dataset) (tf : string) (r : rule) (s : ohlcv),
    well_formed ds -> resample_rule tf = Some r -> data ds = Some s ->
    column_dtype (volume s) = Int64 ->
    exists ds' s',
      resample_data_to_timeframe ds tf = Ok ds' /\ data ds' = Some s' /\
      column_dtype (volume s') = Int64 /\
      (Zsum (Qnum <$> volume s') - Zsum (Qnum <$> volume s)) mod 2 ^ 64 = 0 /\
      (Forall (fun v => 0 <= Qnum v) (volume s) ->
       Zsum (Qnum <$> volume s) < 2 ^ 63 ->
       (Qsum (volume s') == Qsum (volume s))%Q).
Proof.
  intros ds tf r s Hwf Hrule Hs Ht. do 2 eexists.
  split; [by apply resample_weekly_monthly|]. split; [reflexivity|].
  cbn [volume].
  assert (Hcol : r_volume <$> daily_records ds = volume s).
  { destruct Hwf as (_ & Hlen & _). rewrite Hs in Hlen.
    by apply daily_records_volume. }
  rewrite dropna_resample, Hcol, Ht.
  destruct (Zsum_resampled r (daily_records ds)
              (resample_bins r (daily_records ds))) as (Hmod & Heq & Hint).
  assert (Hbins : Zsum ((fun b => Zsum (Qnum <$> (r_volume <$>
                             bin_rows r (daily_records ds) b))) <$>
                          resample_bins r (daily_records ds)) =
                  Zsum (Qnum <$> volume s)).
  { rewrite <- Hcol, <- list_fmap_compose.
    rewrite <- (Zsum_bins r (Qnum ∘ r_volume) (daily_records ds)
                  (resample_bins r (daily_records ds))).
    - f_equal. apply list_fmap_ext. intros k b _.
      by rewrite <- list_fmap_compose.
    - pose proof (resample_bins_sorted r (daily_records ds)) as Hsorted.
      apply NoDup_alt. intros i j x Hi Hj. by eapply StronglySorted_lt_inj.
    - intros x Hx. by apply resample_bins_elem. }
  rewrite Hbins in Hmod, Heq.
  split; [by apply column_dtype_Int64|]. split; [exact Hmod|].
  intros Hpos Hbound.
  rewrite (Qsum_integers _ (Forall_int64_integer _ Hint)).
  rewrite (Qsum_integers (volume s)).
  - rewrite Heq; [reflexivity|]. intros b _.
    rewrite <- list_fmap_compose.
    pose proof (Zsum_filter_le (fun x => rule_label r (r_date x) = b)
                  (Qnum ∘ r_volume) (daily_records ds)) as Hle.
    rewrite (list_fmap_compose r_volume Qnum (daily_records ds)), Hcol in Hle.
    unfold bin_rows. destruct Hle as [? ?]; [|lia].
    intros x Hx. rewrite Forall_forall in Hpos. apply Hpos.
    rewrite <- Hcol. by apply list_elem_of_fmap_2.
  - apply Forall_int64_integer. by apply column_dtype_Int64.
Qed.

(** The example week: the volume of its only bar is the sum of its five
    daily volumes. *)
Lemma volume_is_conserved_week1 :
  well_formed week1_data /\
  exists ds' s',
    resample_data_to_timeframe week1_data "weekly" = Ok ds' /\
    data ds' = Some s' /\
    volume s' = [inject_Z 1500] /\
    (Qsum (volume s') == Qsum (volume (default empty_ohlcv (data week1_data))))%Q.
Proof.
  assert (Hwf : well_formed week1_data) by by_evaluation.
  split; [exact Hwf|].
  destruct (volume_is_conserved week1_data "weekly" W_FRI _ Hwf eq_refl eq_refl)
    as (ds' & s' & Hds' & Hs' & _ & _ & Hexact); [reflexivity|].
  exists ds', s'. split; [exact Hds'|]. split; [exact Hs'|]. split.
  - vm_compute in Hds'. injection Hds' as <-. by injection Hs' as <-.
  - apply Hexact; [by_evaluation|reflexivity].
Defined.

(** ** The chart never cuts what the aggregation returns *)

Lemma chart_inputs_full ds s :
  data ds = Some s -> same_length (length (dates ds)) s = true ->
  dates ds <> [] ->
  chart_inputs ds =
  Some {| c_dates := dates ds; c_open := open s; c_high := high s;
          c_low := low s; c_close := close s |}.
Proof.
  intros Hs Hlen Hne. unfold chart_inputs. rewrite Hs.
  apply same_length_spec in Hlen as (Ho & Hh & Hl & Hc & _).
  rewrite Ho, Hh, Hl, Hc, !Nat.min_id.
  destruct (Nat.eqb_spec (length (dates ds)) 0) as [Hz|_].
  - by apply nil_length_inv in Hz.
  - do 2 f_equal; apply take_ge; lia.
Qed.

(** X10.  On a well-formed dataset with at least one daily record, for
    every granularity token, the arrays the chart draws are exactly the
    date axis and the open, high, low and close arrays the aggregation
    returned: the cut to the shortest array removes nothing, and the
    chart is never skipped for lack of data. *)
Theorem chart_draws_all_bars :
  forall (ds : dataset) (tf : string),
    well_formed ds -> dates ds <> [] ->
    exists ds' s',
      resample_data_to_timeframe ds tf = Ok ds' /\ data ds' = Some s' /\
      dates ds' <> [] /\
      chart_inputs ds' =
      Some {| c_dates := dates ds'; c_open := open s'; c_high := high s';
              c_low := low s'; c_close := close s' |}.
Proof.
  intros ds tf Hwf Hne.
  destruct (resample_rule tf) as [r|] eqn:Hrule.
  - do 2 eexists. split; [by apply resample_weekly_monthly|].
    split; [reflexivity|].
    assert (Haxis : r_date <$> dropna (resample_agg r (daily_records ds)) <> []).
    { destruct (dates ds) as [|d l] eqn:Hd; [done|].
      assert (d ∈ dates ds) as Hin by (rewrite Hd; left).
      pose proof (axis_covers r ds d Hwf Hin) as Hcov.
      intros Hnil. rewrite Hnil in Hcov. by apply elem_of_nil in Hcov. }
    split; [exact Haxis|].
    apply chart_inputs_full; [reflexivity| |exact Haxis].
    apply same_length_spec. cbn [dates open high low close volume].
    by rewrite !length_fmap.
  - destruct Hwf as (Hsorted & Hdata & Hsig & Hind).
    destruct (data ds) as [s|] eqn:Hs; [|done].
    exists ds, s. split; [|split; [done|split; [done|by apply chart_inputs_full]]].
    unfold resample_data_to_timeframe, DataFrame.
    destruct (String.eqb tf "daily"); [done|].
    rewrite Hs. simpl. by rewrite Hdata, Hrule.
Qed.

Lemma chart_draws_all_bars_week1 :
  well_formed week1_data /\
  exists ds' s',
    resample_data_to_timeframe week1_data "monthly" = Ok ds' /\
    data ds' = Some s' /\
    chart_inputs ds' =
    Some {| c_dates := dates ds'; c_open := open s'; c_high := high s';
            c_low := low s'; c_close := close s' |}.
Proof.
  assert (Hwf : well_formed week1_data) by by_evaluation.
  split; [exact Hwf|].
  destruct (chart_draws_all_bars week1_data "monthly" Hwf)
    as (ds' & s' & Hds' & Hs' & _ & Hchart); [discriminate|].
  by exists ds', s'.
Defined.

(** ** Aggregating twice *)

Lemma Qplus_0_l_eq (v : Q) : (0 + v)%Q = v.
Proof. destruct v as [n d]. unfold Qplus. simpl. f_equal. lia. Qed.

Lemma zip_rows_fmap (l : list row) :
  zip_rows (r_date <$> l) (r_open <$> l) (r_high <$> l) (r_low <$> l)
    (r_close <$> l) (r_volume <$> l) = l.
Proof.
  induction l as [|x l IH]; [done|].
  rewrite !fmap_cons. cbn [zip_rows]. rewrite IH. by destruct x.
Qed.

Lemma bin_rows_none r (df : list row) b :
  (forall y, y ∈ df -> rule_label r (r_date y) <> b) -> bin_rows r df b = [].
Proof.
  intros Hnone. unfold bin_rows. induction df as [|y df IH]; [done|].
  rewrite filter_cons_False by (apply Hnone; left).
  apply IH. intros z Hz. apply Hnone. by right.
Qed.

(** In a frame whose dates are distinct period ends, the bin of a row holds
    that row only. *)
Lemma bin_rows_self r (df : list row) x :
  StronglySorted Z.lt (r_date <$> df) ->
  (forall y, y ∈ df -> rule_label r (r_date y) = r_date y) ->
  x ∈ df -> bin_rows r df (r_date x) = [x].
Proof.
  intros Hs Hfix Hx.
  induction df as [|y df IH]; [by apply elem_of_nil in Hx|].
  rewrite fmap_cons in Hs. apply StronglySorted_inv in Hs as [Hs Hall].
  rewrite Forall_forall in Hall.
  assert (Hothers : forall z, z ∈ df -> r_date y < r_date z)
    by (intros z Hz; apply Hall; by apply list_elem_of_fmap_2).
  assert (Hfix' : forall z, z ∈ df -> rule_label r (r_date z) = r_date z)
    by (intros z Hz; apply Hfix; by right).
  unfold bin_rows. rewrite filter_cons.
  apply elem_of_cons in Hx as [->|Hx].
  - rewrite decide_True by (apply Hfix; left). f_equal.
    apply bin_rows_none. intros z Hz. rewrite (Hfix' z Hz).
    specialize (Hothers z Hz). lia.
  - rewrite decide_False.
    + by apply IH.
    + rewrite (Hfix y) by left. specialize (Hothers x Hx). lia.
Qed.

Lemma dropna_row_agg_single t x :
  (t = Int64 -> is_int64 (r_volume x) = true) ->
  dropna_row (agg_ohlc t (r_date x) [x]) = Some x.
Proof.
  intros Ht. unfold dropna_row, agg_ohlc. simpl.
  assert (agg_sum t [r_volume x] = r_volume x) as ->; [|by destruct x].
  destruct t; [|apply Qplus_0_l_eq..].
  apply is_int64_spec in Ht as [Hi Hr]; [|done].
  rewrite agg_sum_int64. cbn [fmap list_fmap Zsum foldr].
  rewrite Z.add_0_r, (wrap64_id _ Hr). symmetry. by apply is_integer_spec.
Qed.

Lemma column_elem_int64 (df : list row) x :
  x ∈ df -> column_dtype (r_volume <$> df) = Int64 ->
  is_int64 (r_volume x) = true.
Proof.
  intros Hx Ht%column_dtype_Int64. rewrite Forall_forall in Ht.
  by apply Ht, list_elem_of_fmap_2.
Qed.

(** Resampling a frame of distinct period ends gives the frame back. *)
Lemma resample_period_ends r (df : list row) :
  StronglySorted Z.lt (r_date <$> df) ->
  (forall y, y ∈ df -> rule_label r (r_date y) = r_date y) ->
  dropna (resample_agg r df) = df.
Proof.
  intros Hs Hfix.
  assert (Hsorted : forall l : list row, StronglySorted Z.lt (r_date <$> l) ->
            StronglySorted (fun x y => r_date x < r_date y) l).
  { induction l as [|x l IH]; [constructor|]. rewrite fmap_cons.
    intros [Hl Hall]%StronglySorted_inv. constructor; [by apply IH|].
    rewrite Forall_forall in Hall. apply Forall_forall. intros y Hy.
    apply Hall. by apply list_elem_of_fmap_2. }
  assert (Hnodup : forall l : list row, StronglySorted Z.lt (r_date <$> l) -> NoDup l).
  { intros l Hl. apply (NoDup_fmap_1 r_date), NoDup_alt.
    intros i j x Hi Hj. by eapply StronglySorted_lt_inj. }
  assert (AntiSymm (=) (fun x y : row => r_date x < r_date y))
    by (intros x y ??; lia).
  pose proof (resampled_dates_sorted r df) as Hs'.
  apply (StronglySorted_unique (fun x y => r_date x < r_date y));
    [by apply Hsorted|by apply Hsorted|].
  apply NoDup_Permutation; [by apply Hnodup|by apply Hnodup|].
  intros x. rewrite resampled_elem. split.
  - intros [_ HF].
    destruct (bin_rows r df (r_date x)) as [|y g] eqn:Hg;
      [by apply dropna_row_agg_group in HF|].
    assert (y ∈ bin_rows r df (r_date x)) as Hy by (rewrite Hg; left).
    apply list_elem_of_filter in Hy as [Hy1 Hy2].
    rewrite (Hfix y Hy2) in Hy1.
    rewrite <- Hy1, (bin_rows_self r df y Hs Hfix Hy2) in Hg.
    injection Hg as <-.
    rewrite <- Hy1, dropna_row_agg_single in HF
      by (by apply column_elem_int64).
    by injection HF as <-.
  - intros Hx. split.
    + rewrite <- (Hfix x Hx). by apply resample_bins_elem.
    + rewrite (bin_rows_self r df x Hs Hfix Hx).
      apply dropna_row_agg_single. by apply column_elem_int64.
Qed.

(** On an axis of distinct period ends every date is sent to its own
    slot. *)
Lemma resampled_idx_self tf r (axis : list date) j k b :
  resample_rule tf = Some r -> StronglySorted Z.lt axis ->
  (forall b, b ∈ axis -> rule_label r b = b) ->
  axis !! j = Some b ->
  resampled_idx tf axis b = Some k <-> j = k.
Proof.
  intros Hrule Hs Hfix Hj. unfold resampled_idx.
  rewrite (period_end_rule _ _ _ Hrule). simpl.
  rewrite (Hfix b) by (by eapply list_elem_of_lookup_2).
  rewrite (locate_exact _ _ _ Hs Hj). split; congruence.
Qed.

Lemma map_signal_self tf r (axis : list date) (values : list Z) :
  resample_rule tf = Some r -> StronglySorted Z.lt axis ->
  (forall b, b ∈ axis -> rule_label r b = b) ->
  length values = length axis ->
  map_signal tf axis axis values = values.
Proof.
  intros Hrule Hs Hfix Hlen. apply list_eq. intros k.
  destruct (values !! k) as [v|] eqn:Hv.
  - assert (Hk : (k < length axis)%nat)
      by (rewrite <- Hlen; by eapply lookup_lt_Some).
    destruct (lookup_lt_is_Some_2 axis k Hk) as [b Hb].
    destruct (map_signal_slot tf axis axis values k Hk) as [Hlast Hnone].
    destruct (decide (v = 0)) as [->|Hnz].
    + apply Hnone. intros i d v Hd Hv' Hidx.
      apply (resampled_idx_self tf r axis i k d Hrule Hs Hfix Hd) in Hidx.
      congruence.
    + apply (Hlast k b v Hb Hv Hnz).
      * by apply (resampled_idx_self tf r axis k k b).
      * intros j d' v' Hj Hd' Hv' Hidx.
        apply (resampled_idx_self tf r axis j k d' Hrule Hs Hfix Hd') in Hidx. lia.
  - apply lookup_ge_None. rewrite map_signal_length, <- Hlen.
    by apply lookup_ge_None.
Qed.

Lemma resample_indicator_self tf r (axis : list date) name (values : list Q) :
  resample_rule tf = Some r -> StronglySorted Z.lt axis ->
  (forall b, b ∈ axis -> rule_label r b = b) ->
  (name = FCV -> length values = length axis) ->
  resample_indicator tf axis axis name values = values.
Proof.
  intros Hrule Hs Hfix Hlen. unfold resample_indicator.
  destruct (String.eqb_spec name FCV) as [->|Hne]; [|done]. simpl.
  destruct (Nat.ltb_spec 0 (length values)) as [Hpos|Hzero]; [|done].
  specialize (Hlen eq_refl). apply list_eq. intros k.
  unfold resample_fcv. rewrite list_lookup_fmap.
  destruct (axis !! k) as [b|] eqn:Hb; simpl.
  - destruct (lookup_lt_is_Some_2 values k) as [v Hv];
      [rewrite Hlen; by eapply lookup_lt_Some|].
    rewrite Hv. f_equal. unfold period_fcv_values.
    rewrite (week_start_rule _ _ _ Hrule).
    match goal with
    | |- context [omap id (imap ?f axis)] =>
        change (omap id (imap f axis)) with (picks f axis)
    end.
    assert (Hbfix : rule_label r b = b)
      by (apply Hfix; by eapply list_elem_of_lookup_2).
    erewrite last_picks; [done|exact Hb| |].
    + simpl. rewrite Hv.
      pose proof (proj2 (interval_is_bucket r b b Hbfix) Hbfix).
      by destruct (Z.leb_spec (interval_start r b) b), (Z.leb_spec b b); try lia.
    + intros j d' Hj Hd'. simpl.
      destruct (Z.leb_spec (interval_start r b) d'), (Z.leb_spec d' b); try done.
      assert (rule_label r d' = b) as Hd'b by (apply interval_is_bucket; [done|lia]).
      rewrite (Hfix d') in Hd'b by (by eapply list_elem_of_lookup_2).
      pose proof (StronglySorted_lt_lookup _ _ _ _ _ Hs Hb Hd' Hj). lia.
  - symmetry. apply lookup_ge_None. rewrite Hlen. by apply lookup_ge_None.
Qed.

(** X7.  Aggregation is idempotent: on a well-formed dataset, aggregating
    the result once more with the same granularity returns the result
    unchanged (dates, bars, signal series, indicator series, overlays). *)
Theorem aggregation_is_idempotent :
  forall (ds ds' : dataset) (tf : string),
    well_formed ds ->
    resample_data_to_timeframe ds tf = Ok ds' ->
    resample_data_to_timeframe ds' tf = Ok ds'.
Proof.
  intros ds ds' tf Hwf H1.
  destruct (resample_rule tf) as [r|] eqn:Hrule.
  - rewrite (resample_weekly_monthly ds tf r Hwf Hrule) in H1.
    cbv zeta in H1. injection H1 as <-.
    set (R := dropna (resample_agg r (daily_records ds))).
    assert (Hs : StronglySorted Z.lt (r_date <$> R)) by apply resampled_dates_sorted.
    assert (Hfix : forall b, b ∈ r_date <$> R -> rule_label r b = b).
    { intros b Hb. destruct (axis_elem_daily r ds b Hwf Hb) as (d & _ & <-).
      apply period_idem. }
    assert (HfixR : forall y, y ∈ R -> rule_label r (r_date y) = r_date y)
      by (intros y Hy; apply Hfix; by apply list_elem_of_fmap_2).
    rewrite (resample_frame _ tf r);
      [|apply same_length_spec; simpl; by rewrite !length_fmap|done].
    unfold daily_records. simpl.
    rewrite zip_rows_fmap, (resample_period_ends r R Hs HfixR).
    f_equal. f_equal.
    + apply map_eq. intros name.
      rewrite !map_signals_lookup by (by eapply resample_rule_not_daily).
      destruct (signals ds !! name) as [values|]; [|done]. simpl. f_equal.
      apply (map_signal_self tf r); [done..|]. apply map_signal_length.
    + apply map_eq. intros name. rewrite !map_lookup_imap.
      destruct (indicators ds !! name) as [values|] eqn:Hvalues; [|done].
      simpl. f_equal.
      apply (resample_indicator_self tf r); [done..|].
      intros ->. by apply resample_indicator_fcv_length.
  - assert (ds' = ds) as ->; [|done].
    unfold resample_data_to_timeframe in H1.
    destruct (String.eqb tf "daily"); [congruence|].
    destruct (DataFrame (dates ds) (default empty_ohlcv (data ds))); [|done].
    rewrite Hrule in H1. congruence.
Qed.

(** The example week aggregated weekly twice. *)
Lemma aggregation_is_idempotent_week1 :
  well_formed week1_data /\
  exists ds',
    resample_data_to_timeframe week1_data "weekly" = Ok ds' /\
    resample_data_to_timeframe ds' "weekly" = Ok ds'.
Proof.
  assert (Hwf : well_formed week1_data) by by_evaluation.
  split; [exact Hwf|]. eexists. split; [reflexivity|].
  apply (aggregation_is_idempotent week1_data _ "weekly" Hwf). reflexivity.
Defined.

(** ** Listing the symbols *)

Lemma ends_with_app suffix x : ends_with suffix (x +:+ suffix) = true.
Proof.
  induction x as [|c x IH]; simpl.
  - destruct suffix; simpl; by rewrite ?String.eqb_refl, ?Ascii.eqb_refl.
  - rewrite IH. apply orb_true_r.
Qed.

Lemma prefix_chars a : forall b c,
  String.prefix a b = true ->
  c ∈ String.list_ascii_of_string a -> c ∈ String.list_ascii_of_string b.
Proof.
  induction a as [|x a IH]; intros b c; simpl; [by intros _ ?%elem_of_nil|].
  destruct b as [|y b]; simpl; [done|].
  destruct (ascii_dec x y) as [->|]; [|done].
  intros Hp [->|Hc]%elem_of_cons; simpl; [left|right; by eapply IH].
Qed.

(** Text without a character of [old] has no occurrence of [old]. *)
Lemma remove_all_absent old c s :
  c ∈ String.list_ascii_of_string old ->
  c ∉ String.list_ascii_of_string s ->
  remove_all_go old 0 s = s.
Proof.
  intros Hc. induction s as [|x s IH]; intros Hs; [done|].
  cbn [remove_all_go].
  destruct (String.prefix old (String x s)) eqn:Hp.
  - destruct Hs. by eapply prefix_chars.
  - f_equal. apply IH. intros Hin. apply Hs. simpl. by right.
Qed.

Lemma remove_all_go_skip old s : remove_all_go old (String.length s) s = "".
Proof. induction s as [|x s IH]; [done|]. simpl. apply IH. Qed.

Lemma prefix_app a b : String.prefix a (a +:+ b) = true.
Proof.
  induction a as [|x a IH]; simpl; [by destruct b|].
  destruct (ascii_dec x x); [done|congruence].
Qed.

Lemma prefix_refl a : String.prefix a a = true.
Proof.
  induction a as [|x a IH]; simpl; [done|].
  destruct (ascii_dec x x); [done|congruence].
Qed.

(** A text that ends with its only occurrence of [old]. *)
Lemma remove_all_suffix c old x :
  c ∉ String.list_ascii_of_string x ->
  remove_all_go (String c old) 0 (x +:+ String c old) = x.
Proof.
  induction x as [|y x IH]; intros Hx.
  - change ("" +:+ String c old) with (String c old).
    cbn [remove_all_go]. rewrite prefix_refl.
    change (String.length (String c old) - 1)%nat with (String.length old - 0)%nat.
    rewrite Nat.sub_0_r. apply remove_all_go_skip.
  - change (String y x +:+ String c old) with (String y (x +:+ String c old)).
    cbn [remove_all_go].
    destruct (String.prefix (String c old) (String y (x +:+ String c old))) eqn:Hp.
    + simpl in Hp. destruct (ascii_dec c y) as [->|]; [|done].
      destruct Hx. simpl. left.
    + f_equal. apply IH. intros Hin. apply Hx. simpl. by right.
Qed.

Lemma replace_char_absent c by_ s :
  c ∉ String.list_ascii_of_string s -> replace_char c by_ s = s.
Proof.
  induction s as [|x s IH]; intros Hs; [done|]. simpl.
  destruct (Ascii.eqb_spec x c) as [->|Hne].
  - destruct Hs. simpl. left.
  - f_equal. apply IH. intros Hin. apply Hs. simpl. by right.
Qed.

Lemma plain_symbol_absent x c :
  plain_symbol x -> c ∈ ["^"; "="; "/"; "_"; "."]%char ->
  c ∉ String.list_ascii_of_string x.
Proof.
  unfold plain_symbol. rewrite Forall_forall. intros Hx Hc Hin.
  by apply (Hx c Hin).
Qed.

Lemma remove_all_go_skip_app old a rest :
  remove_all_go old (String.length a) (a +:+ rest) = remove_all_go old 0 rest.
Proof. induction a as [|x a IH]; [done|]. exact IH. Qed.

(** A text that starts with an occurrence of [old]. *)
Lemma remove_all_prefix c old rest :
  remove_all_go (String c old) 0 (String c old +:+ rest) =
  remove_all_go (String c old) 0 rest.
Proof.
  change (String c old +:+ rest) with (String c (old +:+ rest)).
  cbn [remove_all_go].
  change (String c (old +:+ rest)) with (String c old +:+ rest).
  rewrite prefix_app.
  change (String.length (String c old) - 1)%nat with (String.length old - 0)%nat.
  rewrite Nat.sub_0_r. apply remove_all_go_skip_app.
Qed.

Lemma string_app_assoc (a b c : string) : a +:+ (b +:+ c) = (a +:+ b) +:+ c.
Proof.
  induction a as [|y a IH]; [done|].
  change (String y (a +:+ (b +:+ c)) = String y ((a +:+ b) +:+ c)).
  by rewrite IH.
Qed.

Lemma symbol_of_file_plain x :
  plain_symbol x ->
  is_symbol_file ("signals_" +:+ x +:+ ".json") = true /\
  symbol_of_file ("signals_" +:+ x +:+ ".json") = restore_symbol x.
Proof.
  intros Hx. split.
  - unfold is_symbol_file. rewrite prefix_app. simpl andb.
    rewrite string_app_assoc. apply ends_with_app.
  - unfold symbol_of_file, remove_all. f_equal.
    rewrite (remove_all_prefix "s" "ignals_" (x +:+ ".json")).
    rewrite (remove_all_absent "signals_" "_"%char).
    + apply remove_all_suffix. apply plain_symbol_absent; [done|]. set_solver.
    + set_solver.
    + rewrite chars_app. intros [Hin|Hin]%elem_of_app.
      * revert Hin. apply plain_symbol_absent; [done|]. set_solver.
      * revert Hin. by_evaluation.
Qed.

Lemma restore_filename x :
  plain_symbol x -> x <> "005930KS" ->
  _get_symbol_filename (restore_symbol x) = "signals_" +:+ x +:+ ".json".
Proof.
  intros Hx Hne. unfold restore_symbol.
  repeat match goal with
  | |- context [String.eqb x ?k] =>
      destruct (String.eqb_spec x k) as [->|_]; [first [reflexivity|done]|]
  end.
  unfold _get_symbol_filename.
  rewrite (replace_char_absent "^" "" x)
    by (apply plain_symbol_absent; [done|set_solver]).
  rewrite (replace_char_absent "=" "" x)
    by (apply plain_symbol_absent; [done|set_solver]).
  rewrite (replace_char_absent "/" "_" x)
    by (apply plain_symbol_absent; [done|set_solver]).
  done.
Qed.

(** X5.  Listing and loading agree on the file: when the data directory
    holds the file [signals_x.json] of a symbol text [x] without special
    characters, other than ["005930KS"], [get_available_symbols] lists a
    symbol for it and the file name [get_signals_data] derives from that
    symbol is [signals_x.json] again.  The exception is real: the symbol
    listed for [signals_005930KS.json] is ["005930.KS"], whose file name is
    [signals_005930.KS.json]. *)
Theorem listed_symbol_round_trip :
  (forall (self : client) (ls : string -> dir_state) (names : list string)
          (x : string),
     ls (data_dir self) = Listing names ->
     "signals_" +:+ x +:+ ".json" ∈ names ->
     plain_symbol x -> x <> "005930KS" ->
     symbol_of_file ("signals_" +:+ x +:+ ".json") ∈ get_available_symbols self ls /\
     _get_symbol_filename (symbol_of_file ("signals_" +:+ x +:+ ".json")) =
       "signals_" +:+ x +:+ ".json") /\
  (plain_symbol "005930KS" /\
   symbol_of_file "signals_005930KS.json" = "005930.KS" /\
   _get_symbol_filename "005930.KS" = "signals_005930.KS.json").
Proof.
  split.
  - intros self ls names x Hls Hin Hx Hne.
    destruct (symbol_of_file_plain x Hx) as [Hfile Hsym]. split.
    + unfold get_available_symbols. rewrite Hls.
      rewrite merge_sort_Permutation. apply list_elem_of_fmap_2.
      by apply list_elem_of_filter.
    + rewrite Hsym. by apply restore_filename.
  - split; [by_evaluation|]. split; reflexivity.
Qed.

Lemma listed_symbol_round_trip_kospi :
  "^KS11" ∈ get_available_symbols (new_client "data") data_listing /\
  _get_symbol_filename "^KS11" = "signals_KS11.json".
Proof.
  apply (proj1 listed_symbol_round_trip (new_client "data") data_listing
           ["signals_TLT.json"; "readme.txt"; "signals_KS11.json";
            "signals_AAPL.json"] "KS11").
  - reflexivity.
  - by_evaluation.
  - by_evaluation.
  - discriminate.
Defined.

(** X6.  [get_available_symbols] returns its symbols in ascending order;
    every symbol it returns is the symbol of a directory entry whose name
    starts with ["signals_"] and ends with [".json"], one symbol per such
    entry; it returns the empty list when the data directory is missing or
    cannot be listed. *)
Theorem listing_is_sorted :
  forall (self : client) (ls : string -> dir_state),
    Sorted String.le (get_available_symbols self ls) /\
    (forall names, ls (data_dir self) = Listing names ->
       get_available_symbols self ls ≡ₚ
       symbol_of_file <$> filter (fun f => is_symbol_file f = true) names) /\
    (forall sym, sym ∈ get_available_symbols self ls ->
       exists names f, ls (data_dir self) = Listing names /\ f ∈ names /\
         String.prefix "signals_" f = true /\ ends_with ".json" f = true /\
         sym = symbol_of_file f) /\
    (ls (data_dir self) = NoDir \/ ls (data_dir self) = DirError ->
     get_available_symbols self ls = []).
Proof.
  intros self ls. unfold get_available_symbols.
  destruct (ls (data_dir self)) as [| |names] eqn:Hls.
  - split; [constructor|]. split; [done|]. split; [|done].
    by intros ? ?%elem_of_nil.
  - split; [constructor|]. split; [done|]. split; [|done].
    by intros ? ?%elem_of_nil.
  - split; [apply (Sorted_merge_sort String.le)|].
    split; [|split].
    + intros names' [= <-]. apply merge_sort_Permutation.
    + intros sym. rewrite merge_sort_Permutation.
      intros (f & -> & [Hf Hin]%list_elem_of_filter)%list_elem_of_fmap.
      apply andb_true_iff in Hf as [Hp He]. by exists names, f.
    + by intros [?|?].
Qed.

(** ** The markers and zones of the chart *)

Lemma chart_inputs_lengths ds a :
  chart_inputs ds = Some a ->
  length (c_dates a) <> 0%nat /\
  length (c_open a) = length (c_dates a) /\
  length (c_high a) = length (c_dates a) /\
  length (c_low a) = length (c_dates a) /\
  length (c_close a) = length (c_dates a).
Proof.
  unfold chart_inputs. destruct (data ds) as [s|]; [|done].
  destruct (Nat.eqb_spec
              (Nat.min (length (dates ds))
                 (Nat.min (length (open s))
                    (Nat.min (length (high s))
                       (Nat.min (length (low s)) (length (close s))))))
              0) as [|Hne]; [done|].
  intros [= <-]. cbn [c_dates c_open c_high c_low c_close].
  rewrite !length_take. lia.
Qed.

Lemma enumerate_snoc {A : Type} (l : list A) (x : A) :
  enumerate (l ++ [x]) = enumerate l ++ [(length l, x)].
Proof.
  unfold enumerate. rewrite imap_app. cbn [imap]. by rewrite Nat.add_0_r.
Qed.

Lemma low_point_Some a f i :
  (i < length (c_dates a))%nat -> length (c_low a) = length (c_dates a) ->
  exists d l, c_dates a !! i = Some d /\ c_low a !! i = Some l /\
              low_point a f i = Some (d, (l * f)%Q).
Proof.
  intros Hi Hlen.
  destruct (lookup_lt_is_Some_2 (c_dates a) i Hi) as [d Hd].
  destruct (lookup_lt_is_Some_2 (c_low a) i ltac:(lia)) as [l Hl].
  exists d, l. unfold low_point. by rewrite Hd, Hl.
Qed.

Lemma low_point_inv a f i p :
  low_point a f i = Some p ->
  exists d l, c_dates a !! i = Some d /\ c_low a !! i = Some l /\
              p = (d, (l * f)%Q).
Proof.
  unfold low_point. destruct (c_dates a !! i) as [d|]; [|done].
  destruct (c_low a !! i) as [l|]; [|done]. intros [= <-]. by exists d, l.
Qed.


Lemma fires_snoc_old n c sv x i :
  fires n c sv i -> fires n c (sv ++ [x]) i.
Proof.
  intros (Hi & Hs & Hc). split; [done|]. split; [|done].
  by apply lookup_app_l_Some.
Qed.

Lemma fires_snoc_inv n c sv x i :
  fires n c (sv ++ [x]) i ->
  fires n c sv i \/
  (i = length sv /\ (i <? n)%nat && (x =? 1) && c i = true).
Proof.
  intros (Hi & Hs & Hc).
  apply lookup_app_Some in Hs as [Hs|[Hge Hs]].
  - left. by split.
  - right. apply list_lookup_singleton_Some in Hs as [Hz ->].
    assert (i = length sv) as -> by lia. split; [done|].
    rewrite Hc, Z.eqb_refl. by apply Nat.ltb_lt in Hi as ->.
Qed.

Lemma fires_snoc_new n c sv x :
  (length sv <? n)%nat && (x =? 1) && c (length sv) = true ->
  fires n c (sv ++ [x]) (length sv).
Proof.
  intros [[Hi Hx%Z.eqb_eq]%andb_true_iff Hc]%andb_true_iff.
  apply Nat.ltb_lt in Hi. split; [done|]. split; [|done].
  subst x. by rewrite lookup_app_r, Nat.sub_diag by lia.
Qed.

Lemma every_signal_spec a n c f sv :
  length (c_dates a) = n -> length (c_low a) = n ->
  exists pts, every_signal a n c f sv = Some pts /\
    forall p, p ∈ pts <-> exists i, fires n c sv i /\ low_point a f i = Some p.
Proof.
  intros Hd Hl. induction sv as [|x sv IH] using rev_ind.
  - exists []. split; [done|]. intros p. split.
    + by intros ?%elem_of_nil.
    + by intros (i & (_ & Hs & _) & _).
  - destruct IH as (pts & Hpts & Hspec).
    unfold every_signal in *. rewrite enumerate_snoc, foldl_app, Hpts.
    cbn [foldl mbind option_bind].
    destruct ((length sv <? n)%nat && (x =? 1) && c (length sv)) eqn:Hc.
    + assert (Hi : (length sv < length (c_dates a))%nat).
      { apply andb_true_iff in Hc as [[Hi _]%andb_true_iff _].
        apply Nat.ltb_lt in Hi. lia. }
      destruct (low_point_Some a f _ Hi ltac:(lia)) as (d & l & _ & _ & Hp).
      rewrite Hp. cbn [mbind option_bind]. eexists. split; [done|].
      intros p. rewrite elem_of_app, list_elem_of_singleton, Hspec. split.
      * intros [(i & Hf & Hlp)| ->].
        -- exists i. split; [by apply fires_snoc_old|done].
        -- exists (length sv). split; [by apply fires_snoc_new|done].
      * intros (i & [Hf|[-> _]]%fires_snoc_inv & Hlp).
        -- left. by exists i.
        -- right. congruence.
    + exists pts. split; [done|]. intros p. rewrite Hspec. split.
      * intros (i & Hf & Hlp). exists i. split; [by apply fires_snoc_old|done].
      * intros (i & [Hf|[-> Hc']]%fires_snoc_inv & Hlp); [by exists i|].
        congruence.
Qed.

(** ** Week keys *)

Lemma weekday_monday d : weekday (monday d) = 0.
Proof. unfold monday, weekday. Z.div_mod_to_equations. lia. Qed.

Lemma week_key_monday d1 d2 :
  week_key d1 = week_key d2 <-> monday d1 = monday d2.
Proof.
  unfold week_key. fold (monday d1) (monday d2). split; [|by intros ->].
  pose proof (weekday_monday d1) as H1. pose proof (weekday_monday d2) as H2.
  unfold strftime_Y_W, yday. intros [= Hy Hw]. rewrite Hy, H1, H2 in Hw.
  unfold weekday in H1, H2.
  generalize dependent (days_from_civil (year_of (monday d2)) 1 1).
  intros c Hw. Z.div_mod_to_equations. lia.
Qed.

Lemma first_of_week_spec a n c f sv :
  length (c_dates a) = n -> length (c_low a) = n ->
  exists weekly, first_of_week a n c f sv = Some weekly /\
    NoDup weekly.*1 /\
    (forall k p, (k, p) ∈ weekly ->
       exists i d, fires n c sv i /\ low_point a f i = Some p /\
         c_dates a !! i = Some d /\ k = week_key d /\
         forall j dj, (j < i)%nat -> fires n c sv j ->
           c_dates a !! j = Some dj -> week_key dj <> k) /\
    (forall i d, fires n c sv i -> c_dates a !! i = Some d ->
       week_key d ∈ weekly.*1).
Proof.
  intros Hd Hl. induction sv as [|x sv IH] using rev_ind.
  - exists []. split; [done|]. split; [constructor|]. split.
    + by intros k p ?%elem_of_nil.
    + by intros i d (_ & Hs & _).
  - destruct IH as (weekly & Hw & Hnd & Hin & Hcov).
    assert (Hold : forall k p, (k, p) ∈ weekly ->
       exists i d, fires n c (sv ++ [x]) i /\ low_point a f i = Some p /\
         c_dates a !! i = Some d /\ k = week_key d /\
         forall j dj, (j < i)%nat -> fires n c (sv ++ [x]) j ->
           c_dates a !! j = Some dj -> week_key dj <> k).
    { intros k p (i & d & Hf & Hp & Hdi & Hk & Hfirst)%Hin.
      exists i, d. split; [by apply fires_snoc_old|]. do 3 (split; [done|]).
      intros j dj Hj [Hfj|[-> _]]%fires_snoc_inv; [by apply Hfirst|].
      destruct Hf as (_ & Hs%lookup_lt_Some & _). lia. }
    unfold first_of_week in *. rewrite enumerate_snoc, foldl_app, Hw.
    cbn [foldl mbind option_bind].
    destruct ((length sv <? n)%nat && (x =? 1) && c (length sv)) eqn:Hc.
    + assert (Hi : (length sv < length (c_dates a))%nat).
      { apply andb_true_iff in Hc as [[Hi _]%andb_true_iff _].
        apply Nat.ltb_lt in Hi. lia. }
      destruct (low_point_Some a f _ Hi ltac:(lia)) as (d & l & Hdi & _ & Hp).
      rewrite Hdi. cbn [mbind option_bind].
      destruct (decide (week_key d ∈ weekly.*1)) as [Hk|Hk].
      * rewrite bool_decide_eq_true_2 by done.
        exists weekly. split; [done|]. split; [done|]. split; [done|].
        intros i di [Hf|[-> _]]%fires_snoc_inv Hdi'; [by eapply Hcov|].
        congruence.
      * rewrite bool_decide_eq_false_2 by done. rewrite Hp.
        cbn [mbind option_bind]. eexists. split; [done|].
        rewrite fmap_app. split; [|split].
        -- apply NoDup_app. split; [done|]. split; [|apply NoDup_singleton].
           intros k Hin1 ->%list_elem_of_singleton. done.
        -- intros k p [Hkp|[= -> ->]%list_elem_of_singleton]%elem_of_app;
             [by apply Hold|].
           exists (length sv), d. split; [by apply fires_snoc_new|].
           do 3 (split; [done|]).
           intros j dj Hj [Hfj|[-> _]]%fires_snoc_inv Hdj Heq; [|lia].
           apply Hk. rewrite <- Heq. by eapply Hcov.
        -- intros i di [Hf|[-> _]]%fires_snoc_inv Hdi'.
           ++ apply elem_of_app. left. by eapply Hcov.
           ++ apply elem_of_app. right. apply list_elem_of_singleton.
              cbn. congruence.
    + exists weekly. split; [done|]. split; [done|]. split; [done|].
      intros i di [Hf|[-> Hc']]%fires_snoc_inv Hdi'; [by eapply Hcov|].
      congruence.
Qed.

(** With dates in pairwise different weeks the dict of the weekly loop
    never meets a key twice. *)
Lemma first_of_week_distinct a n c f sv :
  length (c_dates a) = n -> length (c_low a) = n ->
  NoDup (week_key <$> c_dates a) ->
  exists weekly, first_of_week a n c f sv = Some weekly /\
    every_signal a n c f sv = Some weekly.*2 /\
    forall k, k ∈ weekly.*1 ->
      exists j dj, (j < length sv)%nat /\ c_dates a !! j = Some dj /\
                   k = week_key dj.
Proof.
  intros Hd Hl Hnd. induction sv as [|x sv IH] using rev_ind.
  - exists []. split; [done|]. split; [done|]. by intros k ?%elem_of_nil.
  - destruct IH as (weekly & Hw & He & Hkeys).
    unfold first_of_week, every_signal in *.
    rewrite enumerate_snoc, !foldl_app, Hw, He.
    cbn [foldl mbind option_bind]. rewrite length_app. cbn [length].
    destruct ((length sv <? n)%nat && (x =? 1) && c (length sv)) eqn:Hc.
    + assert (Hi : (length sv < length (c_dates a))%nat).
      { apply andb_true_iff in Hc as [[Hi _]%andb_true_iff _].
        apply Nat.ltb_lt in Hi. lia. }
      destruct (low_point_Some a f _ Hi ltac:(lia)) as (d & l & Hdi & _ & Hp).
      rewrite Hdi, Hp. cbn [mbind option_bind].
      rewrite bool_decide_eq_false_2.
      * eexists. split; [done|]. rewrite !fmap_app. split; [done|].
        intros k [Hk| ->%list_elem_of_singleton]%elem_of_app.
        -- destruct (Hkeys k Hk) as (j & dj & Hj & Hdj & ->).
           exists j, dj. split; [lia|done].
        -- exists (length sv), d. split; [lia|done].
      * intros (j & dj & Hj & Hdj & Heq)%Hkeys.
        assert (j = length sv); [|lia].
        eapply NoDup_lookup; [exact Hnd| |].
        -- rewrite list_lookup_fmap, Hdj. cbn. by rewrite <- Heq.
        -- by rewrite list_lookup_fmap, Hdi.
    + exists weekly. split; [done|]. split; [done|].
      intros k (j & dj & Hj & Hdj & ->)%Hkeys. exists j, dj. split; [lia|done].
Qed.

(** ** The paired signal of a rebound alert *)

Lemma elem_of_slice {A : Type} (x : A) start stop l :
  x ∈ slice start stop l <->
  exists j, (start <= j < stop)%nat /\ l !! j = Some x.
Proof.
  unfold slice. rewrite list_elem_of_lookup. split.
  - intros (k & [Hk Hlt]%lookup_take_Some). rewrite lookup_drop in Hk.
    exists (start + k)%nat. split; [lia|done].
  - intros (j & Hj & Hx). exists (j - start)%nat.
    apply lookup_take_Some. split; [|lia].
    rewrite lookup_drop. by replace (start + (j - start))%nat with j by lia.
Qed.

Lemma has_buy_signal_spec signals gs W i :
  has_buy_signal signals gs W i = true <->
  exists g gv j, g ∈ gs /\ signals !! g = Some gv /\
    (i < length gv)%nat /\ (i - W <= j < i)%nat /\ gv !! j = Some 1.
Proof.
  unfold has_buy_signal. rewrite existsb_exists. split.
  - intros (g & Hg%list_elem_of_In & Hb).
    destruct (signals !! g) as [gv|] eqn:Hgv; [|done].
    apply andb_true_iff in Hb as [Hlen%Nat.ltb_lt Hin%bool_decide_eq_true_1].
    apply elem_of_slice in Hin as (j & Hj & Hx). by exists g, gv, j.
  - intros (g & gv & j & Hg & Hgv & Hlen & Hj & Hx). exists g.
    split; [by apply list_elem_of_In|]. rewrite Hgv.
    apply andb_true_iff. split; [by apply Nat.ltb_lt|].
    apply bool_decide_eq_true_2, elem_of_slice. by exists j.
Qed.

(** ** Zones *)

Lemma zone_end_Some a i d :
  c_dates a !! i = Some d ->
  zone_end a i = Some (default d (c_dates a !! S i)).
Proof.
  intros Hd. unfold zone_end. rewrite Nat.add_1_r.
  destruct (Nat.ltb_spec (S i) (length (c_dates a))) as [Hlt|Hge].
  - destruct (lookup_lt_is_Some_2 _ _ Hlt) as [d1 Hd1]. by rewrite Hd1.
  - by rewrite (lookup_ge_None_2 _ (S i)), Hd by lia.
Qed.


Lemma zone_of_spec v col :
  zone_of v = Some col <->
  (col = Green /\ (1 # 2 <= v)%Q) \/ (col = Red /\ (v <= - (1 # 2))%Q).
Proof.
  unfold zone_of.
  destruct (Qle_bool (1 # 2) v) eqn:Hg.
  - apply Qle_bool_iff in Hg. split.
    + intros [= <-]. by left.
    + intros [[-> _]|[_ Hr]]; [done|].
      exfalso. pose proof (Qle_trans _ _ _ Hg Hr) as H. by vm_compute in H.
  - assert (~ (1 # 2 <= v)%Q) as Hng.
    { intros H%Qle_bool_iff. congruence. }
    destruct (Qle_bool v (- (1 # 2))) eqn:Hr.
    + apply Qle_bool_iff in Hr. split.
      * intros [= <-]. by right.
      * by intros [[_ ?]|[-> _]].
    + split; [done|]. intros [[_ ?]|[_ H%Qle_bool_iff]]; [done|congruence].
Qed.

Lemma fcv_zones_loop a fv m :
  (m <= length fv)%nat -> (m <= length (c_dates a))%nat ->
  exists zones,
    foldl (fun acc i =>
             zones ← acc;
             fcv_val ← fv !! i;
             if Qle_bool (1 # 2) fcv_val
             then x0 ← c_dates a !! i; x1 ← zone_end a i;
                  Some (zones ++ [{| z_color := Green; z_x0 := x0; z_x1 := x1 |}])
             else if Qle_bool fcv_val (- (1 # 2))
             then x0 ← c_dates a !! i; x1 ← zone_end a i;
                  Some (zones ++ [{| z_color := Red; z_x0 := x0; z_x1 := x1 |}])
             else Some zones)
          (Some []) (seq 0 m) = Some zones /\
    (length zones <= m)%nat /\
    forall z, z ∈ zones <->
      exists i v d col, (i < m)%nat /\ fv !! i = Some v /\
        c_dates a !! i = Some d /\ zone_of v = Some col /\
        z = {| z_color := col; z_x0 := d;
               z_x1 := default d (c_dates a !! S i) |}.
Proof.
  induction m as [|m IH]; intros Hfv Hda.
  - exists []. split; [done|]. split; [done|].
    intros z. split; [by intros ?%elem_of_nil|].
    intros (i & ? & ? & ? & ? & _). lia.
  - destruct IH as (zones & Hz & Hlen & Hspec); [lia..|].
    rewrite seq_S, foldl_app, Hz. cbn [foldl mbind option_bind Nat.add].
    destruct (lookup_lt_is_Some_2 fv m ltac:(lia)) as [v Hv].
    destruct (lookup_lt_is_Some_2 (c_dates a) m ltac:(lia)) as [d Hd].
    rewrite Hv, Hd, (zone_end_Some a m d Hd). cbn [mbind option_bind].
    assert (Hold : forall z,
      (exists i v d col, (i < m)%nat /\ fv !! i = Some v /\
        c_dates a !! i = Some d /\ zone_of v = Some col /\
        z = {| z_color := col; z_x0 := d;
               z_x1 := default d (c_dates a !! S i) |}) \/
      (exists col, zone_of v = Some col /\
        z = {| z_color := col; z_x0 := d;
               z_x1 := default d (c_dates a !! S m) |}) <->
      exists i v d col, (i < S m)%nat /\ fv !! i = Some v /\
        c_dates a !! i = Some d /\ zone_of v = Some col /\
        z = {| z_color := col; z_x0 := d;
               z_x1 := default d (c_dates a !! S i) |}).
    { intros z. split.
      - intros [(i & v' & d' & col & Hi & ?)|(col & Hcol & ->)].
        + exists i, v', d', col. split; [lia|done].
        + exists m, v, d, col. split; [lia|done].
      - intros (i & v' & d' & col & Hi & Hv' & Hd' & Hcol & ->).
        destruct (decide (i = m)) as [->|Hne].
        + right. exists col. split; congruence.
        + left. exists i, v', d', col. split; [lia|done]. }
    unfold zone_of in Hold.
    destruct (Qle_bool (1 # 2) v); [|destruct (Qle_bool v (- (1 # 2)))].
    + eexists. split; [done|].
      split; [rewrite length_app; cbn; lia|]. intros z.
      rewrite elem_of_app, list_elem_of_singleton, Hspec, <- Hold.
      split; (intros [?|H]; [by left|right]).
      * by exists Green.
      * by destruct H as (col & [= <-] & ->).
    + eexists. split; [done|].
      split; [rewrite length_app; cbn; lia|]. intros z.
      rewrite elem_of_app, list_elem_of_singleton, Hspec, <- Hold.
      split; (intros [?|H]; [by left|right]).
      * by exists Red.
      * by destruct H as (col & [= <-] & ->).
    + exists zones. split; [done|]. split; [lia|].
      intros z. rewrite Hspec, <- Hold.
      split; [by left|]. by intros [?|(col & ? & _)].
Qed.

(** ** The marks of a signal *)

Lemma buy_signals_Some a n name sv :
  length (c_dates a) = n -> length (c_low a) = n ->
  is_Some (buy_signals a n name sv).
Proof.
  intros Hd Hl. unfold buy_signals.
  destruct (String.eqb name "momentum_color_signal").
  - destruct (first_of_week_spec a n (fun _ => true) (99 # 100) sv Hd Hl)
      as (weekly & -> & _). by eexists.
  - destruct (every_signal_spec a n (fun _ => true) (97 # 100) sv Hd Hl)
      as (pts & -> & _). by eexists.
Qed.

Lemma buy_text_signals_Some signals a n name sv :
  length (c_dates a) = n -> length (c_low a) = n ->
  is_Some (buy_text_signals signals a n name sv).
Proof.
  intros Hd Hl. unfold buy_text_signals.
  destruct (String.eqb name "momentum_color_signal").
  - destruct (first_of_week_spec a n
                (has_buy_signal signals (group_buy_signals name) 50)
                (95 # 100) sv Hd Hl) as (weekly & -> & _). by eexists.
  - destruct (every_signal_spec a n
                (has_buy_signal signals (group_buy_signals name) 20)
                (95 # 100) sv Hd Hl) as (pts & -> & _). by eexists.
Qed.

Lemma draw_signal_Some st show_buy signals a n name :
  length (c_dates a) = n -> length (c_low a) = n ->
  is_Some (draw_signal st show_buy signals a n name).
Proof.
  intros Hd Hl. unfold draw_signal.
  destruct (signals !! name) as [sv|]; [|by eexists].
  destruct (show_buy && negb (String.eqb name "fcv_signal")
            && should_show_signal st name); [|by eexists].
  destruct (buy_signals_Some a n name sv Hd Hl) as [buy ->].
  cbn [mbind option_bind].
  destruct (bool_decide (name ∈ reversal_signals)); [|by eexists].
  destruct (buy_text_signals_Some signals a n name sv Hd Hl) as [texts ->].
  by eexists.
Qed.

Lemma draw_signals_Some st settings ds a n :
  length (c_dates a) = n -> length (c_low a) = n ->
  exists marks, draw_signals st settings ds a n = Some marks /\
    marks.*1 = match settings with
               | Some s => selected_signals s
               | None => []
               end.
Proof.
  intros Hd Hl. unfold draw_signals. destruct settings as [s|]; [|by exists []].
  destruct (mapM_is_Some_2
              (fun signal_name =>
                 m ← draw_signal st (show_buy_signals s) (signals ds) a n
                       signal_name;
                 Some (signal_name, m))
              (selected_signals s)) as [marks Hm].
  - apply Forall_forall. intros name _. cbn.
    destruct (draw_signal_Some st (show_buy_signals s) (signals ds) a n name
                Hd Hl) as [m ->]. by eexists.
  - exists marks. split; [done|].
    apply (mapM_fmap_Some_inv _ _ _ _ Hm). intros name [name' m].
    destruct (draw_signal st (show_buy_signals s) (signals ds) a n name);
      [|done]. by intros [= <- _].
Qed.

Lemma fcv_zones_Some st ds a :
  exists zones, fcv_zones st ds a (length (c_dates a)) = Some zones /\
    (length zones <= length (c_dates a))%nat /\
    forall z, z ∈ zones <->
      show_fcv_zones st = true /\
      exists fv i v d col,
        indicators ds !! FCV = Some fv /\ fv !! i = Some v /\
        c_dates a !! i = Some d /\ zone_of v = Some col /\
        z = {| z_color := col; z_x0 := d;
               z_x1 := default d (c_dates a !! S i) |}.
Proof.
  unfold fcv_zones. destruct (indicators ds !! FCV) as [fv|].
  - destruct (show_fcv_zones st).
    + destruct (fcv_zones_loop a fv (Nat.min (length fv) (length (c_dates a))))
        as (zones & -> & Hlen & Hspec); [lia..|].
      exists zones. split; [done|]. split; [lia|].
      intros z. rewrite Hspec. split.
      * intros (i & v & d & col & _ & H). split; [done|]. by exists fv, i, v, d, col.
      * intros (_ & fv' & i & v & d & col & [= <-] & Hv & Hd & H).
        exists i, v, d, col. split; [|done].
        apply lookup_lt_Some in Hv, Hd. lia.
    + exists []. split; [done|]. split; [cbn; lia|].
      intros z. split; [by intros ?%elem_of_nil|]. by intros [? _].
  - exists []. split; [done|]. split; [cbn; lia|].
    intros z. split; [by intros ?%elem_of_nil|].
    by intros (_ & fv & i & v & d & col & ? & _).
Qed.

(** X11.  [_create_candlestick_chart] shows a figure exactly when its head
    finds bars.  Once the arrays are cut to their common length, neither
    the marker loops nor the zone loop can fail on an index, whatever the
    lengths of the signal and composite arrays: the figure has the
    candlestick arrays, the trendlines with at least two points, one entry
    of marks per selected signal, in the order of the selection, and at
    most one zone per bar. *)
Theorem chart_never_fails :
  forall (st : session) (ds : dataset) (settings : option chart_settings),
    (chart_inputs ds = None ->
     _create_candlestick_chart st ds settings = None) /\
    (forall a, chart_inputs ds = Some a ->
       exists marks zones,
         _create_candlestick_chart st ds settings =
         Some {| f_candles := a;
                 f_trendlines :=
                   filter (fun t => (2 <= length (tl_points t))%nat)
                          (default [] (trendlines ds));
                 f_marks := marks;
                 f_zones := zones |} /\
         marks.*1 = match settings with
                    | Some s => selected_signals s
                    | None => []
                    end /\
         (length zones <= length (c_dates a))%nat).
Proof.
  intros st ds settings. unfold _create_candlestick_chart. split.
  - by intros ->.
  - intros a Ha. rewrite Ha. cbn [mbind option_bind].
    destruct (chart_inputs_lengths ds a Ha) as (_ & _ & _ & Hl & _).
    destruct (draw_signals_Some st settings ds a (length (c_dates a)) eq_refl Hl)
      as (marks & -> & Hnames).
    destruct (fcv_zones_Some st ds a) as (zones & -> & Hlen & _).
    cbn [mbind option_bind]. by exists marks, zones.
Qed.

Lemma figure_inv st ds settings fig :
  _create_candlestick_chart st ds settings = Some fig ->
  chart_inputs ds = Some (f_candles fig) /\
  length (c_low (f_candles fig)) = length (c_dates (f_candles fig)) /\
  draw_signals st settings ds (f_candles fig)
    (length (c_dates (f_candles fig))) = Some (f_marks fig) /\
  fcv_zones st ds (f_candles fig) (length (c_dates (f_candles fig))) =
    Some (f_zones fig).
Proof.
  unfold _create_candlestick_chart.
  destruct (chart_inputs ds) as [a|] eqn:Ha; [|done]. cbn [mbind option_bind].
  destruct (draw_signals st settings ds a (length (c_dates a))) as [marks|]
    eqn:Hmarks; [|done].
  cbn [mbind option_bind].
  destruct (fcv_zones st ds a (length (c_dates a))) as [zones|] eqn:Hzones;
    [|done].
  intros [= <-]. cbn [f_candles f_marks f_zones].
  destruct (chart_inputs_lengths ds a Ha) as (_ & _ & _ & Hl & _). done.
Qed.

Lemma marks_elem st s ds a n marks name m :
  draw_signals st (Some s) ds a n = Some marks -> (name, m) ∈ marks ->
  draw_signal st (show_buy_signals s) (signals ds) a n name = Some m.
Proof.
  unfold draw_signals. intros HF%mapM_Some_1 (k & Hk)%list_elem_of_lookup.
  destruct (Forall2_lookup_r _ _ _ _ _ HF Hk) as (x & _ & Hx).
  destruct (draw_signal st (show_buy_signals s) (signals ds) a n x) as [m'|] eqn:Hm;
    [|done].
  cbn in Hx. injection Hx as -> ->. done.
Qed.


Lemma draw_signal_inv st show_buy signals a n name m :
  draw_signal st show_buy signals a n name = Some m ->
  (m = no_marks /\
   (signals !! name = None \/ markers_shown st show_buy name = false)) \/
  (exists sv buy,
     signals !! name = Some sv /\ markers_shown st show_buy name = true /\
     buy_signals a n name sv = Some buy /\ default [] (m_trace m) = buy /\
     (((name ∉ reversal_signals) /\ m_alerts m = []) \/
      (name ∈ reversal_signals /\
       exists texts,
         buy_text_signals signals a n name sv = Some texts /\
         m_alerts m =
           if show_rebound_alert st
           then (fun '(d, price) => (d, (price - 1)%Q)) <$> texts
           else []))).
Proof.
  unfold draw_signal, markers_shown.
  destruct (signals !! name) as [sv|]; [|intros [= <-]; left; by split; [|left]].
  destruct (show_buy && negb (String.eqb name "fcv_signal")
            && should_show_signal st name);
    [|intros [= <-]; left; by split; [|right]].
  destruct (buy_signals a n name sv) as [buy|] eqn:Hbuy; [|done].
  cbn [mbind option_bind]. intros Hm. right. exists sv, buy.
  do 3 (split; [done|]).
  destruct (decide (name ∈ reversal_signals)) as [Hr|Hr].
  - rewrite bool_decide_eq_true_2 in Hm by done.
    destruct (buy_text_signals signals a n name sv) as [texts|]; [|done].
    cbn [mbind option_bind] in Hm. injection Hm as <-. cbn [m_trace m_alerts].
    split; [by destruct buy|]. right. split; [done|]. by exists texts.
  - rewrite bool_decide_eq_false_2 in Hm by done.
    cbn [mbind option_bind] in Hm. injection Hm as <-. cbn [m_trace m_alerts].
    split; [by destruct buy|]. by left.
Qed.

Lemma markers_shown_spec st show_buy name :
  markers_shown st show_buy name = true <->
  show_buy = true /\ name <> "fcv_signal" /\ should_show_signal st name = true.
Proof.
  unfold markers_shown.
  destruct (String.eqb_spec name "fcv_signal") as [->|Hne], show_buy,
    (should_show_signal st _); cbn; split; try done;
    by intros (? & ? & ?).
Qed.

(** X12.  For a selected signal other than ["momentum_color_signal"], a
    buy marker is drawn at a bar exactly when the markers of the signal
    are shown (buy signals on, the signal is not ["fcv_signal"], its
    checkbox on) and the signal is 1 on that bar of the chart; the marker
    sits at 97 % of the low of the bar.  Signal values beyond the last bar
    of the chart draw nothing. *)
Theorem markers_at_signal_bars :
  forall (st : session) (ds : dataset) (s : chart_settings) (fig : figure)
         (name : string) (m : signal_marks),
    _create_candlestick_chart st ds (Some s) = Some fig ->
    (name, m) ∈ f_marks fig ->
    name <> "momentum_color_signal" ->
    forall d p, (d, p) ∈ default [] (m_trace m) <->
      (show_buy_signals s = true /\ name <> "fcv_signal" /\
       should_show_signal st name = true) /\
      exists sv i low_price,
        signals ds !! name = Some sv /\ sv !! i = Some 1 /\
        c_dates (f_candles fig) !! i = Some d /\
        c_low (f_candles fig) !! i = Some low_price /\
        p = (low_price * (97 # 100))%Q.
Proof.
  intros st ds s fig name m (_ & Hl & Hmarks & _)%figure_inv Hin Hname d p.
  rewrite <- markers_shown_spec.
  pose proof (marks_elem _ _ _ _ _ _ _ _ Hmarks Hin) as Hm.
  apply draw_signal_inv in Hm
    as [[-> Hno]|(sv & buy & Hsv & Hshown & Hbuy & -> & _)].
  { cbn. split; [by intros ?%elem_of_nil|].
    intros (Hshown & sv & i & l & Hsv & _). destruct Hno; congruence. }
  unfold buy_signals in Hbuy.
  destruct (String.eqb_spec name "momentum_color_signal"); [done|].
  destruct (every_signal_spec (f_candles fig) _ (fun _ => true) (97 # 100) sv
              eq_refl Hl) as (pts & Hpts & Hspec).
  assert (pts = buy) as -> by congruence. rewrite Hspec. split.
  - intros (i & (Hi & Hs & _) & (d' & l & Hd & Hlow & [= -> ->])%low_point_inv).
    split; [done|]. by exists sv, i, l.
  - intros (_ & sv' & i & l & Hsv' & Hs & Hd & Hlow & ->).
    assert (sv' = sv) as -> by congruence.
    exists i. split.
    + split; [by apply lookup_lt_Some in Hd|done].
    + unfold low_point. by rewrite Hd, Hlow.
Qed.

Lemma should_show_reversal st name :
  name ∈ reversal_signals ->
  should_show_signal st name = show_rebound_potential st /\
  name <> "fcv_signal".
Proof.
  unfold reversal_signals. rewrite !elem_of_cons, elem_of_nil.
  by intros [->|[->|[->|[]]]].
Qed.

Lemma markers_shown_reversal st show_buy name :
  name ∈ reversal_signals ->
  markers_shown st show_buy name = show_buy && show_rebound_potential st.
Proof.
  intros [Hs Hne]%(should_show_reversal st). unfold markers_shown.
  rewrite Hs. by destruct (String.eqb_spec name "fcv_signal"), show_buy.
Qed.

Lemma weekly_fmap_dates (weekly : list (Z * Z * (date * Q))) :
  (forall k p, (k, p) ∈ weekly -> k = week_key p.1) ->
  weekly.*1 = week_key <$> weekly.*2.*1.
Proof.
  intros Hk. induction weekly as [|[k p] w IH]; [done|].
  cbn [fmap list_fmap]. f_equal.
  - cbn. apply Hk. left.
  - apply IH. intros k' p' Hin. apply Hk. by right.
Qed.

(** X13.  The markers of ["momentum_color_signal"] are one per week,
    weeks running from Monday to Sunday: no two markers lie in the same
    week; each marker is on the first bar of its week, in array order,
    on which the signal is 1, at 99 % of the low of that bar; and every
    week with such a bar has its marker. *)
Theorem weekly_markers_first_of_week :
  forall (st : session) (ds : dataset) (s : chart_settings) (fig : figure)
         (m : signal_marks) (sv : list Z),
    _create_candlestick_chart st ds (Some s) = Some fig ->
    ("momentum_color_signal", m) ∈ f_marks fig ->
    signals ds !! "momentum_color_signal" = Some sv ->
    show_buy_signals s = true -> show_rebound_potential st = true ->
    NoDup (monday <$> (default [] (m_trace m)).*1) /\
    (forall d p, (d, p) ∈ default [] (m_trace m) ->
       exists i low_price,
         sv !! i = Some 1 /\ c_dates (f_candles fig) !! i = Some d /\
         c_low (f_candles fig) !! i = Some low_price /\
         p = (low_price * (99 # 100))%Q /\
         forall j dj, (j < i)%nat -> sv !! j = Some 1 ->
           c_dates (f_candles fig) !! j = Some dj -> monday dj <> monday d) /\
    (forall i d, sv !! i = Some 1 -> c_dates (f_candles fig) !! i = Some d ->
       exists d' p, (d', p) ∈ default [] (m_trace m) /\ monday d' = monday d).
Proof.
  intros st ds s fig m sv (_ & Hl & Hmarks & _)%figure_inv Hin Hsv Hbuy Hpot.
  pose proof (marks_elem _ _ _ _ _ _ _ _ Hmarks Hin) as Hm.
  apply draw_signal_inv in Hm
    as [[_ [Hno|Hno]]|(sv' & buy & Hsv' & _ & Hb & -> & _)].
  { congruence. }
  { rewrite markers_shown_reversal, Hbuy, Hpot in Hno; [done|].
    apply elem_of_cons. right. apply elem_of_cons. by left. }
  assert (sv' = sv) as -> by congruence.
  unfold buy_signals in Hb. cbn [String.eqb Ascii.eqb Bool.eqb] in Hb.
  destruct (first_of_week_spec (f_candles fig) _ (fun _ => true) (99 # 100) sv
              eq_refl Hl) as (weekly & Hw & Hnd & Hfirst & Hcov).
  rewrite Hw in Hb. cbn [mbind option_bind] in Hb. injection Hb as <-.
  assert (Hkeys : forall k p, (k, p) ∈ weekly -> k = week_key p.1).
  { intros k p (i & d & _ & (d' & l & Hd & _ & ->)%low_point_inv & Hd' & -> & _)%Hfirst.
    cbn. congruence. }
  split; [|split].
  - rewrite (weekly_fmap_dates _ Hkeys) in Hnd.
    apply (NoDup_fmap_1 strftime_Y_W). by rewrite <- list_fmap_compose.
  - intros d p ([k p'] & [= <-] & Hkp)%list_elem_of_fmap.
    destruct (Hfirst k _ Hkp)
      as (i & d' & (_ & Hs & _) & (d'' & l & Hd & Hlow & [= -> ->])%low_point_inv
          & Hd' & -> & Hmin).
    assert (d' = d'') as -> by congruence.
    exists i, l. do 4 (split; [done|]).
    intros j dj Hj Hsj Hdj Heq. apply (Hmin j dj Hj); [|done|by apply week_key_monday].
    split; [by apply lookup_lt_Some in Hdj|done].
  - intros i d Hs Hd.
    assert (Hf : fires (length (c_dates (f_candles fig))) (fun _ => true) sv i).
    { split; [by apply lookup_lt_Some in Hd|done]. }
    pose proof (Hcov i d Hf Hd) as ([k [d' p]] & Hk & Hkp)%list_elem_of_fmap.
    cbn in Hk. subst k. exists d', p. split.
    + apply list_elem_of_fmap. by exists (week_key d, (d', p)).
    + apply week_key_monday. symmetry. by apply (Hkeys _ _ Hkp).
Qed.

Lemma group_reversal name g :
  g ∈ group_buy_signals name -> name ∈ reversal_signals.
Proof.
  unfold group_buy_signals, reversal_signals.
  rewrite !elem_of_cons.
  destruct (String.eqb_spec name "macd_signal") as [->|_]; [by left|].
  destruct (String.eqb_spec name "momentum_color_signal") as [->|_];
    [by right; left|].
  destruct (String.eqb_spec name "combined_signal_v1") as [->|_];
    [by right; right; left|].
  by intros ?%elem_of_nil.
Qed.

(** The points of the alert loops, by the bars they come from. *)
Lemma buy_text_signals_spec signals a name sv texts :
  length (c_low a) = length (c_dates a) ->
  buy_text_signals signals a (length (c_dates a)) name sv = Some texts ->
  (forall p, p ∈ texts ->
     exists i, fires (length (c_dates a))
                 (has_buy_signal signals (group_buy_signals name)
                    (lookback_of name)) sv i /\
               low_point a (95 # 100) i = Some p) /\
  (name <> "momentum_color_signal" ->
   forall p i, fires (length (c_dates a))
                 (has_buy_signal signals (group_buy_signals name)
                    (lookback_of name)) sv i ->
               low_point a (95 # 100) i = Some p -> p ∈ texts).
Proof.
  intros Hl. unfold buy_text_signals, lookback_of.
  destruct (String.eqb_spec name "momentum_color_signal") as [->|Hne].
  - destruct (first_of_week_spec a _
                (has_buy_signal signals
                   (group_buy_signals "momentum_color_signal") 50)
                (95 # 100) sv eq_refl Hl) as (weekly & -> & _ & Hfirst & _).
    cbn [mbind option_bind]. intros [= <-]. split; [|done].
    intros p ([k p'] & -> & (i & d & Hf & Hp & _)%Hfirst)%list_elem_of_fmap.
    by exists i.
  - destruct (every_signal_spec a _
                (has_buy_signal signals (group_buy_signals name) 20)
                (95 # 100) sv eq_refl Hl) as (pts & -> & Hspec).
    intros [= <-]. split.
    + by intros p ?%Hspec.
    + intros _ p i Hf Hp. apply Hspec. by exists i.
Qed.

Lemma alert_bar_fires ds a name d y :
  alert_bar ds a name (lookback_of name) d y <->
  exists sv i p,
    signals ds !! name = Some sv /\
    fires (length (c_dates a))
      (has_buy_signal (signals ds) (group_buy_signals name) (lookback_of name))
      sv i /\
    low_point a (95 # 100) i = Some p /\ d = p.1 /\ y = (p.2 - 1)%Q.
Proof.
  unfold alert_bar. split.
  - intros (sv & i & l & g & gv & j & Hsv & Hs & Hd & Hlow & -> & Hg & Hgv
            & Hlen & Hj & Hwin).
    exists sv, i, (d, (l * (95 # 100))%Q). split; [done|]. split; [|split].
    + split; [by apply lookup_lt_Some in Hd|]. split; [done|].
      apply has_buy_signal_spec. by exists g, gv, j.
    + unfold low_point. by rewrite Hd, Hlow.
    + done.
  - intros (sv & i & p & Hsv & (_ & Hs & Hc) &
            (d' & l & Hd & Hlow & ->)%low_point_inv & -> & ->).
    apply has_buy_signal_spec in Hc as (g & gv & j & Hg & Hgv & Hlen & Hwin & Hj).
    by exists sv, i, l, g, gv, j.
Qed.

(** X14.  A Rebound Alert is annotated at a bar only when buy signals,
    Rebound Potential and Rebound Alert are all on, the reversal signal is
    1 on the bar, and the buy signal of its group was 1 on one of the 20
    bars before it (50 for ["momentum_color_signal"]) in a series that
    reaches the bar; a buy signal on the bar itself does not count.  The
    annotation sits at 95 % of the low of the bar, minus 1.  For the other
    reversal signals than ["momentum_color_signal"] every such bar is
    annotated. *)
Theorem rebound_alert_window :
  forall (st : session) (ds : dataset) (s : chart_settings) (fig : figure)
         (name : string) (m : signal_marks),
    _create_candlestick_chart st ds (Some s) = Some fig ->
    (name, m) ∈ f_marks fig ->
    (forall d y, (d, y) ∈ m_alerts m ->
       show_buy_signals s = true /\ show_rebound_potential st = true /\
       show_rebound_alert st = true /\
       alert_bar ds (f_candles fig) name (lookback_of name) d y) /\
    (name <> "momentum_color_signal" ->
     show_buy_signals s = true -> show_rebound_potential st = true ->
     show_rebound_alert st = true ->
     forall d y, alert_bar ds (f_candles fig) name (lookback_of name) d y ->
                 (d, y) ∈ m_alerts m).
Proof.
  intros st ds s fig name m (_ & Hl & Hmarks & _)%figure_inv Hin.
  pose proof (marks_elem _ _ _ _ _ _ _ _ Hmarks Hin) as Hm.
  assert (Hrev : forall d y,
            alert_bar ds (f_candles fig) name (lookback_of name) d y ->
            name ∈ reversal_signals).
  { intros d y (sv & i & l & g & gv & j & _ & _ & _ & _ & _ & Hg & _).
    by eapply group_reversal. }
  apply draw_signal_inv in Hm
    as [[-> Hno]|(sv & buy & Hsv & Hshown & _ & _ &
                  [[Hnr ->]|(Hr & texts & Ht & ->)])].
  - split; [by intros d y ?%elem_of_nil|].
    intros _ Hb Hp _ d y Ha. pose proof (Hrev d y Ha) as Hr.
    rewrite (markers_shown_reversal _ _ _ Hr), Hb, Hp in Hno.
    destruct Ha as (sv & ? & ? & ? & ? & ? & Hsv & _).
    destruct Hno as [Hno|Hno]; [congruence|done].
  - split; [by intros d y ?%elem_of_nil|].
    intros _ _ _ _ d y Ha. by apply Hrev in Ha.
  - rewrite (markers_shown_reversal _ _ _ Hr) in Hshown.
    apply andb_true_iff in Hshown as [Hb Hp].
    destruct (buy_text_signals_spec _ _ _ _ _ Hl Ht) as [Hfwd Hbwd]. split.
    + intros d y Hdy. do 2 (split; [done|]).
      destruct (show_rebound_alert st); [|by apply elem_of_nil in Hdy].
      split; [done|].
      apply list_elem_of_fmap in Hdy as ([d' price] & [= -> ->] & Hin').
      apply alert_bar_fires. destruct (Hfwd _ Hin') as (i & Hf & Hlp).
      by exists sv, i, (d', price).
    + intros Hne _ _ -> d y (sv' & i & p & Hsv' & Hf & Hlp & -> & ->)%alert_bar_fires.
      assert (sv' = sv) as -> by congruence.
      apply list_elem_of_fmap. exists p. split; [by destruct p|].
      by apply (Hbwd Hne p i).
Qed.

(** X15.  The background zones follow the composite value bar by bar: a
    zone is drawn for bar [i] exactly when FCV Zones is on, the composite
    series has a value at [i] and that value is at least 0.5 (green) or at
    most -0.5 (red); values strictly between draw nothing.  The zone runs
    from the date of the bar to the date of the next bar, and has no width
    on the last bar. *)
Theorem zones_follow_composite :
  forall (st : session) (ds : dataset) (settings : option chart_settings)
         (fig : figure),
    _create_candlestick_chart st ds settings = Some fig ->
    forall z, z ∈ f_zones fig <->
      show_fcv_zones st = true /\
      exists fv i v d,
        indicators ds !! FCV = Some fv /\ fv !! i = Some v /\
        c_dates (f_candles fig) !! i = Some d /\
        z_x0 z = d /\
        z_x1 z = default d (c_dates (f_candles fig) !! S i) /\
        ((z_color z = Green /\ (1 # 2 <= v)%Q) \/
         (z_color z = Red /\ (v <= - (1 # 2))%Q)).
Proof.
  intros st ds settings fig (_ & _ & _ & Hz)%figure_inv z.
  destruct (fcv_zones_Some st ds (f_candles fig)) as (zones & Hz' & _ & Hspec).
  assert (zones = f_zones fig) as <- by congruence.
  rewrite Hspec. split.
  - intros (Hshow & fv & i & v & d & col & Hfv & Hv & Hd & Hcol & ->).
    split; [done|]. exists fv, i, v, d. do 5 (split; [done|]).
    by apply zone_of_spec in Hcol.
  - intros (Hshow & fv & i & v & d & Hfv & Hv & Hd & Hx0 & Hx1 & Hcol).
    split; [done|]. exists fv, i, v, d, (z_color z). do 3 (split; [done|]).
    split.
    + apply zone_of_spec. destruct Hcol as [[-> ?]|[-> ?]]; [by left|by right].
    + destruct z. cbn in *. by subst.
Qed.

Lemma chart_inputs_dates ds a :
  chart_inputs ds = Some a ->
  c_dates a = take (length (c_dates a)) (dates ds).
Proof.
  unfold chart_inputs. destruct (data ds) as [s|]; [|done].
  destruct (_ =? _)%nat; [done|]. intros [= <-]. cbn [c_dates].
  rewrite length_take. f_equal. lia.
Qed.

(** Fridays of different weeks have different week keys. *)
Lemma weekly_axis_keys ds :
  well_formed ds ->
  NoDup (week_key <$>
           (r_date <$> dropna (resample_agg W_FRI (daily_records ds)))).
Proof.
  intros Hwf. apply NoDup_fmap_2_strong.
  - intros x y Hx Hy Hk%week_key_monday.
    destruct (axis_elem_daily W_FRI ds x Hwf Hx) as (dx & _ & <-).
    destruct (axis_elem_daily W_FRI ds y Hwf Hy) as (dy & _ & <-).
    cbn [rule_label] in *.
    pose proof (week_end_friday dx) as Hfx.
    pose proof (week_end_friday dy) as Hfy.
    unfold monday in Hk. lia.
  - pose proof (resampled_dates_sorted W_FRI (daily_records ds)) as Hs.
    apply NoDup_alt. intros i j x Hi Hj. by eapply StronglySorted_lt_inj.
Qed.

(** X16.  On the weekly bars of a well-formed dataset the weekly rule of
    ["momentum_color_signal"] removes nothing: the bars are Fridays of
    different weeks, so every bar on which the signal is 1 has its marker,
    at 99 % of its low. *)
Theorem weekly_chart_keeps_every_marker :
  forall (st : session) (ds ds' : dataset) (s : chart_settings)
         (fig : figure) (m : signal_marks) (sv : list Z),
    well_formed ds ->
    resample_data_to_timeframe ds "weekly" = Ok ds' ->
    _create_candlestick_chart st ds' (Some s) = Some fig ->
    ("momentum_color_signal", m) ∈ f_marks fig ->
    signals ds' !! "momentum_color_signal" = Some sv ->
    show_buy_signals s = true -> show_rebound_potential st = true ->
    forall d p, (d, p) ∈ default [] (m_trace m) <->
      exists i low_price,
        sv !! i = Some 1 /\ c_dates (f_candles fig) !! i = Some d /\
        c_low (f_candles fig) !! i = Some low_price /\
        p = (low_price * (99 # 100))%Q.
Proof.
  intros st ds ds' s fig m sv Hwf Hres (Ha & Hl & Hmarks & _)%figure_inv
    Hin Hsv Hbuy Hpot d p.
  pose proof (marks_elem _ _ _ _ _ _ _ _ Hmarks Hin) as Hm.
  apply draw_signal_inv in Hm
    as [[_ [Hno|Hno]]|(sv' & buy & Hsv' & _ & Hb & -> & _)].
  { congruence. }
  { rewrite markers_shown_reversal, Hbuy, Hpot in Hno; [done|].
    apply elem_of_cons. right. apply elem_of_cons. by left. }
  assert (sv' = sv) as -> by congruence.
  assert (Hnd : NoDup (week_key <$> c_dates (f_candles fig))).
  { rewrite (chart_inputs_dates _ _ Ha), fmap_take.
    eapply sublist_NoDup; [|apply sublist_take].
    rewrite (resample_weekly_monthly ds "weekly" W_FRI Hwf eq_refl) in Hres.
    injection Hres as <-. cbn [dates]. by apply weekly_axis_keys. }
  destruct (first_of_week_distinct (f_candles fig) _ (fun _ => true)
              (99 # 100) sv eq_refl Hl Hnd) as (weekly & Hw & He & _).
  unfold buy_signals in Hb. cbn [String.eqb Ascii.eqb Bool.eqb] in Hb.
  rewrite Hw in Hb. cbn [mbind option_bind] in Hb. injection Hb as <-.
  destruct (every_signal_spec (f_candles fig) _ (fun _ => true) (99 # 100) sv
              eq_refl Hl) as (pts & Hpts & Hspec).
  assert (pts = weekly.*2) as <- by congruence. rewrite Hspec. split.
  - intros (i & (Hi & Hs & _) & (d' & l & Hd & Hlow & [= -> ->])%low_point_inv).
    by exists i, l.
  - intros (i & l & Hs & Hd & Hlow & ->). exists i. split.
    + split; [by apply lookup_lt_Some in Hd|done].
    + unfold low_point. by rewrite Hd, Hlow.
Qed.

(** X17.  An alert never stands alone: every Rebound Alert of a signal
    has a buy marker of the same signal in the same Monday-to-Sunday week,
    and on the same bar unless the signal is ["momentum_color_signal"]. *)
Theorem alert_has_marker :
  forall (st : session) (ds : dataset) (s : chart_settings) (fig : figure)
         (name : string) (m : signal_marks),
    _create_candlestick_chart st ds (Some s) = Some fig ->
    (name, m) ∈ f_marks fig ->
    forall d y, (d, y) ∈ m_alerts m ->
      exists d' p, (d', p) ∈ default [] (m_trace m) /\
        monday d' = monday d /\
        (name <> "momentum_color_signal" -> d' = d).
Proof.
  intros st ds s fig name m (_ & Hl & Hmarks & _)%figure_inv Hin d y Hdy.
  pose proof (marks_elem _ _ _ _ _ _ _ _ Hmarks Hin) as Hm.
  apply draw_signal_inv in Hm
    as [[-> _]|(sv & buy & Hsv & _ & Hb & -> &
                [[_ Hal]|(_ & texts & Ht & Hal)])].
  { by apply elem_of_nil in Hdy. }
  { rewrite Hal in Hdy. by apply elem_of_nil in Hdy. }
  rewrite Hal in Hdy.
  destruct (show_rebound_alert st); [|by apply elem_of_nil in Hdy].
  apply list_elem_of_fmap in Hdy as ([d0 price] & [= -> ->] & Hin').
  destruct (buy_text_signals_spec _ _ _ _ _ Hl Ht) as [Hfwd _].
  destruct (Hfwd _ Hin') as (i & (Hi & Hs & _) &
                             (d' & l & Hd & Hlow & [= -> ->])%low_point_inv).
  assert (Hf : fires (length (c_dates (f_candles fig))) (fun _ => true) sv i)
    by done.
  unfold buy_signals in Hb.
  destruct (String.eqb_spec name "momentum_color_signal") as [->|Hne].
  - destruct (first_of_week_spec (f_candles fig) _ (fun _ => true) (99 # 100)
                sv eq_refl Hl) as (weekly & Hw & _ & Hfirst & Hcov).
    rewrite Hw in Hb. cbn [mbind option_bind] in Hb. injection Hb as <-.
    pose proof (Hcov i d' Hf Hd) as ([k [d1 p]] & Hk & Hkp)%list_elem_of_fmap.
    cbn in Hk. subst k. exists d1, p. split; [|split; [|done]].
    + apply list_elem_of_fmap. by exists (week_key d', (d1, p)).
    + destruct (Hfirst _ _ Hkp)
        as (i1 & d2 & _ & (d3 & l3 & Hd3 & _ & [= -> ->])%low_point_inv
            & Hd2 & Hk & _).
      apply week_key_monday. congruence.
  - destruct (every_signal_spec (f_candles fig) _ (fun _ => true) (97 # 100)
                sv eq_refl Hl) as (pts & Hpts & Hspec).
    assert (pts = buy) as -> by congruence.
    exists d', (l * (97 # 100))%Q. split; [|done].
    apply Hspec. exists i. split; [done|]. unfold low_point. by rewrite Hd, Hlow.
Qed.

Lemma markers_at_signal_bars_two_weeks :
  exists fig m,
    _create_candlestick_chart all_shown two_weeks (Some two_weeks_settings) =
      Some fig /\
    ("macd_signal", m) ∈ f_marks fig /\
    m_trace m = Some [(jan 1, (9 * (97 # 100))%Q); (jan 2, (10 * (97 # 100))%Q)] /\
    forall d p, (d, p) ∈ default [] (m_trace m) <->
      (show_buy_signals two_weeks_settings = true /\
       "macd_signal" <> "fcv_signal" /\
       should_show_signal all_shown "macd_signal" = true) /\
      exists sv i low_price,
        signals two_weeks !! "macd_signal" = Some sv /\ sv !! i = Some 1 /\
        c_dates (f_candles fig) !! i = Some d /\
        c_low (f_candles fig) !! i = Some low_price /\
        p = (low_price * (97 # 100))%Q.
Proof.
  do 2 eexists. split; [vm_compute; reflexivity|]. split.
  { apply elem_of_cons. right. apply elem_of_cons. left. reflexivity. }
  split; [reflexivity|].
  apply (markers_at_signal_bars all_shown two_weeks two_weeks_settings _
           "macd_signal" _).
  - vm_compute. reflexivity.
  - apply elem_of_cons. right. apply elem_of_cons. left. reflexivity.
  - discriminate.
Defined.

Lemma weekly_markers_first_of_week_two_weeks :
  exists fig m,
    _create_candlestick_chart all_shown two_weeks (Some two_weeks_settings) =
      Some fig /\
    ("momentum_color_signal", m) ∈ f_marks fig /\
    m_trace m = Some [(jan 2, (10 * (99 # 100))%Q); (jan 8, (12 * (99 # 100))%Q)] /\
    NoDup (monday <$> (default [] (m_trace m)).*1) /\
    (forall d p, (d, p) ∈ default [] (m_trace m) ->
       exists i low_price,
         [0; 1; 1; 0; 0; 1; 0; 0; 0; 1] !! i = Some 1 /\
         c_dates (f_candles fig) !! i = Some d /\
         c_low (f_candles fig) !! i = Some low_price /\
         p = (low_price * (99 # 100))%Q /\
         forall j dj, (j < i)%nat ->
           [0; 1; 1; 0; 0; 1; 0; 0; 0; 1] !! j = Some 1 ->
           c_dates (f_candles fig) !! j = Some dj -> monday dj <> monday d) /\
    (forall i d, [0; 1; 1; 0; 0; 1; 0; 0; 0; 1] !! i = Some 1 ->
       c_dates (f_candles fig) !! i = Some d ->
       exists d' p, (d', p) ∈ default [] (m_trace m) /\ monday d' = monday d).
Proof.
  do 2 eexists. split; [vm_compute; reflexivity|]. split.
  { apply elem_of_cons. left. reflexivity. }
  split; [reflexivity|].
  apply (weekly_markers_first_of_week all_shown two_weeks two_weeks_settings
           _ _ [0; 1; 1; 0; 0; 1; 0; 0; 0; 1]).
  - vm_compute. reflexivity.
  - apply elem_of_cons. left. reflexivity.
  - reflexivity.
  - reflexivity.
  - reflexivity.
Defined.

Lemma rebound_alert_window_two_weeks :
  exists fig m,
    _create_candlestick_chart all_shown two_weeks (Some two_weeks_settings) =
      Some fig /\
    ("macd_signal", m) ∈ f_marks fig /\
    m_alerts m = [(jan 2, (10 * (95 # 100) - 1)%Q)] /\
    (forall d y, (d, y) ∈ m_alerts m ->
       show_buy_signals two_weeks_settings = true /\
       show_rebound_potential all_shown = true /\
       show_rebound_alert all_shown = true /\
       alert_bar two_weeks (f_candles fig) "macd_signal"
         (lookback_of "macd_signal") d y) /\
    ("macd_signal" <> "momentum_color_signal" ->
     show_buy_signals two_weeks_settings = true ->
     show_rebound_potential all_shown = true ->
     show_rebound_alert all_shown = true ->
     forall d y, alert_bar two_weeks (f_candles fig) "macd_signal"
                   (lookback_of "macd_signal") d y ->
                 (d, y) ∈ m_alerts m).
Proof.
  do 2 eexists. split; [vm_compute; reflexivity|]. split.
  { apply elem_of_cons. right. apply elem_of_cons. left. reflexivity. }
  split; [reflexivity|].
  apply (rebound_alert_window all_shown two_weeks two_weeks_settings _
           "macd_signal" _).
  - vm_compute. reflexivity.
  - apply elem_of_cons. right. apply elem_of_cons. left. reflexivity.
Defined.

Lemma zones_follow_composite_two_weeks :
  exists fig,
    _create_candlestick_chart all_shown two_weeks (Some two_weeks_settings) =
      Some fig /\
    f_zones fig =
      [{| z_color := Green; z_x0 := jan 1; z_x1 := jan 2 |};
       {| z_color := Red; z_x0 := jan 3; z_x1 := jan 4 |};
       {| z_color := Green; z_x0 := jan 4; z_x1 := jan 5 |};
       {| z_color := Red; z_x0 := jan 5; z_x1 := jan 8 |};
       {| z_color := Green; z_x0 := jan 12; z_x1 := jan 12 |}] /\
    forall z, z ∈ f_zones fig <->
      show_fcv_zones all_shown = true /\
      exists fv i v d,
        indicators two_weeks !! FCV = Some fv /\ fv !! i = Some v /\
        c_dates (f_candles fig) !! i = Some d /\
        z_x0 z = d /\
        z_x1 z = default d (c_dates (f_candles fig) !! S i) /\
        ((z_color z = Green /\ (1 # 2 <= v)%Q) \/
         (z_color z = Red /\ (v <= - (1 # 2))%Q)).
Proof.
  eexists. split; [vm_compute; reflexivity|]. split; [reflexivity|].
  apply (zones_follow_composite all_shown two_weeks (Some two_weeks_settings) _).
  vm_compute. reflexivity.
Defined.

Lemma weekly_chart_keeps_every_marker_two_weeks :
  well_formed two_weeks /\
  exists fig m,
    _create_candlestick_chart all_shown two_weeks_weekly (Some weekly_settings) =
      Some fig /\
    ("momentum_color_signal", m) ∈ f_marks fig /\
    m_trace m = Some [(jan 5, (9 * (99 # 100))%Q); (jan 12, (10 * (99 # 100))%Q)] /\
    forall d p, (d, p) ∈ default [] (m_trace m) <->
      exists i low_price,
        [1; 1] !! i = Some 1 /\ c_dates (f_candles fig) !! i = Some d /\
        c_low (f_candles fig) !! i = Some low_price /\
        p = (low_price * (99 # 100))%Q.
Proof.
  assert (Hwf : well_formed two_weeks) by by_evaluation.
  split; [exact Hwf|].
  do 2 eexists. split; [vm_compute; reflexivity|]. split.
  { apply elem_of_cons. right. apply elem_of_cons. left. reflexivity. }
  split; [reflexivity|].
  apply (weekly_chart_keeps_every_marker all_shown two_weeks two_weeks_weekly
           weekly_settings _ _ [1; 1] Hwf).
  - vm_compute. reflexivity.
  - vm_compute. reflexivity.
  - apply elem_of_cons. right. apply elem_of_cons. left. reflexivity.
  - reflexivity.
  - reflexivity.
  - reflexivity.
Defined.

Lemma alert_has_marker_two_weeks :
  exists fig m,
    _create_candlestick_chart all_shown two_weeks (Some two_weeks_settings) =
      Some fig /\
    ("momentum_color_signal", m) ∈ f_marks fig /\
    m_alerts m = [(jan 2, (10 * (95 # 100) - 1)%Q);
                  (jan 8, (12 * (95 # 100) - 1)%Q)] /\
    forall d y, (d, y) ∈ m_alerts m ->
      exists d' p, (d', p) ∈ default [] (m_trace m) /\
        monday d' = monday d /\
        ("momentum_color_signal" <> "momentum_color_signal" -> d' = d).
Proof.
  do 2 eexists. split; [vm_compute; reflexivity|]. split.
  { apply elem_of_cons. left. reflexivity. }
  split; [reflexivity|].
  eapply (alert_has_marker all_shown two_weeks two_weeks_settings).
  - vm_compute. reflexivity.
  - apply elem_of_cons. left. reflexivity.
Defined.

(** ** The stock selector *)

Lemma display_name_lookup s name :
  symbol_display_names !! s = Some name <-> (s, name) ∈ display_name_items.
Proof.
  unfold symbol_display_names. symmetry. apply elem_of_list_to_map.
  by_evaluation.
Qed.

(** Every symbol of the selector has its own display name, and its data
    file is listed under the symbol itself. *)
Lemma display_name_table :
  Forall (fun x =>
            is_symbol_file (_get_symbol_filename x.1) = true /\
            symbol_of_file (_get_symbol_filename x.1) = x.1 /\
            Forall (fun y => x.2 = y.2 -> x.1 = y.1) display_name_items)
         display_name_items.
Proof. by_evaluation. Qed.

Lemma display_name_inj s1 s2 name :
  symbol_display_names !! s1 = Some name ->
  symbol_display_names !! s2 = Some name -> s1 = s2.
Proof.
  intros H1%display_name_lookup H2%display_name_lookup.
  pose proof display_name_table as HT. rewrite Forall_forall in HT.
  destruct (HT _ H1) as (_ & _ & Hinj). rewrite Forall_forall in Hinj.
  by apply (Hinj _ H2).
Qed.

Lemma known_options_spec l :
  known_options l =
  (omap (fun s => symbol_display_names !! s) l,
   filter (fun s => is_Some (symbol_display_names !! s)) l).
Proof.
  unfold known_options.
  assert (forall o f,
            foldl (fun acc symbol_ =>
                     let '(available_options, available_symbols_filtered) := acc in
                     match symbol_display_names !! symbol_ with
                     | Some name => (available_options ++ [name],
                                     available_symbols_filtered ++ [symbol_])
                     | None => acc
                     end) (o, f) l =
            (o ++ omap (fun s => symbol_display_names !! s) l,
             f ++ filter (fun s => is_Some (symbol_display_names !! s)) l)) as H.
  { induction l as [|x l IH]; intros o f.
    - by rewrite !app_nil_r.
    - cbn [foldl omap list_omap].
      destruct (symbol_display_names !! x) as [name|] eqn:Hx.
      + rewrite IH, filter_cons_True by (by rewrite Hx).
        by rewrite <- !app_assoc.
      + rewrite IH, filter_cons_False; [done|]. rewrite Hx. by intros [? ?]. }
  apply (H [] []).
Qed.

Lemma known_options_parallel l k name :
  (known_options l).1 !! k = Some name ->
  exists s, (known_options l).2 !! k = Some s /\
            symbol_display_names !! s = Some name /\ s ∈ l.
Proof.
  rewrite known_options_spec. cbn [fst snd]. revert k.
  induction l as [|x l IH]; intros k; [done|]. cbn [omap list_omap].
  destruct (symbol_display_names !! x) as [nx|] eqn:Hx.
  - rewrite filter_cons_True by (by rewrite Hx). destruct k as [|k]; cbn.
    + intros [= <-]. exists x. split; [done|]. split; [done|]. left.
    + intros (s & ? & ? & ?)%IH. exists s. split; [done|]. split; [done|].
      by right.
  - rewrite filter_cons_False by (rewrite Hx; by intros [? ?]).
    intros (s & ? & ? & ?)%IH. exists s. split; [done|]. split; [done|].
    by right.
Qed.

Lemma symbol_of_display_spec sel opts filt :
  forall i,
    (forall k name, opts !! k = Some name ->
       exists s, filt !! (i + k)%nat = Some s /\
                 symbol_display_names !! s = Some name /\ s ∈ filt) ->
    sel ∈ opts ->
    exists s, symbol_of_display sel i opts filt = Some s /\
              symbol_display_names !! s = Some sel /\ s ∈ filt.
Proof.
  induction opts as [|o opts IH]; intros i Hpar Hin.
  - by apply elem_of_nil in Hin.
  - cbn [symbol_of_display]. destruct (String.eqb_spec o sel) as [->|Hne].
    + destruct (Hpar 0%nat sel eq_refl) as (s & Hs & Hname & Hsin).
      rewrite Nat.add_0_r in Hs. by exists s.
    + apply elem_of_cons in Hin as [->|Hin]; [done|].
      apply IH; [|done]. intros k name Hk.
      destruct (Hpar (S k) name Hk) as (s & Hs & ?).
      exists s. split; [|done]. by rewrite Nat.add_succ_comm.
Qed.

Lemma selector_spec data_dir ls selectbox :
  selectbox (known_options
               (get_available_symbols (new_client data_dir) ls)).1 ∈
    (known_options (get_available_symbols (new_client data_dir) ls)).1 ->
  exists s,
    render_simple_stock_selector data_dir ls selectbox = Some s /\
    symbol_display_names !! s =
      Some (selectbox (known_options
                         (get_available_symbols (new_client data_dir) ls)).1) /\
    s ∈ get_available_symbols (new_client data_dir) ls.
Proof.
  unfold render_simple_stock_selector.
  set (avail := get_available_symbols (new_client data_dir) ls).
  intros Hin.
  destruct (symbol_of_display_spec
              (selectbox (known_options avail).1) (known_options avail).1
              (known_options avail).2 0) as (s & Hs & Hname & Hsin);
    [|done|].
  { intros k name Hk. destruct (known_options_parallel _ _ _ Hk) as (s & ? & ? & ?).
    exists s. split; [done|]. split; [done|].
    apply list_elem_of_lookup. by exists k. }
  exists s. split; [|split; [done|]].
  - destruct avail as [|a avail'] eqn:Havail.
    { rewrite known_options_spec in Hin. by apply elem_of_nil in Hin. }
    rewrite <- Havail in *.
    destruct (known_options avail) as [opts filt] eqn:Hk. cbn [fst snd] in *.
    destruct opts as [|o opts]; [by apply elem_of_nil in Hin|done].
  - rewrite known_options_spec in Hsin. cbn [snd] in Hsin.
    by apply list_elem_of_filter in Hsin as [_ ?].
Qed.

(** X18.  [render_simple_stock_selector] returns the symbol that was
    picked: when the drop-down hands back one of its options, the result
    is a listed symbol whose display name is that option, and it is the
    only symbol with that display name. *)
Theorem selector_returns_picked_symbol :
  forall (data_dir : string) (ls : string -> dir_state)
         (selectbox : list string -> string),
    selectbox (known_options
                 (get_available_symbols (new_client data_dir) ls)).1 ∈
      (known_options (get_available_symbols (new_client data_dir) ls)).1 ->
    exists s,
      render_simple_stock_selector data_dir ls selectbox = Some s /\
      symbol_display_names !! s =
        Some (selectbox (known_options
                           (get_available_symbols (new_client data_dir) ls)).1) /\
      s ∈ get_available_symbols (new_client data_dir) ls /\
      forall s', symbol_display_names !! s' = symbol_display_names !! s ->
                 s' = s.
Proof.
  intros data_dir ls selectbox Hin.
  destruct (selector_spec data_dir ls selectbox Hin) as (s & Hs & Hname & Hsin).
  exists s. do 3 (split; [done|]). intros s' Heq. rewrite Hname in Heq.
  by eapply display_name_inj.
Qed.

Lemma selector_returns_picked_symbol_tlt :
  exists s,
    render_simple_stock_selector "data" data_listing pick_second = Some s /\
    symbol_display_names !! s =
      Some (pick_second (known_options
                           (get_available_symbols (new_client "data")
                              data_listing)).1) /\
    s ∈ get_available_symbols (new_client "data") data_listing /\
    forall s', symbol_display_names !! s' = symbol_display_names !! s ->
               s' = s.
Proof.
  apply (selector_returns_picked_symbol "data" data_listing pick_second).
  by_evaluation.
Defined.

(** X19.  Selector, listing and loader agree on the symbols the selector
    knows: when the data directory holds the file that
    [_get_symbol_filename] names for such a symbol, the display name of the
    symbol is among the options, and picking it returns that symbol. *)
Theorem known_symbol_is_offered :
  forall (data_dir : string) (ls : string -> dir_state) (names : list string)
         (s name : string),
    ls data_dir = Listing names ->
    symbol_display_names !! s = Some name ->
    _get_symbol_filename s ∈ names ->
    name ∈ (known_options (get_available_symbols (new_client data_dir) ls)).1 /\
    forall selectbox,
      selectbox (known_options
                   (get_available_symbols (new_client data_dir) ls)).1 = name ->
      render_simple_stock_selector data_dir ls selectbox = Some s.
Proof.
  intros dir ls names s name Hls Hname Hfile.
  pose proof display_name_table as HT. rewrite Forall_forall in HT.
  destruct (HT _ (proj1 (display_name_lookup s name) Hname)) as (Hsf & Hsym & _).
  cbn [fst] in Hsf, Hsym.
  assert (Hs : s ∈ get_available_symbols (new_client dir) ls).
  { unfold get_available_symbols. cbn [data_dir new_client]. rewrite Hls.
    rewrite merge_sort_Permutation. apply list_elem_of_fmap.
    exists (_get_symbol_filename s). split; [done|].
    by apply list_elem_of_filter. }
  assert (Hopt : name ∈ (known_options
                           (get_available_symbols (new_client dir) ls)).1).
  { rewrite known_options_spec. cbn [fst]. apply list_elem_of_omap.
    by exists s. }
  split; [done|]. intros selectbox Hsel.
  destruct (selector_spec dir ls selectbox) as (s' & Hs' & Hname' & _).
  { by rewrite Hsel. }
  rewrite Hs'. f_equal. rewrite Hsel in Hname'. by eapply display_name_inj.
Qed.

Lemma known_symbol_is_offered_tlt :
  "📈 TLT (20-Year Treasury Bond)" ∈
    (known_options (get_available_symbols (new_client "data") data_listing)).1 /\
  forall selectbox,
    selectbox (known_options
                 (get_available_symbols (new_client "data") data_listing)).1 =
      "📈 TLT (20-Year Treasury Bond)" ->
    render_simple_stock_selector "data" data_listing selectbox = Some "TLT".
Proof.
  apply (known_symbol_is_offered "data" data_listing
           ["signals_TLT.json"; "readme.txt"; "signals_KS11.json";
            "signals_AAPL.json"] "TLT").
  - reflexivity.
  - reflexivity.
  - by_evaluation.
Defined.

(** ** Rendering *)

Lemma timeframe_of_cases settings :
  timeframe_of settings = "daily" \/
  (timeframe_of settings = "weekly" /\ resample_rule (timeframe_of settings) = Some W_FRI) \/
  (timeframe_of settings = "monthly" /\ resample_rule (timeframe_of settings) = Some M).
Proof.
  unfold timeframe_of. destruct settings as [s|]; [|by left].
  destruct (selected_indicator_group s) as [g|]; [|by left].
  destruct (String.eqb g "Short-term Analysis(daily chart)"); [by left|].
  destruct (String.eqb g "Mid-term Analysis(weekly chart)"); [by right; left|].
  destruct (String.eqb g "Long-term Analysis(monthly chart)");
    [by right; right|by left].
Qed.

Lemma figure_exists st ds settings a :
  chart_inputs ds = Some a ->
  exists fig, _create_candlestick_chart st ds settings = Some fig /\
              f_candles fig = a.
Proof.
  intros Ha. unfold _create_candlestick_chart. rewrite Ha.
  cbn [mbind option_bind].
  destruct (chart_inputs_lengths ds a Ha) as (_ & _ & _ & Hl & _).
  destruct (draw_signals_Some st settings ds a (length (c_dates a)) eq_refl Hl)
    as (marks & -> & _).
  destruct (fcv_zones_Some st ds a) as (zones & -> & _).
  cbn [mbind option_bind]. by eexists.
Qed.

(** X20.  [render_stock_chart] on a well-formed dataset without error and
    with at least one date: the timeframe it derives from the settings is
    always one of daily, weekly and monthly; it shows neither the warning
    nor an error, and the number of candles in the header is the number
    of bars of the figure, which is always drawn.  On the daily timeframe
    the bars are the dates of the dataset; otherwise every bar is dated on
    the end of its week or month. *)
Theorem render_counts_drawn_bars :
  forall (st : session) (ds : dataset) (settings : option chart_settings),
    well_formed ds -> dates ds <> [] -> error ds = None ->
    timeframe_of settings ∈ ["daily"; "weekly"; "monthly"] /\
    exists fig,
      render_stock_chart st ds settings =
        Rendered (timeframe_display (timeframe_of settings))
          (length (c_dates (f_candles fig))) (Some fig) /\
      (timeframe_of settings = "daily" -> c_dates (f_candles fig) = dates ds) /\
      (timeframe_of settings <> "daily" ->
       forall d, d ∈ c_dates (f_candles fig) ->
         exists r, resample_rule (timeframe_of settings) = Some r /\
                   rule_label r d = d).
Proof.
  intros st ds settings Hwf Hne Herr. split.
  { rewrite !elem_of_cons.
    destruct (timeframe_of_cases settings) as [->|[[-> _]|[-> _]]]; auto. }
  unfold render_stock_chart.
  destruct (timeframe_of_cases settings) as [Htf|Hr].
  - rewrite Htf. cbn [resample_data_to_timeframe String.eqb Ascii.eqb Bool.eqb].
    rewrite Herr. rewrite bool_decide_eq_false_2 by (by intros [? ?]).
    rewrite bool_decide_eq_false_2 by done. cbn [orb].
    destruct Hwf as (Hsorted & Hdata & _).
    destruct (data ds) as [s|] eqn:Hs; [|done].
    pose proof (chart_inputs_full ds s Hs Hdata Hne) as Ha.
    destruct (figure_exists st ds settings _ Ha) as (fig & -> & Hfig).
    exists fig. rewrite Hfig. cbn [c_dates]. split; [done|]. split; [done|].
    done.
  - assert (exists r, timeframe_of settings <> "daily" /\
                      resample_rule (timeframe_of settings) = Some r)
      as (r & Hnd & Hrule).
    { destruct Hr as [[Htf Hr]|[Htf Hr]]; eexists; (split; [|exact Hr]);
        by rewrite Htf. }
    rewrite (resample_weekly_monthly ds _ r Hwf Hrule). cbn zeta.
    cbn [error dates].
    assert (Haxis : r_date <$> dropna (resample_agg r (daily_records ds)) <> []).
    { destruct (dates ds) as [|d l] eqn:Hd; [done|].
      assert (d ∈ dates ds) as Hin by (rewrite Hd; left).
      pose proof (axis_covers r ds d Hwf Hin) as Hcov.
      intros Hnil. rewrite Hnil in Hcov. by apply elem_of_nil in Hcov. }
    rewrite bool_decide_eq_false_2 by (by intros [? ?]).
    rewrite bool_decide_eq_false_2 by done. cbn [orb].
    match goal with |- context [_create_candlestick_chart st ?d settings] =>
      set (ds' := d) end.
    assert (Ha : chart_inputs ds' =
                 Some {| c_dates := dates ds';
                         c_open := r_open <$> dropna (resample_agg r (daily_records ds));
                         c_high := r_high <$> dropna (resample_agg r (daily_records ds));
                         c_low := r_low <$> dropna (resample_agg r (daily_records ds));
                         c_close := r_close <$> dropna (resample_agg r (daily_records ds)) |}).
    { apply (chart_inputs_full ds' _ eq_refl); [|exact Haxis].
      apply same_length_spec. cbn [dates open high low close volume ds'].
      by rewrite !length_fmap. }
    destruct (figure_exists st ds' settings _ Ha) as (fig & -> & Hfig).
    exists fig. rewrite Hfig. cbn [c_dates]. split; [done|]. split; [done|].
    intros _ d Hd. exists r. split; [done|].
    destruct (axis_elem_daily r ds d Hwf Hd) as (d0 & _ & <-).
    apply period_idem.
Qed.

Lemma render_counts_drawn_bars_two_weeks :
  well_formed two_weeks /\
  timeframe_of (Some weekly_settings) ∈ ["daily"; "weekly"; "monthly"] /\
  exists fig,
    render_stock_chart all_shown two_weeks (Some weekly_settings) =
      Rendered (timeframe_display (timeframe_of (Some weekly_settings)))
        (length (c_dates (f_candles fig))) (Some fig) /\
    (timeframe_of (Some weekly_settings) = "daily" ->
     c_dates (f_candles fig) = dates two_weeks) /\
    (timeframe_of (Some weekly_settings) <> "daily" ->
     forall d, d ∈ c_dates (f_candles fig) ->
       exists r, resample_rule (timeframe_of (Some weekly_settings)) = Some r /\
                 rule_label r d = d).
Proof.
  assert (Hwf : well_formed two_weeks) by by_evaluation.
  split; [exact Hwf|].
  apply (render_counts_drawn_bars all_shown two_weeks (Some weekly_settings) Hwf).
  - discriminate.
  - reflexivity.
Defined.
